(** * Financial RAG chatbot: ingestion pipeline and query orchestration

    A shallow embedding of [backend/app/ingestion/pipeline.py] and
    [backend/app/api/rag_chatbot.py], and of the endpoints of
    [backend/uvicorn_app.py] that call the chatbot.

    Python [str] values are modelled as [string]; a character stands for a
    code point below 256.  Python [int] is [Z].  The collaborators the code
    calls but does not define (the vector store, the OpenAI client, PyPDF2,
    LangChain's text splitter, the file system, [uuid4]) are fields of a
    record [World]; every call to one of them is recorded in a trace, and a
    call either returns a value or raises. *)

From Stdlib Require Import ZArith Ascii String List Lia.
From Stdlib Require PrimFloat.
From stdpp Require Import base tactics option list sorting strings pretty gmap.

Local Open Scope Z_scope.

(** ** Python strings *)

Module Py.

(** The line feed, [chr(10)]. *)
Definition nl : string := String (ascii_of_nat 10) "".

Definition len (s : string) : Z := Z.of_nat (String.length s).

(** [str.isspace] on one character, for code points below 256:
    TAB..CR, FS..US, SPACE, NEL and NBSP. *)
Definition isspace (c : ascii) : bool :=
  let n := N_of_ascii c in
  ((9 <=? n) && (n <=? 13) || (28 <=? n) && (n <=? 32)
   || (n =? 133) || (n =? 160))%N.

Fixpoint lstrip (s : string) : string :=
  match s with
  | EmptyString => EmptyString
  | String c s' => if isspace c then lstrip s' else s
  end.

Definition rstrip (s : string) : string :=
  String.rev (lstrip (String.rev s)).

(** [s.strip()] *)
Definition strip (s : string) : string := rstrip (lstrip s).

(** Every character is white space (true of the empty string). *)
Fixpoint all_space (s : string) : bool :=
  match s with
  | EmptyString => true
  | String c s' => isspace c && all_space s'
  end.

(** [str.lower] on one character, for code points below 256: the
    letters A..Z and the Latin-1 capitals (all of 192..222 but the
    multiplication sign 215) move up by 32. *)
Definition lower_char (c : ascii) : ascii :=
  let n := N_of_ascii c in
  if ((65 <=? n) && (n <=? 90)
      || (192 <=? n) && (n <=? 222) && negb (n =? 215))%N
  then ascii_of_N (n + 32) else c.

Fixpoint lower (s : string) : string :=
  match s with
  | EmptyString => EmptyString
  | String c s' => String (lower_char c) (lower s')
  end.

(** [sep.join(parts)] *)
Fixpoint join (sep : string) (parts : list string) : string :=
  match parts with
  | [] => ""
  | [p] => p
  | p :: rest => p +:+ sep +:+ join sep rest
  end.

(** Clamp a slice bound the way [s[a:b]] does: a negative bound counts
    from the end, and the outcome is brought into [0 .. n]. *)
Definition clamp (n i : Z) : Z :=
  if i <? 0 then Z.max 0 (i + n) else Z.min i n.

(** [s[start:stop]] *)
Definition slice (s : string) (start stop : Z) : string :=
  let n := len s in
  let a := clamp n start in
  let b := clamp n stop in
  String.substring (Z.to_nat a) (Z.to_nat (b - a)) s.

(** [s[:k]] and [s[k:]] *)
Definition slice_to (s : string) (k : Z) : string := slice s 0 k.
Definition slice_from (s : string) (k : Z) : string := slice s k (len s).

(** [len(s.split())]: the number of maximal runs of characters that are
    not white space. *)
Fixpoint count_words_go (inword : bool) (s : string) : Z :=
  match s with
  | EmptyString => 0
  | String c s' =>
      if isspace c then count_words_go false s'
      else (if inword then 0 else 1) + count_words_go true s'
  end.
Definition count_words (s : string) : Z := count_words_go false s.

(** [s.rfind(c)] for a one-character needle: the index of the last
    occurrence, or -1. *)
Fixpoint rfind_go (c : ascii) (s : string) (i : Z) (last : Z) : Z :=
  match s with
  | EmptyString => last
  | String d s' => rfind_go c s' (i + 1) (if Ascii.eqb c d then i else last)
  end.
Definition rfind (c : ascii) (s : string) : Z := rfind_go c s 0 (-1).

(** [s.split(c)] for a one-character separator. *)
Fixpoint split_on (c : ascii) (s : string) : list string :=
  match s with
  | EmptyString => [""]
  | String d s' =>
      if Ascii.eqb c d then "" :: split_on c s'
      else match split_on c s' with
           | [] => [String d ""]
           | w :: ws => String d w :: ws
           end
  end.

(** [range(start, stop, step)] as the list of its values; a zero step
    is the [ValueError] of the constructor, returned as [None]. *)
Definition range (start stop step : Z) : option (list Z) :=
  if step =? 0 then None
  else
    let count :=
      if 0 <? step
      then (if start <? stop then (stop - start - 1) / step + 1 else 0)
      else (if stop <? start then (start - stop - 1) / (- step) + 1 else 0) in
    Some (map (fun k => start + Z.of_nat k * step) (seq 0 (Z.to_nat count))).

End Py.

(** ** pathlib and os.path (POSIX flavour) *)

Module Path.

(** [Path(p).name]: the last component of [p], where empty components
    and ["."] components do not count. *)
Definition name (p : string) : string :=
  default "" (last (filter (fun c => c <> "" /\ c <> ".")
                           (Py.split_on "/"%char p))).

(** [Path(p).suffix]: the part of the name from its last dot on, when
    that dot is neither the first nor the last character of the name. *)
Definition suffix (p : string) : string :=
  let n := name p in
  let i := Py.rfind "."%char n in
  if (0 <? i) && (i <? Py.len n - 1) then Py.slice_from n i else "".

(** [os.path.join(a, b)] *)
Definition join (a b : string) : string :=
  match b with
  | String "/"%char _ => b
  | _ =>
      if decide (a = "") then b
      else if decide (Py.slice_from a (-1) = "/") then a +:+ b
      else a +:+ "/" +:+ b
  end.

End Path.

(** ** Results, exceptions and effects *)

(** An instance of [Exception]: its class name and [str(e)]. *)
Record exn := Exception { exn_class : string; exn_str : string }.

Inductive result (A : Type) : Type :=
| Ok (a : A)
| Raise (e : exn).
Arguments Ok {A} a.
Arguments Raise {A} e.

(** Values held in the open-ended dictionaries. *)
Inductive pyval :=
| VNone
| VInt (z : Z)
| VStr (s : string).

(** How an f-string renders a value. *)
Definition format (v : pyval) : string :=
  match v with
  | VNone => "None"
  | VInt z => pretty z
  | VStr s => s
  end.

(** A relevance score: a float, or the integer default. *)
Inductive number :=
| NInt (z : Z)
| NFloat (x : PrimFloat.float).

(** ** Data model *)

(** One hit of the vector store: a dictionary whose keys ['content'],
    ['metadata'] and ['relevance_score'] may each be missing. *)
Record SearchResult := mkSearchResult {
  sr_content : option string;
  sr_metadata : option (gmap string pyval);
  sr_relevance_score : option number }.

(** One entry of the sources list. *)
Record Source := mkSource {
  src_content : string;
  src_metadata : gmap string pyval;
  src_relevance_score : number;
  src_document_type : pyval }.

Record ChatRequest := mkChatRequest {
  message : string;
  req_document_id : option string }.

Record ChatResponse := mkChatResponse {
  response : string;
  sources : list Source;
  chat_metadata : list (string * pyval) }.

Record DocumentUploadResponse := mkDocumentUploadResponse {
  up_document_id : string;
  up_filename : string;
  up_document_type : string;
  up_status : string;
  up_metadata : list (string * pyval) }.

(** What [PDFProcessor.process] returns. *)
Record PdfMetadata := mkPdfMetadata {
  pdf_total_chunks : Z;
  pdf_total_characters : Z;
  pdf_total_words : Z;
  pdf_chunks : list string;
  pdf_full_text : string }.

(** What [process_document] returns and the registry stores: the
    processor's dictionary updated with the document's own keys. *)
Record DocMetadata := mkDocMetadata {
  doc_total_chunks : Z;
  doc_total_characters : Z;
  doc_total_words : Z;
  doc_chunks : list string;
  doc_full_text : string;
  doc_document_id : string;
  doc_filename : string;
  doc_file_type : string;
  doc_file_path : string;
  doc_status : string }.

Record Settings := mkSettings {
  openai_model : string;
  upload_directory : string;
  max_chunk_size : Z;
  chunk_overlap : Z;
  rag_top_k_results : Z }.

(** ** Collaborators *)

(** The object [get_vector_store()] returns. *)
Record VectorStore := mkVectorStore {
  search_similar_chunks :
    string -> Z -> option string -> result (list SearchResult);
  add_document_chunks :
    string -> list string -> list (string * pyval) -> result unit }.

(** Everything the two modules call and do not define.
    - [chat_completions_create model messages]: the contents of the
      [choices] of the completion, [None] for a message without content;
    - [uuid4]: the identifier [str(uuid.uuid4())] yields;
    - [write_file path bytes]: [open(path, 'wb')] and [write];
    - [pdf_pages path]: opening the file and building the [PdfReader]
      gives the pages, each with the outcome of its [extract_text()];
    - [split_text]: the configured [RecursiveCharacterTextSplitter]. *)
Record World := mkWorld {
  settings : Settings;
  get_vector_store : result VectorStore;
  chat_completions_create :
    string -> list (string * string) -> result (list (option string));
  uuid4 : string;
  write_file : string -> list Byte.byte -> result unit;
  pdf_pages : string -> result (list (result string));
  split_text : string -> result (list string) }.

Inductive log_level := LInfo | LWarning | LError.

(** The calls a request makes, in order. *)
Inductive event :=
| EvGetVectorStore
| EvSearch (query : string) (top_k : Z) (doc : option string)
| EvAddChunks (doc : string) (cs : list string) (meta : list (string * pyval))
| EvChatCompletion (model : string) (messages : list (string * string))
| EvWriteFile (path : string) (content : list Byte.byte)
| EvReadPdf (path : string)
| EvSplitText (text : string)
| EvLog (level : log_level).

(** The state a request runs in: the chatbot's [document_store] and the
    trace of calls made so far. *)
Record State := mkState {
  document_store : gmap string DocMetadata;
  trace : list event }.

(** A computation reads and updates the state, and returns or raises;
    what was done before a raise stays done. *)
Definition M (A : Type) : Type := State -> result A * State.

Definition ret {A} (a : A) : M A := fun st => (Ok a, st).
Definition raise {A} (e : exn) : M A := fun st => (Raise e, st).
Definition bind {A B} (m : M A) (k : A -> M B) : M B :=
  fun st =>
    match m st with
    | (Ok a, st') => k a st'
    | (Raise e, st') => (Raise e, st')
    end.

(** [try: body except Exception as e: handler] *)
Definition try_except {A} (body : M A) (handler : exn -> M A) : M A :=
  fun st =>
    match body st with
    | (Ok a, st') => (Ok a, st')
    | (Raise e, st') => handler e st'
    end.

Notation "'do' x <- m ; k" := (bind m (fun x => k))
  (at level 10, x name, m at level 100, k at level 200).
Notation "'do' ' p <- m ; k" := (bind m (fun x => let 'p := x in k))
  (at level 10, p pattern, m at level 100, k at level 200).
Notation "'run' m ; k" := (bind m (fun _ => k))
  (at level 10, m at level 100, k at level 200).

(** Record a call in the trace. *)
Definition emit (ev : event) : M unit :=
  fun st => (Ok tt, mkState (document_store st) (trace st ++ [ev])).

(** Make a call: record it, then return or raise as it does. *)
Definition call {A} (ev : event) (r : result A) : M A :=
  run emit ev; (fun st => (r, st)).

Definition log (l : log_level) : M unit := emit (EvLog l).

(** [self.document_store[k] = v] *)
Definition store_document (k : string) (v : DocMetadata) : M unit :=
  fun st => (Ok tt, mkState (<[k := v]> (document_store st)) (trace st)).

(** A step that has no effect but may raise. *)
Definition lift {A} (r : result A) : M A := fun st => (r, st).

(** ** pipeline.py: PDFProcessor *)

(** The loop [for page in pdf_reader.pages: text += page.extract_text() + nl];
    the first page whose extraction raises ends it. *)
Fixpoint concat_pages (text : string) (pages : list (result string))
  : result string :=
  match pages with
  | [] => Ok text
  | Ok t :: rest => concat_pages (text +:+ t +:+ Py.nl) rest
  | Raise e :: _ => Raise e
  end.

Definition extract_text (w : World) (file_path : string) : M string :=
  try_except
    (do pages <- call (EvReadPdf file_path) (pdf_pages w file_path);
     do text <- lift (concat_pages "" pages);
     ret (Py.strip text))
    (fun e => run log LError; raise e).

(** The fallback of [chunk_text]:
    [[text[i:i+C] for i in range(0, len(text), C - O)]]. *)
Definition fallback_chunks (C O : Z) (text : string) : result (list string) :=
  match Py.range 0 (Py.len text) (C - O) with
  | None => Raise (Exception "ValueError" "range() arg 3 must not be zero")
  | Some idx => Ok (map (fun i => Py.slice text i (i + C)) idx)
  end.

Definition chunk_text (w : World) (text : string) : M (list string) :=
  try_except
    (do chunks <- call (EvSplitText text) (split_text w text);
     run log LInfo;
     ret chunks)
    (fun e =>
       run log LError;
       lift (fallback_chunks (max_chunk_size (settings w))
                             (chunk_overlap (settings w)) text)).

Definition process (w : World) (file_path : string) : M PdfMetadata :=
  try_except
    (do text <- extract_text w file_path;
     do chunks <- chunk_text w text;
     let metadata :=
       {| pdf_total_chunks := Z.of_nat (length chunks);
          pdf_total_characters := Py.len text;
          pdf_total_words := Py.count_words text;
          pdf_chunks := chunks;
          pdf_full_text := text |} in
     run log LInfo;
     ret metadata)
    (fun e => run log LError; raise e).

(** ** pipeline.py: DocumentIngestionPipeline *)

Definition get_file_type (filename : string) : result string :=
  let ext := Py.lower (Path.suffix filename) in
  if decide (ext = ".pdf") then Ok "pdf"
  else Raise (Exception "ValueError"
                ("Unsupported file type: " +:+ ext
                 +:+ ". Only PDF files are supported.")).

Definition save_file (w : World) (file_content : list Byte.byte)
    (filename : string) : M (string * string) :=
  let document_id := uuid4 w in
  let file_extension := Path.suffix filename in
  let saved_filename := document_id +:+ file_extension in
  let file_path := Path.join (upload_directory (settings w)) saved_filename in
  run call (EvWriteFile file_path file_content)
           (write_file w file_path file_content);
  ret (file_path, document_id).

Definition process_document (w : World) (file_content : list Byte.byte)
    (filename : string) : M DocMetadata :=
  try_except
    (do '(file_path, document_id) <- save_file w file_content filename;
     do file_type <- lift (get_file_type filename);
     do metadata <- process w file_path;
     let metadata :=
       {| doc_total_chunks := pdf_total_chunks metadata;
          doc_total_characters := pdf_total_characters metadata;
          doc_total_words := pdf_total_words metadata;
          doc_chunks := pdf_chunks metadata;
          doc_full_text := pdf_full_text metadata;
          doc_document_id := document_id;
          doc_filename := filename;
          doc_file_type := file_type;
          doc_file_path := file_path;
          doc_status := "processed" |} in
     run log LInfo;
     ret metadata)
    (fun e => run log LError; raise e).

(** ** rag_chatbot.py: SimpleRAGChatbot *)

(** [result.get('metadata', {})] and [result.get('content', '')] *)
Definition result_metadata (r : SearchResult) : gmap string pyval :=
  default ∅ (sr_metadata r).
Definition result_content (r : SearchResult) : string :=
  default "" (sr_content r).

Definition context_header : string := "=== RELEVANT DOCUMENT CONTENT ===".

(** The loop over [enumerate(search_results[:3])]: each result appends
    its label, its content and an empty string to [context_parts]. *)
Fixpoint context_loop (i : Z) (results : list SearchResult)
    (context_parts : list string) : list string :=
  match results with
  | [] => context_parts
  | r :: rest =>
      let filename := default (VStr "Unknown") (result_metadata r !! "filename") in
      let content := result_content r in
      context_loop (i + 1) rest
        (context_parts
           ++ ["Source " +:+ pretty (i + 1) +:+ " (from " +:+ format filename
               +:+ "):"; content; ""])
  end.

Definition _prepare_context_from_search_results
    (search_results : list SearchResult) : string :=
  match search_results with
  | [] => ""
  | _ => Py.join Py.nl (context_loop 0 (take 3 search_results) [context_header])
  end.

(** The prompt of [_generate_response], an f-string over [context] and
    [query]. *)
Definition prompt_of (query context : string) : string :=
  Py.join Py.nl
    [ "You are a helpful financial assistant. Answer the user's question based on the provided context from financial documents.";
      "";
      "Context from financial documents:";
      context;
      "";
      "User Question: " +:+ query;
      "";
      "Instructions:";
      "- Provide a clear and accurate answer based on the context provided";
      "- If the context doesn't contain enough information, clearly state this limitation";
      "- Use professional financial language";
      "- Be concise but comprehensive";
      "- If you find specific numbers, metrics, or data in the context, include them in your answer";
      "- Always cite which document the information comes from when possible";
      "";
      "Answer:" ].

Definition system_message : string :=
  "You are a helpful financial assistant that answers questions based on provided document context.".

Definition generation_apology : string :=
  "I encountered an error while generating a response. Please try again.".

(** The completion is requested with [temperature=0.1] and
    [max_tokens=500]; [response.choices[0].message.content.strip()] raises
    on an empty [choices] and on a missing content. *)
Definition _generate_response (w : World) (query context : string) : M string :=
  try_except
    (let prompt := prompt_of query context in
     let messages := [("system", system_message); ("user", prompt)] in
     do choices <- call (EvChatCompletion (openai_model (settings w)) messages)
                     (chat_completions_create w (openai_model (settings w))
                        messages);
     match choices with
     | [] => raise (Exception "IndexError" "list index out of range")
     | None :: _ =>
         raise (Exception "AttributeError"
                  "'NoneType' object has no attribute 'strip'")
     | Some content :: _ => ret (Py.strip content)
     end)
    (fun e => run log LError; ret generation_apology).

(** The dictionary built for one result in [_prepare_sources]. *)
Definition source_of (r : SearchResult) : Source :=
  {| src_content :=
       if 200 <? Py.len (result_content r)
       then Py.slice_to (result_content r) 200 +:+ "..."
       else result_content r;
     src_metadata := result_metadata r;
     src_relevance_score := default (NInt 0) (sr_relevance_score r);
     src_document_type :=
       default (VStr "unknown") (result_metadata r !! "file_type") |}.

(** The loop [for result in search_results: sources.append(source)]. *)
Fixpoint sources_loop (search_results : list SearchResult)
    (sources : list Source) : list Source :=
  match search_results with
  | [] => sources
  | r :: rest => sources_loop rest (sources ++ [source_of r])
  end.

Definition _prepare_sources (search_results : list SearchResult)
  : list Source :=
  sources_loop search_results [].

Definition empty_message_reply : string :=
  "Please provide a question about your uploaded documents.".

Definition no_information_reply : string :=
  "I couldn't find relevant information in the uploaded documents to answer your question. Please make sure you have uploaded PDF documents first.".

Definition processing_error_reply : string :=
  "I encountered an error while processing your request. Please try again.".

Definition option_str (o : option string) : pyval :=
  match o with Some s => VStr s | None => VNone end.

Definition process_chat_message (w : World) (request : ChatRequest)
  : M ChatResponse :=
  try_except
    (let query := Py.strip (message request) in
     if decide (query = "") then
       ret {| response := empty_message_reply;
              sources := [];
              chat_metadata := [("error", VStr "Empty message")] |}
     else
       do vector_store <- call EvGetVectorStore (get_vector_store w);
       do search_results <-
         call (EvSearch query (rag_top_k_results (settings w))
                 (req_document_id request))
              (search_similar_chunks vector_store query
                 (rag_top_k_results (settings w)) (req_document_id request));
       match search_results with
       | [] =>
           ret {| response := no_information_reply;
                  sources := [];
                  chat_metadata := [("context_chunks_found", VInt 0)] |}
       | _ =>
           let context_text :=
             _prepare_context_from_search_results search_results in
           do response <- _generate_response w query context_text;
           let sources := _prepare_sources search_results in
           ret {| response := response;
                  sources := sources;
                  chat_metadata :=
                    [("context_chunks_found",
                       VInt (Z.of_nat (length search_results)));
                     ("document_id", option_str (req_document_id request));
                     ("query_type", VStr "rag")] |}
       end)
    (fun e =>
       run log LError;
       ret {| response := processing_error_reply;
              sources := [];
              chat_metadata := [("error", VStr (exn_str e))] |}).

Definition upload_document (w : World) (file_content : list Byte.byte)
    (filename : string) : M DocumentUploadResponse :=
  try_except
    (do metadata <- process_document w file_content filename;
     let document_id := doc_document_id metadata in
     run store_document document_id metadata;
     run (match doc_chunks metadata with
          | _ :: _ =>
              run log LInfo;
              do vector_store <- call EvGetVectorStore (get_vector_store w);
              let meta :=
                [("filename", VStr (doc_filename metadata));
                 ("file_type", VStr (doc_file_type metadata));
                 ("total_chunks", VInt (doc_total_chunks metadata))] in
              run call (EvAddChunks document_id (doc_chunks metadata) meta)
                       (add_document_chunks vector_store document_id
                          (doc_chunks metadata) meta);
              log LInfo
          | [] => log LWarning
          end);
     ret {| up_document_id := document_id;
            up_filename := filename;
            up_document_type := doc_file_type metadata;
            up_status := "processed";
            up_metadata :=
              [("total_chunks", VInt (doc_total_chunks metadata));
               ("total_words", VInt (doc_total_words metadata));
               ("file_size", VInt (Z.of_nat (length file_content)))] |})
    (fun e =>
       run log LError;
       ret {| up_document_id := "";
              up_filename := filename;
              up_document_type := "pdf";
              up_status := "error";
              up_metadata := [("error", VStr (exn_str e))] |}).

(** ** rag_chatbot.py: the read operations *)

#[global] Instance pyval_eq_dec : EqDecision pyval.
Proof. solve_decision. Defined.

(** A Python dictionary built by a literal: its items in order. *)
Definition pydict : Type := list (string * pyval).

(** [d.get(k)]: the value of the first item with key [k]. *)
Fixpoint dict_get (d : pydict) (k : string) : option pyval :=
  match d with
  | [] => None
  | (k', v) :: rest => if decide (k' = k) then Some v else dict_get rest k
  end.

(** [d[k]], which raises [KeyError(k)] on a missing key; the text of
    that exception is [repr(k)]. *)
Definition dict_item (d : pydict) (k : string) : result pyval :=
  match dict_get d k with
  | Some v => Ok v
  | None => Raise (Exception "KeyError" ("'" +:+ k +:+ "'"))
  end.

(** A chunk as the vector store hands it out: a dictionary whose
    ['metadata'] key may be missing. *)
Record StoredChunk := mkStoredChunk {
  sc_content : option string;
  sc_metadata : option (gmap string pyval) }.

(** A world together with the two read methods of its vector store,
    [get_document_chunks] and [get_collection_stats].  Calls of these two
    are not entered in the trace. *)
Record Backend := mkBackend {
  be_world : World;
  vs_get_document_chunks : string -> result (list StoredChunk);
  vs_get_collection_stats : result pydict }.

(** Read [self.document_store]. *)
Definition read_store : M (gmap string DocMetadata) :=
  fun st => (Ok (document_store st), st).

Definition get_document_info (b : Backend) (document_id : string)
  : M (option pydict) :=
  try_except
    (do store <- read_store;
     match store !! document_id with
     | Some doc_data =>
         ret (Some [("document_id", VStr document_id);
                    ("filename", VStr (doc_filename doc_data));
                    ("file_type", VStr (doc_file_type doc_data));
                    ("total_chunks", VInt (doc_total_chunks doc_data));
                    ("total_words", VInt (doc_total_words doc_data));
                    ("status", VStr (doc_status doc_data))])
     | None =>
         do vector_store <-
           call EvGetVectorStore (get_vector_store (be_world b));
         do chunks <- lift (vs_get_document_chunks b document_id);
         match chunks with
         | [] => ret None
         | first :: _ =>
             do metadata <-
               lift (match sc_metadata first with
                     | Some m => Ok m
                     | None => Raise (Exception "KeyError" "'metadata'")
                     end);
             ret (Some [("document_id", VStr document_id);
                        ("filename",
                          default (VStr "Unknown") (metadata !! "filename"));
                        ("file_type",
                          default (VStr "unknown") (metadata !! "file_type"));
                        ("total_chunks", VInt (Z.of_nat (length chunks)));
                        ("upload_date",
                          default (VStr "Unknown")
                            (metadata !! "upload_date"))])
         end
     end)
    (fun e => run log LError; ret None).

(** One entry of [list_documents]. *)
Definition document_entry (doc_id : string) (doc_data : DocMetadata) : pydict :=
  [("document_id", VStr doc_id);
   ("filename", VStr (doc_filename doc_data));
   ("file_type", VStr (doc_file_type doc_data));
   ("status", VStr (doc_status doc_data));
   ("total_chunks", VInt (doc_total_chunks doc_data))].

(** The store is a finite map without a memory of insertion order: the
    entries come in the order of [map_to_list], where the dictionary of
    the source iterates in insertion order. *)
Definition list_documents : M (list pydict) :=
  try_except
    (do store <- read_store;
     let documents :=
       map (fun item => document_entry (fst item) (snd item))
           (map_to_list store) in
     run log LInfo;
     ret documents)
    (fun e => run log LError; ret []).

Definition search_documents (w : World) (query : string) (top_k : Z)
  : M (list SearchResult) :=
  try_except
    (do vector_store <- call EvGetVectorStore (get_vector_store w);
     do results <-
       call (EvSearch query top_k None)
            (search_similar_chunks vector_store query top_k None);
     run log LInfo;
     ret results)
    (fun e => run log LError; ret []).

Definition get_document_chunks (b : Backend) (document_id : string)
  : M (list StoredChunk) :=
  try_except
    (do vector_store <- call EvGetVectorStore (get_vector_store (be_world b));
     do chunks <- lift (vs_get_document_chunks b document_id);
     run log LInfo;
     ret chunks)
    (fun e => run log LError; ret []).

(** ** uvicorn_app.py: the endpoints over the chatbot *)

(** How an endpoint ends: it returns a value, or raises
    [HTTPException(status_code, detail)]. *)
Inductive http (A : Type) : Type :=
| Respond (a : A)
| HTTPException (status_code : Z) (detail : string).
Arguments Respond {A} a.
Arguments HTTPException {A} status_code detail.

(** [s.endswith(suffix)] *)
Definition endswith (s suffix : string) : bool :=
  (String.length suffix <=? String.length s)%nat
  && String.eqb
       (String.substring (String.length s - String.length suffix)
          (String.length suffix) s)
       suffix.

(** The file-name guard of [upload_multiple_files]:
    [file.filename.lower().endswith('.pdf')]. *)
Definition endpoint_allows (filename : string) : bool :=
  endswith (Py.lower filename) ".pdf".

(** What [GET /documents/{document_id}] returns. *)
Record DocumentView := mkDocumentView {
  dv_document_id : string;
  dv_filename : pyval;
  dv_file_type : pyval;
  dv_status : pyval;
  dv_metadata : pydict }.

(** What [GET /stats] returns. *)
Record Stats := mkStats {
  total_documents : Z;
  pdf_documents : Z;
  stats_vector_store : pydict;
  chatbot_type : string }.

Module Api.

(** Leave the endpoint through [except Exception as e]: log, then
    [HTTPException(500, str(e))]. *)
Definition internal_error {A} (e : exn) (st : State) : http A * State :=
  (HTTPException 500 (exn_str e),
   mkState (document_store st) (trace st ++ [EvLog LError])).

(** An endpoint whose body raises no [HTTPException] of its own. *)
Definition guarded {A} (body : M A) : State -> http A * State :=
  fun st =>
    match body st with
    | (Ok a, st') => (Respond a, st')
    | (Raise e, st') => internal_error e st'
    end.

Definition chat (w : World) (request : ChatRequest)
  : State -> http ChatResponse * State :=
  fun st =>
    if decide (Py.strip (message request) = "") then
      (HTTPException 400 "Message cannot be empty", st)
    else
      match process_chat_message w request st with
      | (Ok response, st') =>
          (Respond response,
           mkState (document_store st') (trace st' ++ [EvLog LInfo]))
      | (Raise e, st') => internal_error e st'
      end.

(** The dictionary of the response is built key by key; the first
    missing key of [doc_info] ends it with a [KeyError]. *)
Definition document_view (document_id : string) (doc_info : pydict)
  : result DocumentView :=
  match dict_item doc_info "filename" with
  | Raise e => Raise e
  | Ok filename =>
      match dict_item doc_info "file_type" with
      | Raise e => Raise e
      | Ok file_type =>
          match dict_item doc_info "status" with
          | Raise e => Raise e
          | Ok status =>
              Ok {| dv_document_id := document_id;
                    dv_filename := filename;
                    dv_file_type := file_type;
                    dv_status := status;
                    dv_metadata :=
                      [("total_chunks",
                         default (VInt 0) (dict_get doc_info "total_chunks"));
                       ("total_words",
                         default (VInt 0) (dict_get doc_info "total_words"));
                       ("total_characters",
                         default (VInt 0)
                           (dict_get doc_info "total_characters"))] |}
          end
      end
  end.

Definition get_document (b : Backend) (document_id : string)
  : State -> http DocumentView * State :=
  fun st =>
    match get_document_info b document_id st with
    | (Ok None, st') | (Ok (Some []), st') =>
        (HTTPException 404 "Document not found", st')
    | (Ok (Some doc_info), st') =>
        match document_view document_id doc_info with
        | Ok view => (Respond view, st')
        | Raise e => internal_error e st'
        end
    | (Raise e, st') => internal_error e st'
    end.

(** [len([d for d in documents if d["file_type"] == "pdf"])] *)
Fixpoint count_pdf (documents : list pydict) : result Z :=
  match documents with
  | [] => Ok 0
  | d :: rest =>
      match dict_item d "file_type" with
      | Raise e => Raise e
      | Ok v =>
          match count_pdf rest with
          | Raise e => Raise e
          | Ok n => Ok (if decide (v = VStr "pdf") then 1 + n else n)
          end
      end
  end.

Definition get_stats (b : Backend) : State -> http Stats * State :=
  guarded
    (do documents <- list_documents;
     do vector_store <- call EvGetVectorStore (get_vector_store (be_world b));
     do vector_stats <- lift (vs_get_collection_stats b);
     do pdfs <- lift (count_pdf documents);
     ret {| total_documents := Z.of_nat (length documents);
            pdf_documents := pdfs;
            stats_vector_store := vector_stats;
            chatbot_type := "RAG-based" |}).

Definition list_documents : State -> http (list pydict) * State :=
  guarded list_documents.

End Api.

(** ** Properties of traces and chunk sequences *)

Definition is_llm_call (ev : event) : bool :=
  match ev with EvChatCompletion _ _ => true | _ => false end.

Definition is_index_write (ev : event) : bool :=
  match ev with EvAddChunks _ _ _ => true | _ => false end.

(** No event of the kind [p] among [evs]. *)
Definition none_of (p : event -> bool) (evs : list event) : Prop :=
  Forall (fun ev => p ev = false) evs.

(** The three replies of [process_chat_message] that carry no sources. *)
Definition empty_message_response : ChatResponse :=
  {| response := empty_message_reply;
     sources := [];
     chat_metadata := [("error", VStr "Empty message")] |}.

Definition no_information_response : ChatResponse :=
  {| response := no_information_reply;
     sources := [];
     chat_metadata := [("context_chunks_found", VInt 0)] |}.

Definition processing_error_response (e : exn) : ChatResponse :=
  {| response := processing_error_reply;
     sources := [];
     chat_metadata := [("error", VStr (exn_str e))] |}.

(** The context the specification describes: the [n]-th selected result
    gives the label line and then its content; blocks are separated by a
    blank line. *)
Definition source_label (n : Z) (r : SearchResult) : string :=
  "Source " +:+ pretty n +:+ " (from "
  +:+ format (default (VStr "Unknown") (result_metadata r !! "filename"))
  +:+ "):".

Definition source_block (n : Z) (r : SearchResult) : string :=
  source_label n r +:+ Py.nl +:+ result_content r.

Fixpoint source_blocks (n : Z) (results : list SearchResult) : list string :=
  match results with
  | [] => []
  | r :: rest => source_block n r :: source_blocks (n + 1) rest
  end.

Definition blank_line : string := Py.nl +:+ Py.nl.

(** What the loop of the assembler adds behind the header, as one string. *)
Fixpoint appended_blocks (n : Z) (results : list SearchResult) : string :=
  match results with
  | [] => ""
  | r :: rest =>
      Py.nl +:+ source_block n r +:+ Py.nl +:+ appended_blocks (n + 1) rest
  end.

(** [stitches cs t]: [t] is the concatenation of the chunks [cs] once
    the text each chunk repeats from the end of the chunk before it has
    been removed.  Two neighbours are [pre +:+ ov] and [ov +:+ rest], any
    [ov] being allowed, the empty one included. *)
Inductive stitches : list string -> string -> Prop :=
| stitches_nil : stitches [] ""
| stitches_one c : stitches [c] c
| stitches_cons pre ov rest cs t :
    stitches ((ov +:+ rest) :: cs) t ->
    stitches ((pre +:+ ov) :: (ov +:+ rest) :: cs) (pre +:+ t).

(** [s[i:]] for an index that is not negative. *)
Definition suffix_from (i : nat) (s : string) : string :=
  String.substring i (String.length s - i) s.

(** How many values [range(0, n, s)] has, for a positive [s]. *)
Definition window_count (s n : Z) : nat :=
  Z.to_nat (if 0 <? n then (n - 1) / s + 1 else 0).

(** Whether a call raised. *)
Definition raises {A} (r : result A) : bool :=
  match r with Raise _ => true | Ok _ => false end.

(** Reading a PDF fails: building the reader raises, or the extraction
    of one of the pages does. *)
Definition reading_raises (r : result (list (result string))) : bool :=
  match r with
  | Raise _ => true
  | Ok pages => existsb raises pages
  end.

(** A readable PDF without a text layer: every page extracts to the
    empty string. *)
Definition no_extractable_text (r : result (list (result string))) : Prop :=
  exists pages, r = Ok pages /\ Forall (fun p => p = Ok "") pages.

(** Every text followed by a line feed, concatenated. *)
Fixpoint lines (texts : list string) : string :=
  match texts with
  | [] => ""
  | t :: rest => t +:+ Py.nl +:+ lines rest
  end.

(** The reply when the search found something: the generated text, the
    sources of every result, and the three metadata entries. *)
Definition rag_response (request : ChatRequest) (text : string)
    (search_results : list SearchResult) : ChatResponse :=
  {| response := text;
     sources := _prepare_sources search_results;
     chat_metadata :=
       [("context_chunks_found", VInt (Z.of_nat (length search_results)));
        ("document_id", option_str (req_document_id request));
        ("query_type", VStr "rag")] |}.

Arguments Path.suffix : simpl never.
Arguments Path.join : simpl never.
Arguments Py.lower : simpl never.
Arguments process : simpl never.
Arguments get_file_type : simpl never.

(** The path [save_file] writes the upload to. *)
Definition saved_path (w : World) (filename : string) : string :=
  Path.join (upload_directory (settings w)) (uuid4 w +:+ Path.suffix filename).

(** The error record [upload_document] builds from a caught exception. *)
Definition upload_error_response (filename : string) (e : exn)
  : DocumentUploadResponse :=
  {| up_document_id := "";
     up_filename := filename;
     up_document_type := "pdf";
     up_status := "error";
     up_metadata := [("error", VStr (exn_str e))] |}.

Definition unsupported_type_error (filename : string) : exn :=
  Exception "ValueError"
    ("Unsupported file type: " +:+ Py.lower (Path.suffix filename)
     +:+ ". Only PDF files are supported.").

Abbreviation to_list := String.list_ascii_of_string.

Ltac unfold_m :=
  unfold try_except, bind, call, log, emit, lift, ret, raise, store_document.

(** ** Example worlds *)

Definition default_settings : Settings :=
  {| openai_model := "gpt-4-turbo-preview";
     upload_directory := "/srv/uploads";
     max_chunk_size := 1000;
     chunk_overlap := 200;
     rag_top_k_results := 5 |}.

(** Windows of four characters that overlap by one. *)
Definition narrow_settings : Settings :=
  {| openai_model := "gpt-4-turbo-preview";
     upload_directory := "/srv/uploads";
     max_chunk_size := 4;
     chunk_overlap := 1;
     rag_top_k_results := 5 |}.

(** A vector store whose search returns [hits] and whose write ends as
    [written]. *)
Definition store_of (hits : list SearchResult) (written : result unit)
  : VectorStore :=
  {| search_similar_chunks := fun _ _ _ => Ok hits;
     add_document_chunks := fun _ _ _ => written |}.

Definition world_of (cfg : Settings) (store : result VectorStore)
    (pages : result (list (result string)))
    (splitter : string -> result (list string)) : World :=
  {| settings := cfg;
     get_vector_store := store;
     chat_completions_create := fun _ _ => Ok [Some "Revenue grew 12%."];
     uuid4 := "3f2b6c1e";
     write_file := fun _ _ => Ok tt;
     pdf_pages := fun _ => pages;
     split_text := splitter |}.

Definition empty_state : State := {| document_store := ∅; trace := [] |}.

Definition report_page : string := "Revenue grew 12% in Q1.".

(** A splitter that returns a text as one chunk. *)
Definition one_chunk (text : string) : result (list string) := Ok [text].

Definition broken_splitter (text : string) : result (list string) :=
  Raise (Exception "RuntimeError" "splitter failed").

(** An index without documents. *)
Definition empty_index_world : World :=
  world_of default_settings (Ok (store_of [] (Ok tt))) (Ok []) one_chunk.

(** An index whose write fails. *)
Definition failing_index_world : World :=
  world_of default_settings
    (Ok (store_of [] (Raise (Exception "ConnectionError" "upsert failed"))))
    (Ok [Ok report_page]) one_chunk.

Definition report_metadata : DocMetadata :=
  {| doc_total_chunks := 1;
     doc_total_characters := 23;
     doc_total_words := 5;
     doc_chunks := [report_page];
     doc_full_text := report_page;
     doc_document_id := "3f2b6c1e";
     doc_filename := "report.pdf";
     doc_file_type := "pdf";
     doc_file_path := "/srv/uploads/3f2b6c1e.pdf";
     doc_status := "processed" |}.

(** A scanned document: two pages, neither with a text layer. *)
Definition scanned_world : World :=
  world_of default_settings (Ok (store_of [] (Ok tt)))
    (Ok [Ok ""; Ok ""]) (fun _ => Ok []).

Definition broken_splitter_world : World :=
  world_of narrow_settings (Ok (store_of [] (Ok tt))) (Ok []) broken_splitter.

Definition hit (text name : string) : SearchResult :=
  {| sr_content := Some text;
     sr_metadata := Some {[ "filename" := VStr name ]};
     sr_relevance_score := Some (NInt 1) |}.

Definition four_hits : list SearchResult :=
  [hit "alpha" "a.pdf"; hit "beta" "b.pdf"; hit "gamma" "c.pdf";
   hit "delta" "d.pdf"].

(** ** Further properties: what they are stated with *)

(** The events a run added to the trace. *)
Definition added (st st' : State) : list event :=
  drop (length (trace st)) (trace st').

Definition is_search_call (ev : event) : bool :=
  match ev with EvSearch _ _ _ => true | _ => false end.

(** The events of ingestion: the write and the read of the upload, the
    split and the write to the index. *)
Definition is_ingestion_event (ev : event) : bool :=
  match ev with
  | EvWriteFile _ _ | EvReadPdf _ | EvSplitText _ | EvAddChunks _ _ _ => true
  | _ => false
  end.

(** The completion request of a query. *)
Definition completion_call (w : World) (query context : string) : event :=
  EvChatCompletion (openai_model (settings w))
    [("system", system_message); ("user", prompt_of query context)].

(** What the assembler reads of a result. *)
Definition context_view (r : SearchResult) : pyval * string :=
  (default (VStr "Unknown") (result_metadata r !! "filename"),
   result_content r).

(** The completion gave no usable first choice. *)
Definition generation_fails (r : result (list (option string))) : bool :=
  match r with
  | Ok (Some _ :: _) => false
  | _ => true
  end.

(** How many events of the kind [p]. *)
Definition count_of (p : event -> bool) (evs : list event) : nat :=
  length (List.filter p evs).

(** A call on the vector store, obtaining it included. *)
Definition is_store_call (ev : event) : bool :=
  match ev with
  | EvGetVectorStore | EvSearch _ _ _ | EvAddChunks _ _ _ => true
  | _ => false
  end.

(** The state once [evs] have been added to the trace. *)
Definition after (st : State) (evs : list event) : State :=
  mkState (document_store st) (trace st ++ evs).

(** What the steps of ingestion return, their traces left aside. *)
Definition extracted (w : World) (file_path : string) : result string :=
  match pdf_pages w file_path with
  | Raise e => Raise e
  | Ok pages =>
      match concat_pages "" pages with
      | Raise e => Raise e
      | Ok text => Ok (Py.strip text)
      end
  end.

Definition chunked (w : World) (text : string) : result (list string) :=
  match split_text w text with
  | Ok chunks => Ok chunks
  | Raise _ =>
      fallback_chunks (max_chunk_size (settings w))
        (chunk_overlap (settings w)) text
  end.

Definition processed (w : World) (file_path : string) : result PdfMetadata :=
  match extracted w file_path with
  | Raise e => Raise e
  | Ok text =>
      match chunked w text with
      | Raise e => Raise e
      | Ok chunks =>
          Ok {| pdf_total_chunks := Z.of_nat (length chunks);
                pdf_total_characters := Py.len text;
                pdf_total_words := Py.count_words text;
                pdf_chunks := chunks;
                pdf_full_text := text |}
      end
  end.

Definition ingested (w : World) (file_content : list Byte.byte)
    (filename : string) : result DocMetadata :=
  match write_file w (saved_path w filename) file_content with
  | Raise e => Raise e
  | Ok _ =>
      match get_file_type filename with
      | Raise e => Raise e
      | Ok file_type =>
          match processed w (saved_path w filename) with
          | Raise e => Raise e
          | Ok metadata =>
              Ok {| doc_total_chunks := pdf_total_chunks metadata;
                    doc_total_characters := pdf_total_characters metadata;
                    doc_total_words := pdf_total_words metadata;
                    doc_chunks := pdf_chunks metadata;
                    doc_full_text := pdf_full_text metadata;
                    doc_document_id := uuid4 w;
                    doc_filename := filename;
                    doc_file_type := file_type;
                    doc_file_path := saved_path w filename;
                    doc_status := "processed" |}
          end
      end
  end.

(** The counts of a document's metadata agree with its chunks and its
    text, and the text carries no white space at either end. *)
Definition well_formed_document (md : DocMetadata) : Prop :=
  doc_status md = "processed"
  /\ doc_file_type md = "pdf"
  /\ doc_total_chunks md = Z.of_nat (length (doc_chunks md))
  /\ doc_total_characters md = Py.len (doc_full_text md)
  /\ doc_total_words md = Py.count_words (doc_full_text md)
  /\ Py.strip (doc_full_text md) = doc_full_text md.

(** Every document of the registry is stored under its own identifier
    and is well formed. *)
Definition registry_ok (store : gmap string DocMetadata) : Prop :=
  forall k md,
    store !! k = Some md -> doc_document_id md = k /\ well_formed_document md.

(** The metadata [upload_document] hands to the index with the chunks. *)
Definition index_metadata (md : DocMetadata) : pydict :=
  [("filename", VStr (doc_filename md));
   ("file_type", VStr (doc_file_type md));
   ("total_chunks", VInt (doc_total_chunks md))].

(** The response to an upload that went through. *)
Definition upload_response (file_content : list Byte.byte) (filename : string)
    (md : DocMetadata) : DocumentUploadResponse :=
  {| up_document_id := doc_document_id md;
     up_filename := filename;
     up_document_type := doc_file_type md;
     up_status := "processed";
     up_metadata :=
       [("total_chunks", VInt (doc_total_chunks md));
        ("total_words", VInt (doc_total_words md));
        ("file_size", VInt (Z.of_nat (length file_content)))] |}.

(** The state once [md] has been registered and [evs] added. *)
Definition registered (st : State) (md : DocMetadata) (evs : list event)
  : State :=
  mkState (<[doc_document_id md := md]> (document_store st)) (trace st ++ evs).

(** A request served by the chatbot, each in the world it meets. *)
Inductive request :=
| Upload (w : World) (file_content : list Byte.byte) (filename : string)
| Chat (w : World) (chat_request : ChatRequest).

Definition serve (st : State) (r : request) : State :=
  match r with
  | Upload w file_content filename =>
      snd (upload_document w file_content filename st)
  | Chat w chat_request => snd (process_chat_message w chat_request st)
  end.

(** The state after a sequence of requests, from a fresh chatbot. *)
Definition serve_all (requests : list request) : State :=
  fold_left serve requests empty_state.

Definition zero_step_error : exn :=
  Exception "ValueError" "range() arg 3 must not be zero".

(** Whether the character [c] occurs in [s]. *)
Fixpoint contains (c : ascii) (s : string) : bool :=
  match s with
  | EmptyString => false
  | String d s' => Ascii.eqb c d || contains c s'
  end.

(** ** Further example worlds *)

(** The report is read, split into one chunk and indexed. *)
Definition healthy_world : World :=
  world_of default_settings (Ok (store_of [] (Ok tt)))
    (Ok [Ok report_page]) one_chunk.

(** The vector store cannot be obtained. *)
Definition unreachable_store_world : World :=
  world_of default_settings
    (Raise (Exception "ConnectionError" "index unreachable"))
    (Ok [Ok report_page]) one_chunk.

(** The search finds the report; the completion call raises. *)
Definition failing_completion_world : World :=
  {| settings := default_settings;
     get_vector_store :=
       Ok (store_of [hit report_page "report.pdf"] (Ok tt));
     chat_completions_create :=
       fun _ _ => Raise (Exception "RateLimitError" "quota exceeded");
     uuid4 := "3f2b6c1e";
     write_file := fun _ _ => Ok tt;
     pdf_pages := fun _ => Ok [Ok report_page];
     split_text := one_chunk |}.

Definition revenue_question : ChatRequest :=
  {| message := " What was Q1 revenue growth? "; req_document_id := None |}.

(** The metadata of the scanned document of [scanned_world]. *)
Definition scan_metadata : DocMetadata :=
  {| doc_total_chunks := 0;
     doc_total_characters := 0;
     doc_total_words := 0;
     doc_chunks := [];
     doc_full_text := "";
     doc_document_id := "3f2b6c1e";
     doc_filename := "scan.pdf";
     doc_file_type := "pdf";
     doc_file_path := "/srv/uploads/3f2b6c1e.pdf";
     doc_status := "processed" |}.

(** A backend whose vector store holds two chunks for every identifier. *)
Definition indexed_backend : Backend :=
  {| be_world := healthy_world;
     vs_get_document_chunks :=
       fun _ =>
         Ok [mkStoredChunk (Some report_page)
               (Some {[ "filename" := VStr "report.pdf" ]});
             mkStoredChunk (Some "Costs fell.") None];
     vs_get_collection_stats := Ok [("total_vectors", VInt 2)] |}.

(** The state once the report has been uploaded to a fresh chatbot. *)
Definition report_state : State :=
  serve_all [Upload healthy_world [] "report.pdf"].

(** ** The context and the sources, stated on the fields of a result *)

Definition line_feed : string := String "010"%char "".

(** The file name a result is cited under: the [filename] of its
    metadata the way an f-string prints it, [Unknown] when the result has
    no metadata or the metadata no file name. *)
Definition cited_name (r : SearchResult) : string :=
  match sr_metadata r with
  | Some metadata =>
      match metadata !! "filename" with
      | Some (VStr name) => name
      | Some (VInt z) => pretty z
      | Some VNone => "None"
      | None => "Unknown"
      end
  | None => "Unknown"
  end.

(** The raw chunk text of a result, empty for a result without one. *)
Definition chunk_of (r : SearchResult) : string :=
  match sr_content r with
  | Some content => content
  | None => ""
  end.

(** The block of the [n]-th selected result: the label line, then the
    chunk text on the next line. *)
Definition labelled_block (n : Z) (r : SearchResult) : string :=
  "Source " +:+ pretty n +:+ " (from " +:+ cited_name r +:+ "):"
  +:+ line_feed +:+ chunk_of r.

(** The blocks of [results], numbered from [n], with a blank line
    between one block and the next. *)
Fixpoint labelled_blocks (n : Z) (results : list SearchResult) : string :=
  match results with
  | [] => ""
  | r :: rest =>
      match rest with
      | [] => labelled_block n r
      | _ :: _ =>
          labelled_block n r +:+ line_feed +:+ line_feed
          +:+ labelled_blocks (n + 1) rest
      end
  end.

(** Ranking by [before], a result staying ahead of the later results it
    ties with: [ranked before] sorts by insertion from the right. *)
Fixpoint insert_ranked (before : SearchResult -> SearchResult -> bool)
    (r : SearchResult) (results : list SearchResult) : list SearchResult :=
  match results with
  | [] => [r]
  | r' :: rest =>
      if before r r' then r :: r' :: rest
      else r' :: insert_ranked before r rest
  end.

Definition ranked (before : SearchResult -> SearchResult -> bool)
    (results : list SearchResult) : list SearchResult :=
  foldr (insert_ranked before) [] results.

(** Falling relevance: the score of [r] is at least the score of [r'],
    for two scores of the same kind. *)
Definition by_score (r r' : SearchResult) : bool :=
  match sr_relevance_score r, sr_relevance_score r' with
  | Some (NFloat x), Some (NFloat y) => PrimFloat.leb y x
  | Some (NInt x), Some (NInt y) => y <=? x
  | _, _ => false
  end.

(** The chunks with their overlaps removed, for an overlap of [O]
    characters: the first chunk whole, then every later chunk without
    its first [O] characters. *)
Fixpoint tails_after (O : nat) (chunks : list string) : string :=
  match chunks with
  | [] => ""
  | c :: cs => suffix_from O c +:+ tails_after O cs
  end.

Definition without_overlaps (O : nat) (chunks : list string) : string :=
  match chunks with
  | [] => ""
  | c :: cs => c +:+ tails_after O cs
  end.

(** Neighbours overlap: the first [O] characters of a chunk are what
    the chunk before it holds from position [C - O] on. *)
Fixpoint overlapping (C O : nat) (chunks : list string) : Prop :=
  match chunks with
  | [] => True
  | c :: cs =>
      match cs with
      | [] => True
      | c' :: _ =>
          String.substring 0 O c' = suffix_from (C - O) c
          /\ overlapping C O cs
      end
  end.

(** ** Further example inputs *)

(** Three relevance scores. *)
Module Score.
Import PrimFloat.
Definition high : float := 0.75%float.
Definition middle : float := 0.5%float.
Definition low : float := 0.25%float.
End Score.

(** A hit with a score and a file type. *)
Definition scored (text name : string) (score : PrimFloat.float)
  : SearchResult :=
  {| sr_content := Some text;
     sr_metadata :=
       Some {[ "filename" := VStr name; "file_type" := VStr "pdf" ]};
     sr_relevance_score := Some (NFloat score) |}.

(** Four hits in the order of falling score, the second and the third
    with the same score. *)
Definition ranked_hits : list SearchResult :=
  [scored "alpha" "a.pdf" Score.high; scored "beta" "b.pdf" Score.middle;
   scored "gamma" "c.pdf" Score.middle; scored "delta" "d.pdf" Score.low].

(** The same hits, the best one last. *)
Definition unranked_hits : list SearchResult :=
  [scored "delta" "d.pdf" Score.low; scored "beta" "b.pdf" Score.middle;
   scored "gamma" "c.pdf" Score.middle; scored "alpha" "a.pdf" Score.high].

(** A passage of 212 characters. *)
Definition long_passage : string :=
  "Revenue for the first quarter grew 12% year over year to 4.2 billion, driven by subscription renewals and higher cloud usage; operating margin widened to 31%, and free cash flow reached 1.1 billion in the period.".

(** A result with none of the three keys. *)
Definition bare_result : SearchResult :=
  {| sr_content := None; sr_metadata := None; sr_relevance_score := None |}.

Definition cited_hits : list SearchResult :=
  [scored long_passage "report.pdf" Score.high;
   hit "Costs fell." "costs.pdf";
   bare_result;
   scored "delta" "d.pdf" Score.low].

(** The words of a text: its maximal runs of characters that are not
    white space. *)
Fixpoint words_go (word : string) (s : string) : list string :=
  match s with
  | EmptyString => if decide (word = "") then [] else [word]
  | String c s' =>
      if Py.isspace c
      then (if decide (word = "") then [] else [word]) ++ words_go "" s'
      else words_go (word +:+ String c "") s'
  end.

(** A splitter that gives every word a chunk of its own.  With a chunk
    size of 4 and an overlap of 1 this is what
    [RecursiveCharacterTextSplitter] returns for two words of two
    letters: it splits at the blank, the two pieces together exceed the
    chunk size, and each chunk is stripped. *)
Definition word_splitter (text : string) : result (list string) :=
  Ok (words_go "" text).

(** A one-page document of two words, read with windows of four
    characters. *)
Definition two_words_world : World :=
  world_of narrow_settings (Ok (store_of [] (Ok tt))) (Ok [Ok "ab cd"])
    word_splitter.

(** A document of two pages with blanks around their texts. *)
Definition two_page_world : World :=
  world_of default_settings (Ok (store_of [] (Ok tt)))
    (Ok [Ok " Revenue "; Ok "grew 12%. "]) one_chunk.

(** ** Lemmas on strings *)

Lemma lstrip_all_space s : Py.all_space s = true -> Py.lstrip s = "".
Proof.
  induction s as [|c s IH]; simpl; [done|].
  intros [Hc Hs]%andb_true_iff. rewrite Hc. auto.
Qed.

Lemma strip_all_space s : Py.all_space s = true -> Py.strip s = "".
Proof.
  intros H. unfold Py.strip. rewrite (lstrip_all_space s H). reflexivity.
Qed.

(** ** The query path *)

(** [_generate_response] always returns a text: a failure of the
    completion call becomes the apology. *)
Lemma generate_response_returns w query context st :
  exists text,
    _generate_response w query context st =
      (Ok text,
       mkState (document_store st)
         (trace st
            ++ EvChatCompletion (openai_model (settings w))
                 [("system", system_message);
                  ("user", prompt_of query context)]
            :: match chat_completions_create w (openai_model (settings w))
                       [("system", system_message);
                        ("user", prompt_of query context)] with
               | Ok (Some _ :: _) => []
               | _ => [EvLog LError]
               end)).
Proof.
  unfold _generate_response. unfold_m. cbn.
  destruct (chat_completions_create _ _ _) as [[|[content|] choices]|e]; cbn;
    eexists; rewrite <- ?app_assoc; reflexivity.
Qed.

(** The run of a request whose search comes back empty. *)
Lemma no_results_reply_state (w : World) (request : ChatRequest)
    (vector_store : VectorStore) (st : State) :
  Py.strip (message request) <> "" ->
  get_vector_store w = Ok vector_store ->
  search_similar_chunks vector_store (Py.strip (message request))
    (rag_top_k_results (settings w)) (req_document_id request) = Ok [] ->
  exists st',
    process_chat_message w request st = (Ok no_information_response, st')
    /\ document_store st' = document_store st.
Proof.
  intros Hq Hvs Hsearch. eexists. split.
  - unfold process_chat_message. unfold_m.
    destruct (decide (Py.strip (message request) = "")) as [|_]; [done|].
    cbn. rewrite Hvs. cbn. rewrite Hsearch. cbn. reflexivity.
  - reflexivity.
Qed.

(** C2. A message that is empty or all white space is answered at once
    with the prompting reply and no sources; the state is returned as it
    was, so no call was made, the vector-store search included. *)
Theorem empty_message_short_circuit (w : World) (request : ChatRequest)
    (st : State) :
  Py.all_space (message request) = true ->
  process_chat_message w request st = (Ok empty_message_response, st).
Proof.
  intros H. unfold process_chat_message, try_except.
  rewrite (strip_all_space _ H). reflexivity.
Qed.

(** C1. When the trimmed message is not empty and the search returns no
    result, the reply is the fixed no-information response with no
    sources and [context_chunks_found] 0, and the request made exactly
    two calls, neither of them to the language model. *)
Theorem no_results_reply (w : World) (request : ChatRequest)
    (vector_store : VectorStore) (st : State) :
  Py.strip (message request) <> "" ->
  get_vector_store w = Ok vector_store ->
  search_similar_chunks vector_store (Py.strip (message request))
    (rag_top_k_results (settings w)) (req_document_id request) = Ok [] ->
  let calls :=
    [EvGetVectorStore;
     EvSearch (Py.strip (message request)) (rag_top_k_results (settings w))
       (req_document_id request)] in
  process_chat_message w request st =
    (Ok no_information_response,
     mkState (document_store st) (trace st ++ calls))
  /\ sources no_information_response = []
  /\ none_of is_llm_call calls.
Proof.
  intros Hq Hvs Hsearch calls. split; [|split].
  - unfold process_chat_message. unfold_m.
    destruct (decide (Py.strip (message request) = "")) as [|_]; [done|].
    cbn. rewrite Hvs. cbn. rewrite Hsearch. cbn.
    rewrite <- app_assoc. reflexivity.
  - reflexivity.
  - repeat constructor.
Qed.

Lemma results_found_reply (w : World) (request : ChatRequest)
    (vector_store : VectorStore) (search_results : list SearchResult)
    (st : State) :
  Py.strip (message request) <> "" ->
  get_vector_store w = Ok vector_store ->
  search_similar_chunks vector_store (Py.strip (message request))
    (rag_top_k_results (settings w)) (req_document_id request)
    = Ok search_results ->
  search_results <> [] ->
  exists text st',
    process_chat_message w request st
      = (Ok (rag_response request text search_results), st')
    /\ document_store st' = document_store st.
Proof.
  intros Hq Hvs Hsearch Hne.
  unfold process_chat_message.
  destruct (decide (Py.strip (message request) = "")) as [|_]; [done|].
  destruct search_results as [|r rs]; [done|].
  unfold try_except, bind, call, emit.
  cbn -[_generate_response _prepare_context_from_search_results
        _prepare_sources].
  rewrite Hvs.
  cbn -[_generate_response _prepare_context_from_search_results
        _prepare_sources].
  rewrite Hsearch.
  match goal with
  | |- context [_generate_response w ?q ?c ?s] =>
      destruct (generate_response_returns w q c s) as [text ->]
  end.
  exists text. eexists. split; reflexivity.
Qed.

(** C9. Whatever the collaborators do, [process_chat_message] returns a
    response and raises nothing: the reply to an empty message, the
    no-information reply, the error reply built from a caught exception,
    or the generated answer with its sources.  The document store is left
    as it was. *)
Theorem process_chat_message_returns (w : World) (request : ChatRequest)
    (st : State) :
  exists resp st',
    process_chat_message w request st = (Ok resp, st')
    /\ document_store st' = document_store st
    /\ (resp = empty_message_response
        \/ resp = no_information_response
        \/ (exists e, resp = processing_error_response e)
        \/ (exists text search_results,
              search_results <> []
              /\ resp = rag_response request text search_results)).
Proof.
  destruct (decide (Py.strip (message request) = "")) as [Hq|Hq].
  { exists empty_message_response, st. split; [|split; [done|by left]].
    unfold process_chat_message, try_except.
    destruct (decide _) as [|]; [reflexivity|done]. }
  destruct (get_vector_store w) as [vector_store|e] eqn:Hvs.
  2:{ exists (processing_error_response e). eexists.
      split; [|split; [|right; right; left; by exists e]].
      - unfold process_chat_message. unfold_m.
        destruct (decide _) as [|]; [done|]. cbn. rewrite Hvs. reflexivity.
      - reflexivity. }
  destruct (search_similar_chunks vector_store (Py.strip (message request))
              (rag_top_k_results (settings w)) (req_document_id request))
    as [search_results|e] eqn:Hsearch.
  2:{ exists (processing_error_response e). eexists.
      split; [|split; [|right; right; left; by exists e]].
      - unfold process_chat_message. unfold_m.
        destruct (decide _) as [|]; [done|]. cbn. rewrite Hvs. cbn.
        rewrite Hsearch. reflexivity.
      - reflexivity. }
  destruct search_results as [|r rs].
  - destruct (no_results_reply_state w request vector_store st Hq Hvs Hsearch)
      as [st' [Hrun Hstore]].
    exists no_information_response, st'. split; [done|split; [done|]].
    right; by left.
  - destruct (results_found_reply w request vector_store (r :: rs) st
                Hq Hvs Hsearch) as (text & st' & Hrun & Hstore); [done|].
    exists (rag_response request text (r :: rs)), st'.
    split; [done|split; [done|]].
    right; right; right. exists text, (r :: rs). done.
Qed.

(** ** Strings as lists of characters *)

Lemma to_list_inj s1 s2 : to_list s1 = to_list s2 -> s1 = s2.
Proof.
  intros H. rewrite <- (String.string_of_list_ascii_of_string s1),
    <- (String.string_of_list_ascii_of_string s2). by rewrite H.
Qed.

Lemma to_list_app s1 s2 : to_list (s1 +:+ s2) = to_list s1 ++ to_list s2.
Proof. induction s1 as [|c s1 IH]; simpl; [done|]. by rewrite IH. Qed.

Lemma length_to_list s : length (to_list s) = String.length s.
Proof. induction s as [|c s IH]; simpl; [done|]. by rewrite IH. Qed.

Lemma length_app_str s1 s2 :
  String.length (s1 +:+ s2) = (String.length s1 + String.length s2)%nat.
Proof. by rewrite <- !length_to_list, to_list_app, length_app. Qed.

Lemma to_list_substring i m s :
  to_list (String.substring i m s) = take m (drop i (to_list s)).
Proof.
  revert i m. induction s as [|c s IH]; intros i m.
  - destruct i, m; simpl; by rewrite ?take_nil.
  - destruct i as [|i].
    + destruct m as [|m]; simpl; [done|]. rewrite IH. done.
    + simpl. apply IH.
Qed.

Lemma app_assoc_str s1 s2 s3 : (s1 +:+ s2) +:+ s3 = s1 +:+ s2 +:+ s3.
Proof. apply to_list_inj. rewrite !to_list_app. by rewrite app_assoc. Qed.

Lemma app_nil_r_str s : s +:+ "" = s.
Proof. apply to_list_inj. rewrite to_list_app. simpl. by rewrite app_nil_r. Qed.

Lemma length_substring i m s :
  String.length (String.substring i m s)
    = Nat.min m (String.length s - i)%nat.
Proof.
  rewrite <- !length_to_list, to_list_substring, length_take, length_drop.
  done.
Qed.

(** A substring never reaches past the end of the string. *)
Lemma substring_trunc i m s :
  String.substring i m s
    = String.substring i (Nat.min m (String.length s - i)%nat) s.
Proof.
  apply to_list_inj. rewrite !to_list_substring.
  rewrite <- length_to_list, <- length_drop.
  rewrite <- (take_take (drop i (to_list s)) m (length (drop i (to_list s)))).
  by rewrite firstn_all.
Qed.

(** A slice with bounds that are not negative is a substring. *)
Lemma slice_nonneg s i k :
  0 <= i -> 0 <= k ->
  Py.slice s i (i + k) = String.substring (Z.to_nat i) (Z.to_nat k) s.
Proof.
  intros Hi Hk. unfold Py.slice, Py.clamp, Py.len.
  destruct (Z.ltb_spec i 0) as [|_]; [lia|].
  destruct (Z.ltb_spec (i + k) 0) as [|_]; [lia|].
  set (n := String.length s).
  destruct (Z.le_gt_cases i (Z.of_nat n)) as [Hle|Hgt].
  - rewrite (Z.min_l i) by done.
    rewrite (substring_trunc (Z.to_nat i) (Z.to_nat k)). fold n.
    f_equal. lia.
  - rewrite (Z.min_r i) by lia. rewrite Z.min_r by lia.
    apply to_list_inj. rewrite !to_list_substring.
    rewrite !drop_ge by (rewrite length_to_list; fold n; lia).
    by rewrite !take_nil.
Qed.

Lemma slice_to_substring s k :
  0 <= k -> Py.slice_to s k = String.substring 0 (Z.to_nat k) s.
Proof.
  intros Hk. unfold Py.slice_to.
  change k with (0 + k) at 1. by rewrite slice_nonneg.
Qed.

(** ** The sources list *)

Lemma sources_loop_map rs acc :
  sources_loop rs acc = acc ++ map source_of rs.
Proof.
  revert acc. induction rs as [|r rs IH]; intros acc; simpl.
  - by rewrite app_nil_r.
  - rewrite IH. by rewrite <- app_assoc.
Qed.

Lemma prepare_sources_map rs : _prepare_sources rs = map source_of rs.
Proof. unfold _prepare_sources. by rewrite sources_loop_map. Qed.

(** The entry of one result, field by field. *)
Lemma source_of_fields r :
  src_metadata (source_of r)
    = match sr_metadata r with Some metadata => metadata | None => ∅ end
  /\ src_relevance_score (source_of r)
     = match sr_relevance_score r with Some score => score | None => NInt 0 end
  /\ src_document_type (source_of r)
     = match sr_metadata r with
       | Some metadata =>
           match metadata !! "file_type" with
           | Some file_type => file_type
           | None => VStr "unknown"
           end
       | None => VStr "unknown"
       end
  /\ (forall content,
        sr_content r = Some content ->
        ((String.length content <= 200)%nat ->
         src_content (source_of r) = content)
        /\ ((200 < String.length content)%nat ->
            src_content (source_of r)
              = String.substring 0 200 content +:+ "..."))
  /\ (sr_content r = None -> src_content (source_of r) = "").
Proof.
  unfold source_of, result_metadata, result_content; cbn.
  split; [by destruct (sr_metadata r)|].
  split; [by destruct (sr_relevance_score r)|].
  split.
  { destruct (sr_metadata r) as [metadata|]; cbn.
    - by destruct (metadata !! "file_type").
    - by rewrite lookup_empty. }
  split.
  - intros content ->. change (default "" (Some content)) with content.
    unfold Py.len. split; intros Hlen.
    + destruct (Z.ltb_spec 200 (Z.of_nat (String.length content)));
        [lia|done].
    + destruct (Z.ltb_spec 200 (Z.of_nat (String.length content))); [|lia].
      by rewrite slice_to_substring.
  - by intros ->.
Qed.

(** C7. The sources list has one entry for every search result, in the
    same order.  The entry carries the metadata of the result (none
    gives the empty dictionary), its relevance score (none gives 0), as
    document type the [file_type] of the metadata ([unknown] without
    one), and as content the chunk text of the result: the whole text
    when that has at most 200 characters, otherwise its first 200
    characters followed by three dots; a result without text gives the
    empty content.  When the search found something this list is what
    the response returns, whatever the number of results. *)
Theorem sources_cover_every_result (search_results : list SearchResult) :
  length (_prepare_sources search_results) = length search_results
  /\ (forall (i : nat) (r : SearchResult),
        search_results !! i = Some r ->
        exists s,
          _prepare_sources search_results !! i = Some s
          /\ src_metadata s
             = match sr_metadata r with
               | Some metadata => metadata
               | None => ∅
               end
          /\ src_relevance_score s
             = match sr_relevance_score r with
               | Some score => score
               | None => NInt 0
               end
          /\ src_document_type s
             = match sr_metadata r with
               | Some metadata =>
                   match metadata !! "file_type" with
                   | Some file_type => file_type
                   | None => VStr "unknown"
                   end
               | None => VStr "unknown"
               end
          /\ (forall content,
                sr_content r = Some content ->
                ((String.length content <= 200)%nat ->
                 src_content s = content)
                /\ ((200 < String.length content)%nat ->
                    src_content s
                      = String.substring 0 200 content +:+ "..."))
          /\ (sr_content r = None -> src_content s = ""))
  /\ (forall w request vector_store st,
        Py.strip (message request) <> "" ->
        get_vector_store w = Ok vector_store ->
        search_similar_chunks vector_store (Py.strip (message request))
          (rag_top_k_results (settings w)) (req_document_id request)
          = Ok search_results ->
        search_results <> [] ->
        exists resp st',
          process_chat_message w request st = (Ok resp, st')
          /\ sources resp = _prepare_sources search_results).
Proof.
  rewrite prepare_sources_map. split; [|split].
  - by rewrite length_map.
  - intros i r Hi. exists (source_of r).
    split; [by rewrite list_lookup_fmap, Hi|]. apply source_of_fields.
  - intros w request vector_store st Hq Hvs Hsearch Hne.
    destruct (results_found_reply w request vector_store search_results st
                Hq Hvs Hsearch Hne) as (text & st' & Hrun & _).
    exists (rag_response request text search_results), st'.
    split; [done|]. cbn. apply prepare_sources_map.
Qed.

(** ** The context assembler *)

Lemma join_app sep (parts more : list string) :
  parts <> [] -> more <> [] ->
  Py.join sep (parts ++ more) = Py.join sep parts +:+ sep +:+ Py.join sep more.
Proof.
  intros Hp Hm. induction parts as [|p [|q parts] IH]; [done| |].
  - destruct more as [|m more]; [done|]. reflexivity.
  - change (Py.join sep ((p :: q :: parts) ++ more))
      with (p +:+ sep +:+ Py.join sep ((q :: parts) ++ more)).
    rewrite IH by done.
    change (Py.join sep (p :: q :: parts))
      with (p +:+ sep +:+ Py.join sep (q :: parts)).
    by rewrite !app_assoc_str.
Qed.

Lemma join_context_loop rs i parts :
  parts <> [] ->
  Py.join Py.nl (context_loop i rs parts)
    = Py.join Py.nl parts +:+ appended_blocks (i + 1) rs.
Proof.
  revert i parts. induction rs as [|r rs IH]; intros i parts Hne.
  - cbn. by rewrite app_nil_r_str.
  - cbn [context_loop appended_blocks].
    rewrite IH by (by destruct parts).
    rewrite join_app by done.
    unfold source_block, source_label.
    cbn [Py.join]. rewrite !app_assoc_str. reflexivity.
Qed.

Lemma appended_blocks_join n rs :
  rs <> [] ->
  appended_blocks n rs
    = Py.nl +:+ Py.join blank_line (source_blocks n rs) +:+ Py.nl.
Proof.
  revert n. induction rs as [|r [|r' rs] IH]; intros n Hne; [done| |].
  - cbn. reflexivity.
  - change (appended_blocks n (r :: r' :: rs))
      with (Py.nl +:+ source_block n r +:+ Py.nl
            +:+ appended_blocks (n + 1) (r' :: rs)).
    rewrite IH by done.
    change (Py.join blank_line (source_blocks n (r :: r' :: rs)))
      with (source_block n r +:+ blank_line
            +:+ Py.join blank_line (source_blocks (n + 1) (r' :: rs))).
    unfold blank_line. by rewrite !app_assoc_str.
Qed.

Lemma cited_name_format r :
  cited_name r
    = format (default (VStr "Unknown") (result_metadata r !! "filename")).
Proof.
  unfold cited_name, result_metadata.
  destruct (sr_metadata r) as [metadata|]; cbn.
  - by destruct (metadata !! "filename") as [[]|].
  - by rewrite lookup_empty.
Qed.

Lemma chunk_of_content r : chunk_of r = result_content r.
Proof. unfold chunk_of, result_content. by destruct (sr_content r). Qed.

Lemma labelled_block_source_block n r : labelled_block n r = source_block n r.
Proof.
  unfold labelled_block, source_block, source_label.
  rewrite cited_name_format, chunk_of_content, !app_assoc_str. reflexivity.
Qed.

Lemma labelled_blocks_join n rs :
  labelled_blocks n rs = Py.join blank_line (source_blocks n rs).
Proof.
  revert n. induction rs as [|r [|r' rs] IH]; intros n; [done| |].
  - cbn [labelled_blocks source_blocks Py.join].
    apply labelled_block_source_block.
  - change (labelled_blocks n (r :: r' :: rs))
      with (labelled_block n r +:+ line_feed +:+ line_feed
            +:+ labelled_blocks (n + 1) (r' :: rs)).
    change (Py.join blank_line (source_blocks n (r :: r' :: rs)))
      with (source_block n r +:+ blank_line
            +:+ Py.join blank_line (source_blocks (n + 1) (r' :: rs))).
    rewrite IH, labelled_block_source_block. unfold blank_line.
    rewrite !app_assoc_str. reflexivity.
Qed.

(** The context of a sequence that is not empty. *)
Lemma context_of_results rs :
  rs <> [] ->
  _prepare_context_from_search_results rs
    = "=== RELEVANT DOCUMENT CONTENT ===" +:+ line_feed
      +:+ labelled_blocks 1 (take 3 rs) +:+ line_feed.
Proof.
  intros Hne. destruct rs as [|r rs]; [done|].
  unfold _prepare_context_from_search_results.
  rewrite join_context_loop by done.
  rewrite appended_blocks_join by done.
  rewrite labelled_blocks_join. reflexivity.
Qed.

(** Ranking a sequence that is ranked already changes nothing. *)
Lemma ranked_sorted before rs :
  Sorted (fun r r' => before r r' = true) rs -> ranked before rs = rs.
Proof.
  induction 1 as [|r rs _ IH Hhd]; [done|].
  unfold ranked in *. cbn [foldr]. rewrite IH.
  destruct Hhd as [|r' rs' Hb]; cbn; [done|]. by rewrite Hb.
Qed.

(** C6. For a non-empty result sequence the context is made from the
    first three results, in the order the search returned them and
    whatever their scores: the header banner, a line break, then for
    each of these results the block [Source N (from <filename>):] with
    the raw chunk text on the next line, numbered from 1, a blank line
    between two blocks, and a line break at the end.  The file name and
    the chunk text are read off the result itself.  When the sequence
    comes ranked, the three results are the first three of the ranking,
    in which results that tie keep the order given. *)
Theorem context_from_first_three (search_results : list SearchResult) :
  search_results <> [] ->
  _prepare_context_from_search_results search_results
    = "=== RELEVANT DOCUMENT CONTENT ===" +:+ line_feed
      +:+ labelled_blocks 1 (take 3 search_results) +:+ line_feed
  /\ (forall r1 r2 r3 rest,
        search_results = r1 :: r2 :: r3 :: rest ->
        _prepare_context_from_search_results search_results
          = "=== RELEVANT DOCUMENT CONTENT ===" +:+ line_feed
            +:+ labelled_block 1 r1 +:+ line_feed +:+ line_feed
            +:+ labelled_block 2 r2 +:+ line_feed +:+ line_feed
            +:+ labelled_block 3 r3 +:+ line_feed)
  /\ (forall before : SearchResult -> SearchResult -> bool,
        Sorted (fun r r' => before r r' = true) search_results ->
        _prepare_context_from_search_results search_results
          = "=== RELEVANT DOCUMENT CONTENT ===" +:+ line_feed
            +:+ labelled_blocks 1 (take 3 (ranked before search_results))
            +:+ line_feed).
Proof.
  intros Hne. split; [by apply context_of_results|]. split.
  - intros r1 r2 r3 rest ->. rewrite context_of_results by done.
    cbn [take labelled_blocks]. rewrite !app_assoc_str. reflexivity.
  - intros before Hsorted. rewrite ranked_sorted by done.
    by apply context_of_results.
Qed.

(** ** The ingestion path *)

Lemma get_file_type_not_pdf filename :
  Py.lower (Path.suffix filename) <> ".pdf" ->
  get_file_type filename = Raise (unsupported_type_error filename).
Proof.
  intros H. unfold get_file_type.
  destruct (decide (Py.lower (Path.suffix filename) = ".pdf")); done.
Qed.

(** C5. An upload whose file name does not end in [.pdf], in any letter
    case, is answered with status [error] and an empty document id; the
    document store is left as it was, and the only call made is the write
    of the upload to the working area, so no chunk reaches the vector
    store.  When that write succeeds the error is the unsupported-type
    [ValueError]. *)
Theorem non_pdf_upload_rejected (w : World) (file_content : list Byte.byte)
    (filename : string) (st : State) :
  Py.lower (Path.suffix filename) <> ".pdf" ->
  let calls :=
    [EvWriteFile (saved_path w filename) file_content;
     EvLog LError; EvLog LError] in
  exists e,
    upload_document w file_content filename st
      = (Ok (upload_error_response filename e),
         mkState (document_store st) (trace st ++ calls))
    /\ up_status (upload_error_response filename e) = "error"
    /\ none_of is_index_write calls
    /\ (write_file w (saved_path w filename) file_content = Ok tt ->
        e = unsupported_type_error filename).
Proof.
  intros Hext calls.
  unfold upload_document, process_document, save_file. unfold_m.
  fold (saved_path w filename). cbn.
  destruct (write_file w (saved_path w filename) file_content) as [[]|e]
    eqn:Hwrite; cbn.
  - rewrite (get_file_type_not_pdf filename Hext). cbn.
    exists (unsupported_type_error filename).
    rewrite <- !app_assoc. cbn.
    split; [reflexivity|]. split; [reflexivity|].
    split; [repeat constructor|done].
  - exists e. rewrite <- !app_assoc. cbn.
    split; [reflexivity|]. split; [reflexivity|].
    split; [repeat constructor|done].
Qed.

(** What a successful [process_document] returns is marked processed. *)
Lemma process_document_status (w : World) (file_content : list Byte.byte)
    (filename : string) (st st1 : State) (metadata : DocMetadata) :
  process_document w file_content filename st = (Ok metadata, st1) ->
  doc_status metadata = "processed"
  /\ doc_document_id metadata = uuid4 w
  /\ doc_filename metadata = filename.
Proof.
  unfold process_document, save_file. unfold_m.
  fold (saved_path w filename). cbn.
  destruct (write_file w (saved_path w filename) file_content) as [[]|e];
    cbn; [|done].
  destruct (get_file_type filename) as [file_type|e]; cbn; [|done].
  destruct (process w (saved_path w filename) _) as [[pdf|e] st2]; cbn;
    [|done].
  intros [= <- _]. done.
Qed.

(** C10. When the document was processed with at least one chunk and the
    write to the vector store raises, the response has status [error]
    and an empty document id, while the document store holds the
    document under its identifier with status [processed]: the insertion
    made before the write is not undone. *)
Theorem failed_index_write_keeps_registration (w : World)
    (file_content : list Byte.byte) (filename : string) (st st1 : State)
    (metadata : DocMetadata) (vector_store : VectorStore) (e : exn) :
  process_document w file_content filename st = (Ok metadata, st1) ->
  doc_chunks metadata <> [] ->
  get_vector_store w = Ok vector_store ->
  add_document_chunks vector_store (doc_document_id metadata)
    (doc_chunks metadata)
    [("filename", VStr (doc_filename metadata));
     ("file_type", VStr (doc_file_type metadata));
     ("total_chunks", VInt (doc_total_chunks metadata))] = Raise e ->
  exists st',
    upload_document w file_content filename st
      = (Ok (upload_error_response filename e), st')
    /\ up_status (upload_error_response filename e) = "error"
    /\ up_document_id (upload_error_response filename e) = ""
    /\ document_store st' !! doc_document_id metadata = Some metadata
    /\ doc_status metadata = "processed".
Proof.
  intros Hproc Hchunks Hvs Hadd.
  destruct (process_document_status _ _ _ _ _ _ Hproc) as (Hstatus & _ & _).
  unfold upload_document, try_except, bind at 1. rewrite Hproc.
  destruct (doc_chunks metadata) as [|c cs] eqn:Hcs; [done|].
  unfold_m. cbn. rewrite Hvs. cbn. rewrite Hadd. cbn.
  eexists. split; [reflexivity|]. cbn.
  split; [done|]. split; [done|]. split; [|done].
  apply lookup_insert_eq.
Qed.

(** ** The chunker *)

Lemma to_list_suffix_from i s : to_list (suffix_from i s) = drop i (to_list s).
Proof.
  unfold suffix_from. rewrite to_list_substring.
  apply take_ge. rewrite length_drop, length_to_list. done.
Qed.

Lemma suffix_from_0 s : suffix_from 0 s = s.
Proof. apply to_list_inj. by rewrite to_list_suffix_from. Qed.

Lemma substring_add i a b s :
  String.substring i (a + b) s
    = String.substring i a s +:+ String.substring (i + a) b s.
Proof.
  apply to_list_inj.
  rewrite to_list_app, !to_list_substring, <- drop_drop.
  by rewrite take_take_drop.
Qed.

Lemma suffix_from_add i a s :
  suffix_from i s = String.substring i a s +:+ suffix_from (i + a) s.
Proof.
  apply to_list_inj.
  rewrite to_list_app, !to_list_suffix_from, to_list_substring, <- drop_drop.
  by rewrite take_drop.
Qed.

Lemma substring_to_end i m s :
  (String.length s - i <= m)%nat -> String.substring i m s = suffix_from i s.
Proof.
  intros H. unfold suffix_from.
  rewrite (substring_trunc i m). f_equal. lia.
Qed.

Lemma substring_0_substring i a m s :
  (a <= m)%nat ->
  String.substring 0 a (String.substring i m s) = String.substring i a s.
Proof.
  intros H. apply to_list_inj. rewrite !to_list_substring.
  rewrite drop_0, take_take. f_equal. lia.
Qed.

Lemma suffix_from_substring o i c t :
  suffix_from o (String.substring i c t) = String.substring (i + o) (c - o) t.
Proof.
  apply to_list_inj.
  rewrite to_list_suffix_from, !to_list_substring, <- drop_drop.
  apply skipn_firstn_comm.
Qed.

(** Stitching never yields more characters than the chunks hold. *)
Lemma stitches_length cs t :
  stitches cs t ->
  (String.length t <= foldr (fun c n => String.length c + n) 0 cs)%nat.
Proof.
  induction 1 as [|c|pre ov rest cs t _ IH]; cbn in *; [lia..|].
  rewrite !length_app_str in *. lia.
Qed.

Lemma stitches_step c c' pre ov rest cs t :
  c = pre +:+ ov -> c' = ov +:+ rest ->
  stitches (c' :: cs) t -> stitches (c :: c' :: cs) (pre +:+ t).
Proof. intros -> ->. apply stitches_cons. Qed.

Section Windows.
(** Windows of [C] characters taken every [s] characters from [text]:
  [m] of them, one for every [k] with [k * s] below the length. *)
Variables (text : string) (s C m : nat).
Hypothesis Hs : (0 < s <= C)%nat.
Hypothesis Hm : forall k : nat, (k < m)%nat <-> (k * s < String.length text)%nat.

Let window (k : nat) : string := String.substring (k * s) C text.

Lemma windows_stitch_from cnt k :
  (k + cnt = m)%nat -> (0 < cnt)%nat ->
  stitches (map window (seq k cnt)) (suffix_from (k * s) text).
Proof using Hs Hm.
  revert k. induction cnt as [|[|cnt] IH]; intros k Hk Hpos; [lia| |].
  - cbn. unfold window. rewrite substring_to_end; [constructor|].
    assert (~ (S k * s < String.length text)%nat) by (rewrite <- Hm; lia).
    cbn in *. lia.
  - change (map window (seq k (S (S cnt))))
      with (window k :: window (S k) :: map window (seq (S (S k)) cnt)).
    rewrite (suffix_from_add (k * s) s).
    apply (stitches_step _ _ _
             (String.substring (k * s + s) (C - s) text)
             (String.substring (k * s + s + (C - s)) s text)).
    + unfold window. rewrite <- substring_add. f_equal. lia.
    + unfold window. rewrite <- substring_add.
      f_equal; cbn; lia.
    + replace (k * s + s)%nat with (S k * s)%nat by (cbn; lia).
      apply (IH (S k)); lia.
Qed.

Lemma windows_stitch : stitches (map window (seq 0 m)) text.
Proof using Hs Hm.
  destruct (decide (m = 0%nat)) as [Em|Em].
  - assert (String.length text = 0%nat) as Hlen.
    { assert (~ (0 * s < String.length text)%nat) by (rewrite <- Hm; lia).
      cbn in *. lia. }
    rewrite Em. cbn.
    assert (text = "") as -> by (by destruct text).
    constructor.
  - pose proof (windows_stitch_from m 0) as H.
    rewrite suffix_from_0 in H. apply H; lia.
Qed.

Lemma windows_heads_from cnt k :
  (k + cnt = m)%nat ->
  Py.join "" (map (fun c => String.substring 0 s c)
                (map window (seq k cnt)))
    = suffix_from (k * s) text.
Proof using Hs Hm.
  revert k. induction cnt as [|cnt IH]; intros k Hk.
  - cbn. symmetry. apply to_list_inj. rewrite to_list_suffix_from.
    apply drop_ge. rewrite length_to_list.
    assert (~ (k * s < String.length text)%nat) by (rewrite <- Hm; lia).
    lia.
  - cbn [seq map].
    assert (forall p l, Py.join "" (p :: l) = p +:+ Py.join "" l) as Hj.
    { intros p [|q l]; cbn; [by rewrite app_nil_r_str|done]. }
    rewrite Hj, (IH (S k)) by lia.
    unfold window. rewrite substring_0_substring by lia.
    rewrite (suffix_from_add (k * s) s). f_equal. f_equal. cbn. lia.
Qed.

Lemma windows_length : Forall (fun c => (String.length c <= C)%nat)
                         (map window (seq 0 m)).
Proof using Hs Hm.
  induction (seq 0 m) as [|k ks IH]; constructor; [|done].
  unfold window. rewrite length_substring. lia.
Qed.
Lemma windows_tails_from cnt k :
  (k + cnt = m)%nat -> (1 <= k)%nat ->
  tails_after (C - s) (map window (seq k cnt))
    = suffix_from ((k - 1) * s + C) text.
Proof using Hs Hm.
  revert k. induction cnt as [|cnt IH]; intros k Hk Hpos.
  - cbn. symmetry. apply to_list_inj. rewrite to_list_suffix_from.
    apply drop_ge. rewrite length_to_list.
    assert (~ (k * s < String.length text)%nat) by (rewrite <- Hm; lia).
    nia.
  - cbn [seq map tails_after]. rewrite (IH (S k)) by lia.
    unfold window. rewrite suffix_from_substring.
    rewrite (suffix_from_add ((k - 1) * s + C) s).
    f_equal; [f_equal; nia|f_equal; nia].
Qed.

Lemma windows_without_overlaps :
  without_overlaps (C - s) (map window (seq 0 m)) = text.
Proof using Hs Hm.
  destruct (decide (m = 0%nat)) as [Em|Em].
  - assert (String.length text = 0%nat) as Hlen.
    { assert (~ (0 * s < String.length text)%nat) by (rewrite <- Hm; lia).
      cbn in *. lia. }
    rewrite Em. cbn. symmetry. by destruct text.
  - pose proof (windows_tails_from (m - 1) 1 ltac:(lia) ltac:(lia)) as Htails.
    replace m with (S (m - 1)) by lia.
    cbn [seq map without_overlaps]. rewrite Htails.
    unfold window. cbn [Nat.sub Nat.mul Nat.add].
    rewrite <- (suffix_from_0 text) at 3.
    by rewrite (suffix_from_add 0 C).
Qed.

Lemma windows_overlapping cnt k :
  overlapping C (C - s) (map window (seq k cnt)).
Proof using Hs.
  revert k. induction cnt as [|[|cnt] IH]; intros k; [done..|].
  change (map window (seq k (S (S cnt))))
    with (window k :: window (S k) :: map window (seq (S (S k)) cnt)).
  cbn [overlapping]. split; [|apply (IH (S k))].
  unfold window. rewrite substring_0_substring by lia.
  rewrite suffix_from_substring. f_equal; cbn; lia.
Qed.

End Windows.

Lemma window_count_spec s n (k : nat) :
  0 < s -> (k < window_count s n)%nat <-> Z.of_nat k * s < n.
Proof.
  intros Hs. unfold window_count.
  destruct (Z.ltb_spec 0 n) as [Hn|Hn]; [|nia].
  pose proof (Z.div_mod (n - 1) s ltac:(lia)) as Hdm.
  pose proof (Z.mod_pos_bound (n - 1) s Hs) as Hmod.
  assert (0 <= (n - 1) / s) by (apply Z.div_pos; lia).
  split; intros H'; nia.
Qed.

Lemma window_count_nat s n (k : nat) :
  0 < s ->
  (k < window_count s (Z.of_nat n))%nat <-> (k * Z.to_nat s < n)%nat.
Proof. intros Hs. rewrite window_count_spec by done. nia. Qed.

(** The fallback, as windows of the text. *)
Lemma fallback_chunks_windows C O text :
  0 <= O < C ->
  fallback_chunks C O text
    = Ok (map (fun k : nat =>
                 String.substring (k * Z.to_nat (C - O)) (Z.to_nat C) text)
            (seq 0 (window_count (C - O) (Py.len text)))).
Proof.
  intros HCO. unfold fallback_chunks, Py.range, window_count.
  destruct (Z.eqb_spec (C - O) 0) as [|_]; [lia|].
  destruct (Z.ltb_spec 0 (C - O)) as [_|]; [|lia].
  rewrite Z.sub_0_r. f_equal. rewrite map_map. apply map_ext. intros k.
  rewrite slice_nonneg by nia. f_equal. nia.
Qed.

(** C8. When the splitter raises and [0 <= O < C], [chunk_text] returns
    the fixed windows of the text: its [k]-th chunk is [text[i:i+C]] for
    [i = k * (C - O)], for exactly the [k] whose [i] lies below the
    length of the text, in that order; no chunk is longer than [C]. *)
Theorem fallback_fixed_windows (w : World) (text : string) (st : State)
    (e : exn) :
  let C := max_chunk_size (settings w) in
  let O := chunk_overlap (settings w) in
  0 <= O < C ->
  split_text w text = Raise e ->
  exists chunks,
    chunk_text w text st
      = (Ok chunks,
         mkState (document_store st)
           (trace st ++ [EvSplitText text; EvLog LError]))
    /\ (forall k : nat,
          chunks !! k
            = if decide (Z.of_nat k * (C - O) < Py.len text)
              then Some (Py.slice text (Z.of_nat k * (C - O))
                           (Z.of_nat k * (C - O) + C))
              else None)
    /\ Forall (fun c => Py.len c <= C) chunks.
Proof.
  intros C O HCO Hsplit.
  pose proof (fallback_chunks_windows C O text HCO) as Hfb.
  eexists. split; [|split].
  - unfold chunk_text. unfold_m. cbn. rewrite Hsplit. cbn.
    fold C O. rewrite Hfb. rewrite <- app_assoc. reflexivity.
  - intros k. rewrite list_lookup_fmap.
    destruct (decide (Z.of_nat k * (C - O) < Py.len text)) as [Hk|Hk].
    + rewrite lookup_seq_lt by (apply window_count_spec; [lia|done]).
      cbn. rewrite slice_nonneg by nia. do 2 f_equal. nia.
    + rewrite lookup_seq_ge; [done|].
      apply Nat.nlt_ge. rewrite window_count_spec by lia. done.
  - eapply Forall_impl.
    + apply (windows_length text (Z.to_nat (C - O)) (Z.to_nat C)
               (window_count (C - O) (Py.len text))); [lia|].
      intros k. apply window_count_nat. lia.
    + intros c Hc. unfold Py.len. cbn in Hc. lia.
Qed.

(** C3 (amended). With [0 <= O < C]: when the splitter returns,
    [chunk_text] hands back its chunks unchanged and in order, so the
    chunks it returns reconstruct the text exactly when the chunks of
    the splitter do.  When the splitter raises, the chunks of the
    fallback reconstruct the text in order: every chunk begins with what
    the chunk before it holds from position [C - O] on, the first chunk
    followed by every later chunk without its first [O] characters is
    the text, and so are the first [C - O] characters of every chunk,
    concatenated. *)
Theorem chunk_text_reconstruction (w : World) (text : string) (st : State) :
  let C := max_chunk_size (settings w) in
  let O := chunk_overlap (settings w) in
  0 <= O < C ->
  (forall chunks,
     split_text w text = Ok chunks ->
     chunk_text w text st
       = (Ok chunks,
          mkState (document_store st)
            (trace st ++ [EvSplitText text; EvLog LInfo])))
  /\ (forall chunks returned,
        split_text w text = Ok chunks ->
        fst (chunk_text w text st) = Ok returned ->
        returned = chunks
        /\ (without_overlaps (Z.to_nat O) returned = text
            <-> without_overlaps (Z.to_nat O) chunks = text)
        /\ (stitches returned text <-> stitches chunks text))
  /\ (forall e,
        split_text w text = Raise e ->
        exists chunks st',
          chunk_text w text st = (Ok chunks, st')
          /\ stitches chunks text
          /\ Py.join "" (map (fun c => Py.slice_to c (C - O)) chunks) = text
          /\ without_overlaps (Z.to_nat O) chunks = text
          /\ overlapping (Z.to_nat C) (Z.to_nat O) chunks).
Proof.
  intros C O HCO.
  assert (forall chunks,
            split_text w text = Ok chunks ->
            chunk_text w text st
              = (Ok chunks,
                 mkState (document_store st)
                   (trace st ++ [EvSplitText text; EvLog LInfo]))) as Hpass.
  { intros chunks Hsplit. unfold chunk_text. unfold_m. cbn.
    rewrite Hsplit. cbn. rewrite <- app_assoc. reflexivity. }
  split; [exact Hpass|]. split.
  - intros chunks returned Hsplit Hret.
    rewrite (Hpass chunks Hsplit) in Hret. injection Hret as <-. done.
  - intros e Hsplit.
    pose proof (fallback_chunks_windows C O text HCO) as Hfb.
    assert (forall k : nat,
              (k < window_count (C - O) (Py.len text))%nat
              <-> (k * Z.to_nat (C - O) < String.length text)%nat) as Hm
      by (intros k; apply window_count_nat; lia).
    assert (Z.to_nat O = (Z.to_nat C - Z.to_nat (C - O))%nat) as HO by lia.
    eexists. eexists. split; [|split; [|split; [|split]]].
    + unfold chunk_text. unfold_m. cbn. rewrite Hsplit. cbn.
      fold C O. rewrite Hfb. reflexivity.
    + apply windows_stitch; [lia|done].
    + pose proof (windows_heads_from text (Z.to_nat (C - O)) (Z.to_nat C)
                    (window_count (C - O) (Py.len text)) ltac:(lia) Hm
                    (window_count (C - O) (Py.len text)) 0%nat eq_refl)
        as Hheads.
      change (0 * Z.to_nat (C - O))%nat with 0%nat in Hheads.
      rewrite suffix_from_0 in Hheads. rewrite <- Hheads at 2.
      f_equal. apply map_ext. intros c.
      apply slice_to_substring. lia.
    + rewrite HO. apply windows_without_overlaps; [lia|done].
    + rewrite HO. apply windows_overlapping. lia.
Qed.

(** ** The text extractor *)

Lemma rev_app_app s1 s2 acc :
  String.rev_app (s1 +:+ s2) acc = String.rev_app s2 (String.rev_app s1 acc).
Proof. revert acc. induction s1 as [|c s1 IH]; intros acc; simpl; auto. Qed.

Lemma rstrip_snoc_space s c :
  Py.isspace c = true -> Py.rstrip (s +:+ String c "") = Py.rstrip s.
Proof.
  intros Hc. unfold Py.rstrip, String.rev. rewrite rev_app_app.
  simpl. by rewrite Hc.
Qed.

Lemma lstrip_app x y :
  Py.all_space x = false -> Py.lstrip (x +:+ y) = Py.lstrip x +:+ y.
Proof.
  induction x as [|c x IH]; simpl; [done|].
  destruct (Py.isspace c); simpl; [auto|done].
Qed.

Lemma all_space_app x y :
  Py.all_space (x +:+ y) = Py.all_space x && Py.all_space y.
Proof.
  induction x as [|c x IH]; simpl; [done|].
  rewrite IH. by rewrite andb_assoc.
Qed.

(** A trailing line feed does not survive [strip]. *)
Lemma strip_trailing_nl x : Py.strip (x +:+ Py.nl) = Py.strip x.
Proof.
  destruct (Py.all_space x) eqn:Hx.
  - rewrite !strip_all_space; [done..|].
    rewrite all_space_app, Hx. reflexivity.
  - unfold Py.strip. rewrite lstrip_app by done.
    by apply rstrip_snoc_space.
Qed.

Lemma lines_join texts :
  texts <> [] -> lines texts = Py.join Py.nl texts +:+ Py.nl.
Proof.
  induction texts as [|t [|t' texts] IH]; intros Hne; [done| |].
  - cbn. reflexivity.
  - change (lines (t :: t' :: texts))
      with (t +:+ Py.nl +:+ lines (t' :: texts)).
    rewrite IH by done.
    change (Py.join Py.nl (t :: t' :: texts))
      with (t +:+ Py.nl +:+ Py.join Py.nl (t' :: texts)).
    by rewrite !app_assoc_str.
Qed.

Lemma strip_lines texts : Py.strip (lines texts) = Py.strip (Py.join Py.nl texts).
Proof.
  destruct texts as [|t texts]; [done|].
  rewrite lines_join by done. apply strip_trailing_nl.
Qed.

Lemma concat_pages_texts acc texts :
  concat_pages acc (map Ok texts) = Ok (acc +:+ lines texts).
Proof.
  revert acc. induction texts as [|t texts IH]; intros acc; simpl.
  - by rewrite app_nil_r_str.
  - rewrite IH. by rewrite !app_assoc_str.
Qed.

Lemma concat_pages_raise acc texts e rest :
  concat_pages acc (map Ok texts ++ Raise e :: rest) = Raise e.
Proof. revert acc. induction texts as [|t texts IH]; intros acc; simpl; auto. Qed.

Lemma concat_pages_raises acc pages :
  raises (concat_pages acc pages) = existsb raises pages.
Proof.
  revert acc. induction pages as [|[t|e] pages IH]; intros acc; simpl; auto.
Qed.

(** How [extract_text] ends, from how the reading went. *)
Lemma extract_text_run w file_path st :
  extract_text w file_path st
    = match pdf_pages w file_path with
      | Raise e =>
          (Raise e,
           mkState (document_store st)
             (trace st ++ [EvReadPdf file_path; EvLog LError]))
      | Ok pages =>
          match concat_pages "" pages with
          | Ok text =>
              (Ok (Py.strip text),
               mkState (document_store st) (trace st ++ [EvReadPdf file_path]))
          | Raise e =>
              (Raise e,
               mkState (document_store st)
                 (trace st ++ [EvReadPdf file_path; EvLog LError]))
          end
      end.
Proof.
  unfold extract_text. unfold_m. cbn.
  destruct (pdf_pages w file_path) as [pages|e]; cbn.
  - destruct (concat_pages "" pages) as [text|e]; cbn;
      by rewrite <- ?app_assoc.
  - by rewrite <- app_assoc.
Qed.

Lemma concat_pages_textless acc pages :
  Forall (fun p => p = Ok "") pages ->
  exists text,
    concat_pages acc pages = Ok (acc +:+ text) /\ Py.all_space text = true.
Proof.
  intros H. revert acc. induction H as [|p pages -> _ IH]; intros acc.
  - exists "". by rewrite app_nil_r_str.
  - cbn. destruct (IH (acc +:+ "" +:+ Py.nl)) as (text & -> & Hsp).
    exists (Py.nl +:+ text). split; [|done].
    by rewrite !app_assoc_str.
Qed.

Lemma get_file_type_pdf filename :
  Py.lower (Path.suffix filename) = ".pdf" -> get_file_type filename = Ok "pdf".
Proof.
  intros H. unfold get_file_type.
  destruct (decide (Py.lower (Path.suffix filename) = ".pdf")); done.
Qed.

Lemma process_reading_failure (w : World) (file_path : string) (st : State) :
  reading_raises (pdf_pages w file_path) = true ->
  exists e,
    process w file_path st
      = (Raise e,
         mkState (document_store st)
           (trace st ++ [EvReadPdf file_path; EvLog LError; EvLog LError])).
Proof.
  intros Hread. unfold process, try_except, bind.
  rewrite extract_text_run.
  destruct (pdf_pages w file_path) as [pages|e]; cbn in Hread.
  - pose proof (concat_pages_raises "" pages) as Hr. rewrite Hread in Hr.
    destruct (concat_pages "" pages) as [text|e]; [done|].
    exists e. unfold_m. cbn. by rewrite <- app_assoc.
  - exists e. unfold_m. cbn. by rewrite <- app_assoc.
Qed.

Lemma process_document_reading_failure (w : World)
    (file_content : list Byte.byte) (filename : string) (st : State) :
  Py.lower (Path.suffix filename) = ".pdf" ->
  write_file w (saved_path w filename) file_content = Ok tt ->
  reading_raises (pdf_pages w (saved_path w filename)) = true ->
  exists e st',
    process_document w file_content filename st = (Raise e, st')
    /\ document_store st' = document_store st.
Proof.
  intros Hext Hwrite Hread.
  unfold process_document, save_file. unfold_m.
  fold (saved_path w filename). cbn. rewrite Hwrite.
  rewrite (get_file_type_pdf filename Hext).
  match goal with
  | |- context [process w ?p ?s] =>
      destruct (process_reading_failure w p s Hread) as [e ->]
  end.
  exists e. eexists. split; reflexivity.
Qed.

(** An upload whose reading fails is answered with the error record, and
    the document store is left as it was. *)
Lemma reading_failure_upload_error (w : World) (file_content : list Byte.byte)
    (filename : string) (st : State) :
  Py.lower (Path.suffix filename) = ".pdf" ->
  write_file w (saved_path w filename) file_content = Ok tt ->
  reading_raises (pdf_pages w (saved_path w filename)) = true ->
  exists e st',
    upload_document w file_content filename st
      = (Ok (upload_error_response filename e), st')
    /\ document_store st' = document_store st.
Proof.
  intros Hext Hwrite Hread.
  destruct (process_document_reading_failure w file_content filename st
              Hext Hwrite Hread) as (e & st1 & Hproc & Hstore).
  unfold upload_document, try_except, bind at 1. rewrite Hproc.
  exists e. eexists. split; [reflexivity|]. cbn. done.
Qed.

(** ** Instances *)

Example strip_both_ends : Py.strip "  Q1 revenue? " = "Q1 revenue?".
Proof. reflexivity. Qed.

Example suffix_cases :
  map Path.suffix
    ["report.pdf"; "a/b.tar.gz"; ".pdf"; "notes."; "dir.d/scan.PDF"; "a.pdf/"]
  = [".pdf"; ".gz"; ""; ""; ".PDF"; ".pdf"].
Proof. reflexivity. Qed.

Example file_type_ignores_case : get_file_type "dir.d/scan.PDF" = Ok "pdf".
Proof. reflexivity. Qed.

Example slice_cases :
  Py.slice "abcdefghij" 3 7 = "defg"
  /\ Py.slice "abcdefghij" 9 13 = "j"
  /\ Py.slice "abcdefghij" (-3) 20 = "hij"
  /\ Py.slice "abcdefghij" 12 16 = "".
Proof. repeat split. Qed.

Example range_cases :
  Py.range 0 10 3 = Some [0; 3; 6; 9]
  /\ Py.range 0 9 3 = Some [0; 3; 6]
  /\ Py.range 0 0 3 = Some []
  /\ Py.range 0 10 0 = None
  /\ Py.range 0 10 (-1) = Some [].
Proof. repeat split. Qed.

Example fallback_windows :
  fallback_chunks 4 1 "abcdefghij" = Ok ["abcd"; "defg"; "ghij"; "j"].
Proof. reflexivity. Qed.

Example two_pages_extracted :
  fst (extract_text
         (world_of default_settings (Ok (store_of [] (Ok tt)))
            (Ok [Ok " Revenue "; Ok "grew 12%. "]) one_chunk)
         "/srv/uploads/3f2b6c1e.pdf" empty_state)
  = Ok ("Revenue " +:+ Py.nl +:+ "grew 12%.").
Proof. reflexivity. Qed.

Example report_uploaded :
  exists st,
    upload_document
      (world_of default_settings (Ok (store_of [] (Ok tt)))
         (Ok [Ok report_page]) one_chunk)
      [] "report.pdf" empty_state
    = (Ok {| up_document_id := "3f2b6c1e";
             up_filename := "report.pdf";
             up_document_type := "pdf";
             up_status := "processed";
             up_metadata :=
               [("total_chunks", VInt 1); ("total_words", VInt 5);
                ("file_size", VInt 0)] |}, st)
    /\ document_store st !! "3f2b6c1e" = Some report_metadata.
Proof. eexists. split; [vm_compute; reflexivity|reflexivity]. Qed.

Example one_hit_context :
  _prepare_context_from_search_results [hit report_page "report.pdf"]
  = Py.join Py.nl
      ["=== RELEVANT DOCUMENT CONTENT ===";
       "Source 1 (from report.pdf):";
       "Revenue grew 12% in Q1.";
       ""].
Proof. reflexivity. Qed.


(** C1 at a question asked of an empty index. *)
Lemma no_results_reply_witness :
  process_chat_message empty_index_world
    (mkChatRequest "What was Q1 revenue growth?" None) empty_state
    = (Ok no_information_response,
       mkState ∅
         [EvGetVectorStore; EvSearch "What was Q1 revenue growth?" 5 None])
  /\ sources no_information_response = []
  /\ none_of is_llm_call
       [EvGetVectorStore; EvSearch "What was Q1 revenue growth?" 5 None].
Proof.
  apply (no_results_reply empty_index_world
           (mkChatRequest "What was Q1 revenue growth?" None)
           (store_of [] (Ok tt)) empty_state).
  - vm_compute. discriminate.
  - reflexivity.
  - reflexivity.
Defined.

(** C2 at a message of blanks, a tab and a line feed. *)
Lemma empty_message_short_circuit_witness :
  process_chat_message empty_index_world
    (mkChatRequest ("  " +:+ String (ascii_of_nat 9) Py.nl) (Some "3f2b6c1e"))
    empty_state
    = (Ok empty_message_response, empty_state).
Proof.
  apply (empty_message_short_circuit empty_index_world
           (mkChatRequest ("  " +:+ String (ascii_of_nat 9) Py.nl)
              (Some "3f2b6c1e")) empty_state).
  reflexivity.
Defined.

(** C3 (amended) at a text of ten characters, with windows of four
    characters that overlap by one and a splitter that raises. *)
Lemma chunk_text_reconstruction_witness :
  exists chunks st',
    chunk_text broken_splitter_world "abcdefghij" empty_state
      = (Ok chunks, st')
    /\ stitches chunks "abcdefghij"
    /\ Py.join "" (map (fun c => Py.slice_to c 3) chunks) = "abcdefghij"
    /\ without_overlaps 1 chunks = "abcdefghij"
    /\ overlapping 4 1 chunks.
Proof.
  exact (proj2 (proj2 (chunk_text_reconstruction broken_splitter_world
                         "abcdefghij" empty_state ltac:(cbn; lia)))
           (Exception "RuntimeError" "splitter failed") eq_refl).
Defined.

(** The chunks of that run, and what removing the overlaps leaves. *)
Example fallback_chunks_reconstruct :
  fst (chunk_text broken_splitter_world "abcdefghij" empty_state)
    = Ok ["abcd"; "defg"; "ghij"; "j"]
  /\ without_overlaps 1 ["abcd"; "defg"; "ghij"; "j"]
     = "abcd" +:+ "efg" +:+ "hij" +:+ "".
Proof. split; reflexivity. Qed.

(** C3, as stated, fails at a text the chunker receives from
    [process]: a page of two words is extracted to the text [ab cd],
    which is not empty and has no white space at its ends; with windows
    of four characters that overlap by one the splitter returns the two
    words, [chunk_text] hands them back, and the blank between them is
    in neither chunk.  The two chunks hold four characters and the text
    five, so no removal of overlaps, of whatever length, turns them into
    the text. *)
Lemma separator_lost_between_chunks :
  fst (extract_text two_words_world "/srv/uploads/3f2b6c1e.pdf" empty_state)
    = Ok "ab cd"
  /\ "ab cd" <> ""
  /\ 0 <= chunk_overlap (settings two_words_world)
       < max_chunk_size (settings two_words_world)
  /\ fst (chunk_text two_words_world "ab cd" empty_state) = Ok ["ab"; "cd"]
  /\ fst (process two_words_world "/srv/uploads/3f2b6c1e.pdf" empty_state)
     = Ok {| pdf_total_chunks := 2;
             pdf_total_characters := 5;
             pdf_total_words := 2;
             pdf_chunks := ["ab"; "cd"];
             pdf_full_text := "ab cd" |}
  /\ (stitches ["ab"; "cd"] "ab cd" -> False)
  /\ (forall O : nat, without_overlaps O ["ab"; "cd"] = "ab cd" -> False).
Proof.
  split; [reflexivity|]. split; [done|]. split; [cbn; lia|].
  split; [reflexivity|]. split; [reflexivity|]. split.
  - intros H. apply stitches_length in H. cbn in H. lia.
  - intros O H. apply (f_equal String.length) in H.
    cbn [without_overlaps tails_after] in H.
    rewrite !length_app_str in H. unfold suffix_from in H.
    rewrite length_substring in H. cbn in H. lia.
Qed.

(** C4, as stated, fails: a readable PDF of two pages without a text
    layer is extracted to the empty string, which is not the two page
    texts joined by a line feed; no exception is raised, and the upload
    is answered as processed. *)
Lemma textless_pdf_is_processed :
  no_extractable_text (pdf_pages scanned_world "/srv/uploads/3f2b6c1e.pdf")
  /\ extract_text scanned_world "/srv/uploads/3f2b6c1e.pdf" empty_state
       = (Ok "", mkState ∅ [EvReadPdf "/srv/uploads/3f2b6c1e.pdf"])
  /\ raises (fst (extract_text scanned_world "/srv/uploads/3f2b6c1e.pdf"
                    empty_state)) = false
  /\ Py.join Py.nl [""; ""] <> ""
  /\ (exists resp st',
        upload_document scanned_world [] "scan.pdf" empty_state
          = (Ok resp, st')
        /\ up_status resp = "processed").
Proof.
  split; [|split; [|split; [|split]]].
  - exists [Ok ""; Ok ""]. split; [reflexivity|]. repeat constructor.
  - reflexivity.
  - reflexivity.
  - discriminate.
  - eexists. eexists. split; [vm_compute; reflexivity|reflexivity].
Qed.

(** C5 at a text file. *)
Lemma non_pdf_upload_rejected_witness :
  exists e,
    upload_document empty_index_world [] "notes.txt" empty_state
      = (Ok (upload_error_response "notes.txt" e),
         mkState ∅
           [EvWriteFile "/srv/uploads/3f2b6c1e.txt" [];
            EvLog LError; EvLog LError])
    /\ up_status (upload_error_response "notes.txt" e) = "error"
    /\ none_of is_index_write
         [EvWriteFile "/srv/uploads/3f2b6c1e.txt" [];
          EvLog LError; EvLog LError]
    /\ (Ok tt = Ok tt -> e = unsupported_type_error "notes.txt").
Proof.
  exact (non_pdf_upload_rejected empty_index_world [] "notes.txt" empty_state
           ltac:(vm_compute; discriminate)).
Defined.

(** C6 at four hits that come ranked, two of them with the same score:
    the context holds the first three in the order given, each under its
    file name and with its text, and the fourth is left out. *)
Lemma context_from_first_three_witness :
  _prepare_context_from_search_results ranked_hits
    = "=== RELEVANT DOCUMENT CONTENT ===
Source 1 (from a.pdf):
alpha

Source 2 (from b.pdf):
beta

Source 3 (from c.pdf):
gamma
"
  /\ take 3 (ranked by_score ranked_hits)
     = [scored "alpha" "a.pdf" Score.high; scored "beta" "b.pdf" Score.middle;
        scored "gamma" "c.pdf" Score.middle]
  /\ _prepare_context_from_search_results ranked_hits
     = "=== RELEVANT DOCUMENT CONTENT ===" +:+ line_feed
       +:+ labelled_blocks 1 (take 3 (ranked by_score ranked_hits))
       +:+ line_feed.
Proof.
  split; [|split].
  - exact (proj1 (context_from_first_three ranked_hits ltac:(discriminate))).
  - reflexivity.
  - apply (proj2 (proj2 (context_from_first_three ranked_hits
                           ltac:(discriminate)))).
    repeat constructor.
Defined.

(** The assembler does not sort: when the best hit comes last, the
    context still holds the first three hits in the order given, and
    these are not the first three of the ranking. *)
Example context_keeps_the_order_given :
  _prepare_context_from_search_results unranked_hits
    = "=== RELEVANT DOCUMENT CONTENT ===
Source 1 (from d.pdf):
delta

Source 2 (from b.pdf):
beta

Source 3 (from c.pdf):
gamma
"
  /\ ranked by_score unranked_hits = ranked_hits.
Proof. split; reflexivity. Qed.

(** C7 at four results, one more than the context holds: a passage of
    212 characters, a short one, a result without any key, and a fourth.
    The list has four entries; the first carries the first 200
    characters of the passage and three dots, the third the defaults. *)
Lemma sources_cover_every_result_witness :
  length (_prepare_sources cited_hits) = 4%nat
  /\ (exists s,
        _prepare_sources cited_hits !! 0%nat = Some s
        /\ src_content s
           = "Revenue for the first quarter grew 12% year over year to 4.2 billion, driven by subscription renewals and higher cloud usage; operating margin widened to 31%, and free cash flow reached 1.1 billion in..."
        /\ src_metadata s
           = {[ "filename" := VStr "report.pdf"; "file_type" := VStr "pdf" ]}
        /\ src_relevance_score s = NFloat Score.high
        /\ src_document_type s = VStr "pdf")
  /\ (exists s,
        _prepare_sources cited_hits !! 1%nat = Some s
        /\ src_content s = "Costs fell."
        /\ src_metadata s = {[ "filename" := VStr "costs.pdf" ]}
        /\ src_relevance_score s = NInt 1
        /\ src_document_type s = VStr "unknown")
  /\ (exists s,
        _prepare_sources cited_hits !! 2%nat = Some s
        /\ src_content s = ""
        /\ src_metadata s = ∅
        /\ src_relevance_score s = NInt 0
        /\ src_document_type s = VStr "unknown").
Proof.
  pose proof (sources_cover_every_result cited_hits) as (Hlen & Hentry & _).
  split; [exact Hlen|]. split; [|split].
  - destruct (Hentry 0%nat _ eq_refl) as (s & Hs & Hm & Hr & Ht & Hc & _).
    exists s. split; [exact Hs|].
    split; [exact (proj2 (Hc long_passage eq_refl) ltac:(cbn; lia))|].
    split; [exact Hm|]. split; [exact Hr|exact Ht].
  - destruct (Hentry 1%nat _ eq_refl) as (s & Hs & Hm & Hr & Ht & Hc & _).
    exists s. split; [exact Hs|].
    split; [exact (proj1 (Hc "Costs fell." eq_refl) ltac:(cbn; lia))|].
    split; [exact Hm|]. split; [exact Hr|exact Ht].
  - destruct (Hentry 2%nat _ eq_refl) as (s & Hs & Hm & Hr & Ht & _ & Hn).
    exists s. split; [exact Hs|].
    split; [exact (Hn eq_refl)|].
    split; [exact Hm|]. split; [exact Hr|exact Ht].
Defined.

(** C8 at a text of ten characters, with windows of four characters
    that overlap by one. *)
Lemma fallback_fixed_windows_witness :
  exists chunks,
    chunk_text broken_splitter_world "abcdefghij" empty_state
      = (Ok chunks, mkState ∅ [EvSplitText "abcdefghij"; EvLog LError])
    /\ (forall k : nat,
          chunks !! k
            = if decide (Z.of_nat k * 3 < 10)
              then Some (Py.slice "abcdefghij" (Z.of_nat k * 3)
                           (Z.of_nat k * 3 + 4))
              else None)
    /\ Forall (fun c => Py.len c <= 4) chunks.
Proof.
  exact (fallback_fixed_windows broken_splitter_world "abcdefghij" empty_state
           (Exception "RuntimeError" "splitter failed")
           ltac:(cbn; lia) eq_refl).
Defined.

(** C10 at a one-page report whose write to the index fails. *)
Lemma failed_index_write_keeps_registration_witness :
  exists st',
    upload_document failing_index_world [] "report.pdf" empty_state
      = (Ok (upload_error_response "report.pdf"
               (Exception "ConnectionError" "upsert failed")), st')
    /\ up_status (upload_error_response "report.pdf"
                    (Exception "ConnectionError" "upsert failed")) = "error"
    /\ up_document_id (upload_error_response "report.pdf"
                         (Exception "ConnectionError" "upsert failed")) = ""
    /\ document_store st' !! "3f2b6c1e" = Some report_metadata
    /\ doc_status report_metadata = "processed".
Proof.
  apply (failed_index_write_keeps_registration failing_index_world []
           "report.pdf" empty_state
           (snd (process_document failing_index_world [] "report.pdf"
                   empty_state))
           report_metadata
           (store_of [] (Raise (Exception "ConnectionError" "upsert failed")))
           (Exception "ConnectionError" "upsert failed")).
  - vm_compute. reflexivity.
  - discriminate.
  - reflexivity.
  - reflexivity.
Defined.

(** ** Further properties of the query path *)

Lemma added_app st evs dstore :
  added st (mkState dstore (trace st ++ evs)) = evs.
Proof. unfold added. cbn. by rewrite drop_app_length. Qed.

Lemma generate_response_run (w : World) (query context : string)
    (st : State) :
  exists text logs,
    _generate_response w query context st
      = (Ok text,
         mkState (document_store st)
           (trace st ++ completion_call w query context :: logs))
    /\ none_of is_llm_call logs
    /\ match chat_completions_create w (openai_model (settings w))
               [("system", system_message);
                ("user", prompt_of query context)] with
       | Ok (Some content :: _) => text = Py.strip content /\ logs = []
       | Ok (None :: _) | Ok [] | Raise _ =>
           text = generation_apology /\ logs = [EvLog LError]
       end.
Proof.
  unfold _generate_response, completion_call. unfold_m. cbn.
  destruct (chat_completions_create _ _ _) as [[|[content|] choices]|e]; cbn;
    eexists; eexists; rewrite <- ?app_assoc;
    (split; [reflexivity|split; [|done]]); repeat constructor.
Qed.

(** X1. [_generate_response] never raises and makes exactly one
    completion call.  Its text is the stripped content of the first
    choice; when the call raises, returns no choice, or returns a first
    choice without content, the text is the fixed apology. *)
Theorem generate_response_outcome (w : World) (query context : string)
    (st : State) :
  exists text logs,
    _generate_response w query context st
      = (Ok text,
         mkState (document_store st)
           (trace st ++ completion_call w query context :: logs))
    /\ none_of is_llm_call logs
    /\ match chat_completions_create w (openai_model (settings w))
               [("system", system_message);
                ("user", prompt_of query context)] with
       | Ok (Some content :: _) => text = Py.strip content /\ logs = []
       | Ok (None :: _) | Ok [] | Raise _ =>
           text = generation_apology /\ logs = [EvLog LError]
       end.
Proof. apply generate_response_run. Qed.

(** The run of a request whose search found something. *)
Lemma results_found_run (w : World) (request : ChatRequest)
    (vector_store : VectorStore) (search_results : list SearchResult)
    (st : State) :
  let query := Py.strip (message request) in
  let context := _prepare_context_from_search_results search_results in
  query <> "" ->
  get_vector_store w = Ok vector_store ->
  search_similar_chunks vector_store query (rag_top_k_results (settings w))
    (req_document_id request) = Ok search_results ->
  search_results <> [] ->
  exists text logs,
    process_chat_message w request st
      = (Ok (rag_response request text search_results),
         mkState (document_store st)
           (trace st
              ++ [EvGetVectorStore;
                  EvSearch query (rag_top_k_results (settings w))
                    (req_document_id request);
                  completion_call w query context] ++ logs))
    /\ none_of is_llm_call logs
    /\ none_of is_search_call logs
    /\ none_of is_ingestion_event logs
    /\ match chat_completions_create w (openai_model (settings w))
               [("system", system_message);
                ("user", prompt_of query context)] with
       | Ok (Some content :: _) => text = Py.strip content
       | Ok (None :: _) | Ok [] | Raise _ => text = generation_apology
       end.
Proof.
  intros query context Hq Hvs Hsearch Hne. subst query context.
  unfold process_chat_message.
  destruct (decide (Py.strip (message request) = "")) as [|_]; [done|].
  destruct search_results as [|r rs]; [done|].
  unfold try_except, bind, call, emit.
  cbn -[_generate_response _prepare_context_from_search_results
        _prepare_sources].
  rewrite Hvs.
  cbn -[_generate_response _prepare_context_from_search_results
        _prepare_sources].
  rewrite Hsearch.
  match goal with
  | |- context [_generate_response w ?q ?c ?s] =>
      destruct (generate_response_run w q c s)
        as (text & logs & -> & Hlogs & Hcases)
  end.
  exists text, logs. split.
  - cbn. rewrite <- !app_assoc. reflexivity.
  - split; [done|].
    destruct (chat_completions_create _ _ _) as [[|[content|] choices]|e];
      destruct Hcases as [-> ->]; repeat split; repeat constructor.
Qed.

Lemma count_of_none p evs : none_of p evs -> count_of p evs = 0%nat.
Proof.
  unfold count_of. induction 1 as [|ev evs Hev _ IH]; cbn; [done|].
  by rewrite Hev.
Qed.

Lemma count_of_app p evs1 evs2 :
  count_of p (evs1 ++ evs2) = (count_of p evs1 + count_of p evs2)%nat.
Proof. unfold count_of. by rewrite List.filter_app, length_app. Qed.

Lemma none_of_app p evs1 evs2 :
  none_of p evs1 -> none_of p evs2 -> none_of p (evs1 ++ evs2).
Proof. unfold none_of. intros. by apply Forall_app. Qed.

(** The reply to a message that is not empty. *)
Lemma nonempty_message_reply (w : World) (request : ChatRequest) (st : State) :
  Py.strip (message request) <> "" ->
  exists resp evs,
    process_chat_message w request st
      = (Ok resp, mkState (document_store st) (trace st ++ evs))
    /\ (resp = no_information_response
        \/ (exists e, resp = processing_error_response e)
        \/ (exists text search_results,
              search_results <> []
              /\ resp = rag_response request text search_results))
    /\ none_of is_ingestion_event evs
    /\ (count_of is_llm_call evs <= count_of is_search_call evs <= 1)%nat.
Proof.
  intros Hq.
  destruct (get_vector_store w) as [vector_store|e] eqn:Hvs.
  2:{ exists (processing_error_response e), [EvGetVectorStore; EvLog LError].
      split; [|split; [right; left; by exists e|]].
      - unfold process_chat_message. unfold_m.
        destruct (decide _) as [|]; [done|]. cbn. rewrite Hvs. cbn.
        by rewrite <- app_assoc.
      - split; [repeat constructor|cbn; lia]. }
  destruct (search_similar_chunks vector_store (Py.strip (message request))
              (rag_top_k_results (settings w)) (req_document_id request))
    as [search_results|e] eqn:Hsearch.
  2:{ exists (processing_error_response e). eexists.
      split; [|split; [right; left; by exists e|]].
      - unfold process_chat_message. unfold_m.
        destruct (decide _) as [|]; [done|]. cbn. rewrite Hvs. cbn.
        rewrite Hsearch. cbn. rewrite <- !app_assoc. reflexivity.
      - split; [repeat constructor|cbn; lia]. }
  destruct search_results as [|r rs].
  - exists no_information_response. eexists. split; [|split; [by left|]].
    + unfold process_chat_message. unfold_m.
      destruct (decide _) as [|]; [done|]. cbn. rewrite Hvs. cbn.
      rewrite Hsearch. cbn. rewrite <- !app_assoc. reflexivity.
    + split; [repeat constructor|cbn; lia].
  - destruct (results_found_run w request vector_store (r :: rs) st
                Hq Hvs Hsearch ltac:(done))
      as (text & logs & Hrun & Hllm & Hsrch & Hing & _).
    exists (rag_response request text (r :: rs)). eexists.
    split; [exact Hrun|]. split; [right; right; by exists text, (r :: rs)|].
    split.
    + apply none_of_app; [repeat constructor|done].
    + rewrite !count_of_app, (count_of_none _ _ Hllm),
        (count_of_none _ _ Hsrch). cbn. lia.
Qed.

(** The run of a request whose retrieval raises. *)
Lemma retrieval_failure_run (w : World) (request : ChatRequest)
    (st : State) (e : exn) :
  Py.strip (message request) <> "" ->
  (get_vector_store w = Raise e
   \/ exists vector_store,
        get_vector_store w = Ok vector_store
        /\ search_similar_chunks vector_store (Py.strip (message request))
             (rag_top_k_results (settings w)) (req_document_id request)
           = Raise e) ->
  exists evs,
    process_chat_message w request st
      = (Ok (processing_error_response e),
         mkState (document_store st) (trace st ++ evs))
    /\ Forall (fun ev =>
                 is_search_call ev = true ->
                 ev = EvSearch (Py.strip (message request))
                        (rag_top_k_results (settings w))
                        (req_document_id request)) evs.
Proof.
  intros Hq [Hvs|(vector_store & Hvs & Hsearch)].
  - exists [EvGetVectorStore; EvLog LError]. split.
    + unfold process_chat_message. unfold_m.
      destruct (decide _) as [|]; [done|]. cbn. rewrite Hvs. cbn.
      by rewrite <- app_assoc.
    + repeat constructor; done.
  - exists [EvGetVectorStore;
            EvSearch (Py.strip (message request))
              (rag_top_k_results (settings w)) (req_document_id request);
            EvLog LError]. split.
    + unfold process_chat_message. unfold_m.
      destruct (decide _) as [|]; [done|]. cbn. rewrite Hvs. cbn.
      rewrite Hsearch. cbn. by rewrite <- !app_assoc.
    + repeat constructor; done.
Qed.

(** X2. When the message is not empty and obtaining the vector store or
    the search itself raises, the reply is the error response carrying
    the text of that exception; the document store is left as it was
    and no completion is requested. *)
Theorem retrieval_failure_reply (w : World) (request : ChatRequest)
    (st : State) (e : exn) :
  Py.strip (message request) <> "" ->
  (get_vector_store w = Raise e
   \/ exists vector_store,
        get_vector_store w = Ok vector_store
        /\ search_similar_chunks vector_store (Py.strip (message request))
             (rag_top_k_results (settings w)) (req_document_id request)
           = Raise e) ->
  exists st',
    process_chat_message w request st = (Ok (processing_error_response e), st')
    /\ document_store st' = document_store st
    /\ none_of is_llm_call (added st st').
Proof.
  intros Hq [Hvs|(vector_store & Hvs & Hsearch)].
  - exists (mkState (document_store st)
              (trace st ++ [EvGetVectorStore; EvLog LError])).
    split; [|split; [done|rewrite added_app; repeat constructor]].
    unfold process_chat_message. unfold_m.
    destruct (decide _) as [|]; [done|]. cbn. rewrite Hvs. cbn.
    by rewrite <- app_assoc.
  - exists (mkState (document_store st)
              (trace st
                 ++ [EvGetVectorStore;
                     EvSearch (Py.strip (message request))
                       (rag_top_k_results (settings w))
                       (req_document_id request);
                     EvLog LError])).
    split; [|split; [done|rewrite added_app; repeat constructor]].
    unfold process_chat_message. unfold_m.
    destruct (decide _) as [|]; [done|]. cbn. rewrite Hvs. cbn.
    rewrite Hsearch. cbn. by rewrite <- !app_assoc.
Qed.

(** X3. When the search found something and the completion fails (the
    call raises, or gives no first choice with content), the reply still
    carries the sources of every result and the count of the results;
    only its text is the apology. *)
Theorem failed_generation_keeps_sources (w : World) (request : ChatRequest)
    (vector_store : VectorStore) (search_results : list SearchResult)
    (st : State) :
  Py.strip (message request) <> "" ->
  get_vector_store w = Ok vector_store ->
  search_similar_chunks vector_store (Py.strip (message request))
    (rag_top_k_results (settings w)) (req_document_id request)
    = Ok search_results ->
  search_results <> [] ->
  generation_fails
    (chat_completions_create w (openai_model (settings w))
       [("system", system_message);
        ("user",
          prompt_of (Py.strip (message request))
            (_prepare_context_from_search_results search_results))])
    = true ->
  exists st',
    process_chat_message w request st
      = (Ok (rag_response request generation_apology search_results), st')
    /\ sources (rag_response request generation_apology search_results)
       = map source_of search_results.
Proof.
  intros Hq Hvs Hsearch Hne Hfail.
  destruct (results_found_run w request vector_store search_results st
              Hq Hvs Hsearch Hne) as (text & logs & Hrun & _ & _ & _ & Htext).
  destruct (chat_completions_create _ _ _) as [[|[content|] choices]|e];
    [| done | |]; subst text;
    (eexists; split; [exact Hrun|apply prepare_sources_map]).
Qed.

(** The calls of a request whose message is not empty: no completion
    call at all, or the vector store, the search and the completion call
    in this order, followed by log entries. *)
Lemma nonempty_message_calls (w : World) (request : ChatRequest) (st : State) :
  Py.strip (message request) <> "" ->
  exists evs,
    snd (process_chat_message w request st)
      = mkState (document_store st) (trace st ++ evs)
    /\ (none_of is_llm_call evs
        \/ exists query top_k doc completion logs,
             evs = [EvGetVectorStore; EvSearch query top_k doc; completion]
                   ++ logs
             /\ none_of is_llm_call logs).
Proof.
  intros Hq.
  destruct (get_vector_store w) as [vector_store|e] eqn:Hvs.
  2:{ exists [EvGetVectorStore; EvLog LError]. split.
      - unfold process_chat_message. unfold_m.
        destruct (decide _) as [|]; [done|]. cbn. rewrite Hvs. cbn.
        by rewrite <- app_assoc.
      - left. repeat constructor. }
  destruct (search_similar_chunks vector_store (Py.strip (message request))
              (rag_top_k_results (settings w)) (req_document_id request))
    as [search_results|e] eqn:Hsearch.
  2:{ eexists. split.
      - unfold process_chat_message. unfold_m.
        destruct (decide _) as [|]; [done|]. cbn. rewrite Hvs. cbn.
        rewrite Hsearch. cbn. rewrite <- !app_assoc. reflexivity.
      - left. repeat constructor. }
  destruct search_results as [|r rs].
  - eexists. split.
    + unfold process_chat_message. unfold_m.
      destruct (decide _) as [|]; [done|]. cbn. rewrite Hvs. cbn.
      rewrite Hsearch. cbn. rewrite <- !app_assoc. reflexivity.
    + left. repeat constructor.
  - destruct (results_found_run w request vector_store (r :: rs) st
                Hq Hvs Hsearch ltac:(done))
      as (text & logs & Hrun & Hllm & _).
    eexists. split; [by rewrite Hrun|].
    right. eexists _, _, _, _, logs. split; [reflexivity|done].
Qed.

(** In such a sequence of calls a search comes before any completion
    call. *)
Lemma search_comes_first (evs : list event) :
  (none_of is_llm_call evs
   \/ exists query top_k doc completion logs,
        evs = [EvGetVectorStore; EvSearch query top_k doc; completion] ++ logs
        /\ none_of is_llm_call logs) ->
  forall before ev later,
    evs = before ++ ev :: later ->
    is_llm_call ev = true ->
    count_of is_search_call before = 1%nat.
Proof.
  intros [Hnone|(query & top_k & doc & completion & logs & -> & Hlogs)]
    before ev later Heq Hev.
  - rewrite Heq in Hnone. apply Forall_app in Hnone as [_ Hnone].
    apply Forall_cons in Hnone as [Hnone _]. congruence.
  - destruct before as [|b1 [|b2 [|b3 before]]]; cbn in Heq.
    + injection Heq as <- _. discriminate.
    + injection Heq as _ <- _. discriminate.
    + by injection Heq as <- <- _ _.
    + injection Heq as _ _ _ ->.
      apply Forall_app in Hlogs as [_ Hlogs].
      apply Forall_cons in Hlogs as [Hlogs _]. congruence.
Qed.

(** X4. Whatever the collaborators do, a chat request leaves the
    document store as it was, makes no call of the ingestion path (no
    file write, PDF read, split or index write), at most one search, and
    a completion call only after a search: wherever a completion call
    stands among the calls of the request, the search is among the calls
    before it. *)
Theorem chat_effects_bounded (w : World) (request : ChatRequest) (st : State) :
  let st' := snd (process_chat_message w request st) in
  trace st' = trace st ++ added st st'
  /\ document_store st' = document_store st
  /\ none_of is_ingestion_event (added st st')
  /\ (count_of is_llm_call (added st st')
      <= count_of is_search_call (added st st') <= 1)%nat
  /\ (forall before ev later,
        added st st' = before ++ ev :: later ->
        is_llm_call ev = true ->
        count_of is_search_call before = 1%nat).
Proof.
  destruct (decide (Py.strip (message request) = "")) as [Hq|Hq].
  - assert (process_chat_message w request st
            = (Ok empty_message_response, st)) as ->.
    { unfold process_chat_message, try_except.
      destruct (decide _) as [|]; [reflexivity|done]. }
    cbn. unfold added. rewrite drop_all, app_nil_r.
    split; [done|]. split; [done|]. split; [constructor|].
    split; [cbn; lia|]. intros [|b before] ev later Heq; discriminate.
  - destruct (nonempty_message_calls w request st Hq)
      as (evs' & Hcalls & Hshape).
    destruct (nonempty_message_reply w request st Hq)
      as (resp & evs & Hrun & _ & Hing & Hcount).
    rewrite Hrun in Hcalls. cbn [snd] in Hcalls.
    injection Hcalls as Hevs. apply app_inv_head in Hevs. subst evs'.
    rewrite Hrun. cbn [snd]. rewrite added_app.
    split; [done|]. split; [done|]. split; [done|]. split; [done|].
    by apply search_comes_first.
Qed.

Lemma context_loop_view rs1 rs2 i parts :
  map context_view rs1 = map context_view rs2 ->
  context_loop i rs1 parts = context_loop i rs2 parts.
Proof.
  revert rs2 i parts.
  induction rs1 as [|r1 rs1 IH]; intros [|r2 rs2] i parts Hv; try done.
  cbn in Hv. injection Hv as Hname Hcontent Hrest.
  cbn [context_loop]. rewrite Hname, Hcontent. by apply IH.
Qed.

(** X5. The context is a function of the first three results alone, and
    of these only of the file name and the content: two result
    sequences that agree there give the same context, whatever their
    scores, their other metadata and their later results. *)
Theorem context_reads_first_three (rs1 rs2 : list SearchResult) :
  map context_view (take 3 rs1) = map context_view (take 3 rs2) ->
  _prepare_context_from_search_results rs1
    = _prepare_context_from_search_results rs2.
Proof.
  intros Hv. unfold _prepare_context_from_search_results.
  destruct rs1 as [|r1 rs1], rs2 as [|r2 rs2]; try done.
  by rewrite (context_loop_view _ _ _ _ Hv).
Qed.

Lemma source_content_bound r :
  (String.length (src_content (source_of r)) <= 203)%nat
  /\ (String.length (src_content (source_of r))
      <= String.length (result_content r) + 3)%nat.
Proof.
  unfold source_of; cbn. unfold Py.len.
  destruct (Z.ltb_spec 200 (Z.of_nat (String.length (result_content r))));
    [|lia].
  rewrite slice_to_substring by lia.
  rewrite length_app_str, length_substring. cbn. lia.
Qed.

(** X6. No entry of the sources list has a content of more than 203
    characters, and none is more than three characters longer than the
    content of its result. *)
Theorem sources_content_bounded (search_results : list SearchResult) :
  Forall (fun s => (String.length (src_content s) <= 203)%nat)
    (_prepare_sources search_results)
  /\ Forall2 (fun r s =>
                (String.length (src_content s)
                 <= String.length (result_content r) + 3)%nat)
       search_results (_prepare_sources search_results).
Proof.
  rewrite prepare_sources_map. split.
  - induction search_results as [|r rs IH]; constructor; [|done].
    apply source_content_bound.
  - induction search_results as [|r rs IH]; constructor; [|done].
    apply source_content_bound.
Qed.

Lemma nonempty_reply_differs (request : ChatRequest) (resp : ChatResponse) :
  resp = no_information_response
  \/ (exists e, resp = processing_error_response e)
  \/ (exists text search_results,
        search_results <> []
        /\ resp = rag_response request text search_results) ->
  resp <> empty_message_response.
Proof.
  intros [->|[[e ->]|(text & rs & _ & ->)]]; discriminate.
Qed.

(** X7. The chat endpoint answers a message that is empty or all white
    space with status 400, without running the chatbot: the state is
    left as it was.  Every other message gets the chatbot's response,
    never a status 500, and that response is never the chatbot's own
    reply to an empty message. *)
Theorem chat_endpoint_outcome (w : World) (request : ChatRequest) (st : State) :
  (Py.strip (message request) = ""
   /\ Api.chat w request st = (HTTPException 400 "Message cannot be empty", st))
  \/ (Py.strip (message request) <> ""
      /\ exists resp st',
           Api.chat w request st = (Respond resp, st')
           /\ fst (process_chat_message w request st) = Ok resp
           /\ resp <> empty_message_response
           /\ document_store st' = document_store st).
Proof.
  unfold Api.chat.
  destruct (decide (Py.strip (message request) = "")) as [Hq|Hq];
    [by left|right].
  split; [done|].
  destruct (nonempty_message_reply w request st Hq)
    as (resp & evs & -> & Hshape & _).
  exists resp. eexists. split; [reflexivity|].
  split; [done|]. split; [|done].
  by apply (nonempty_reply_differs request).
Qed.

(** ** Further properties of the ingestion path *)

Lemma to_list_rev_app s acc :
  to_list (String.rev_app s acc) = rev (to_list s) ++ to_list acc.
Proof.
  revert acc. induction s as [|c s IH]; intros acc; simpl; [done|].
  rewrite IH. simpl. by rewrite <- app_assoc.
Qed.

Lemma to_list_rev s : to_list (String.rev s) = rev (to_list s).
Proof. unfold String.rev. rewrite to_list_rev_app. simpl. apply app_nil_r. Qed.

Lemma rev_rev_str s : String.rev (String.rev s) = s.
Proof. apply to_list_inj. by rewrite !to_list_rev, rev_involutive. Qed.

Lemma rev_snoc_str s c : String.rev (s +:+ String c "") = String c (String.rev s).
Proof. unfold String.rev. by rewrite rev_app_app. Qed.

Lemma rev_cons_str s c : String.rev (String c s) = String.rev s +:+ String c "".
Proof.
  apply to_list_inj. rewrite to_list_app, !to_list_rev. reflexivity.
Qed.

Lemma lstrip_lstrip s : Py.lstrip (Py.lstrip s) = Py.lstrip s.
Proof.
  induction s as [|c s IH]; simpl; [done|].
  destruct (Py.isspace c) eqn:Hc; [done|]. simpl. by rewrite Hc.
Qed.

Lemma rstrip_rstrip s : Py.rstrip (Py.rstrip s) = Py.rstrip s.
Proof. unfold Py.rstrip. by rewrite rev_rev_str, lstrip_lstrip. Qed.

Lemma lstrip_snoc s c :
  Py.isspace c = false ->
  Py.lstrip (s +:+ String c "") = Py.lstrip s +:+ String c "".
Proof.
  intros Hc. induction s as [|d s IH]; simpl; [by rewrite Hc|].
  destruct (Py.isspace d); [done|reflexivity].
Qed.

Lemma rstrip_cons s c :
  Py.isspace c = false -> Py.rstrip (String c s) = String c (Py.rstrip s).
Proof.
  intros Hc. unfold Py.rstrip.
  by rewrite rev_cons_str, lstrip_snoc, rev_snoc_str.
Qed.

Lemma lstrip_head s : Py.lstrip s = "" \/ exists c t,
  Py.lstrip s = String c t /\ Py.isspace c = false.
Proof.
  induction s as [|c s IH]; simpl; [by left|].
  destruct (Py.isspace c) eqn:Hc; [done|]. right. by exists c, s.
Qed.

(** The result of [strip] has no white space at either end. *)
Lemma strip_trimmed s :
  Py.lstrip (Py.strip s) = Py.strip s /\ Py.rstrip (Py.strip s) = Py.strip s.
Proof.
  unfold Py.strip. split; [|apply rstrip_rstrip].
  destruct (lstrip_head s) as [->|(c & t & -> & Hc)]; [done|].
  rewrite rstrip_cons by done. simpl. by rewrite Hc.
Qed.

Lemma strip_strip s : Py.strip (Py.strip s) = Py.strip s.
Proof.
  destruct (strip_trimmed s) as [Hl Hr].
  unfold Py.strip at 1. by rewrite Hl, Hr.
Qed.

Lemma after_after st evs1 evs2 :
  after (after st evs1) evs2 = after st (evs1 ++ evs2).
Proof. unfold after. cbn. by rewrite app_assoc. Qed.

Lemma chunk_text_run (w : World) (text : string) (st : State) :
  exists evs,
    chunk_text w text st = (chunked w text, after st evs)
    /\ none_of is_store_call evs.
Proof.
  unfold chunk_text, chunked, after. unfold_m. cbn.
  destruct (split_text w text) as [chunks|e]; cbn.
  - exists [EvSplitText text; EvLog LInfo].
    rewrite <- app_assoc. split; [reflexivity|repeat constructor].
  - exists [EvSplitText text; EvLog LError].
    rewrite <- app_assoc. split; [reflexivity|repeat constructor].
Qed.

Lemma process_run (w : World) (file_path : string) (st : State) :
  exists evs,
    process w file_path st = (processed w file_path, after st evs)
    /\ none_of is_store_call evs.
Proof.
  unfold process, processed, extracted, try_except, bind.
  rewrite extract_text_run.
  destruct (pdf_pages w file_path) as [pages|e].
  2:{ exists [EvReadPdf file_path; EvLog LError; EvLog LError].
      unfold_m. unfold after. cbn. rewrite <- app_assoc.
      split; [reflexivity|repeat constructor]. }
  destruct (concat_pages "" pages) as [text|e].
  2:{ exists [EvReadPdf file_path; EvLog LError; EvLog LError].
      unfold_m. unfold after. cbn. rewrite <- app_assoc.
      split; [reflexivity|repeat constructor]. }
  match goal with
  | |- context [chunk_text w ?t ?s] =>
      destruct (chunk_text_run w t s) as (evs & -> & Hevs)
  end.
  destruct (chunked w (Py.strip text)) as [chunks|e].
  - exists ([EvReadPdf file_path] ++ evs ++ [EvLog LInfo]).
    unfold_m. unfold after. cbn. rewrite <- !app_assoc.
    split; [reflexivity|].
    constructor; [done|]. apply none_of_app; [done|repeat constructor].
  - exists ([EvReadPdf file_path] ++ evs ++ [EvLog LError]).
    unfold_m. unfold after. cbn. rewrite <- !app_assoc.
    split; [reflexivity|].
    constructor; [done|]. apply none_of_app; [done|repeat constructor].
Qed.

Lemma process_document_run (w : World) (file_content : list Byte.byte)
    (filename : string) (st : State) :
  exists evs,
    process_document w file_content filename st
      = (ingested w file_content filename, after st evs)
    /\ none_of is_store_call evs.
Proof.
  unfold process_document, ingested, save_file. unfold_m.
  fold (saved_path w filename). cbn.
  destruct (write_file w (saved_path w filename) file_content) as [[]|e].
  2:{ exists [EvWriteFile (saved_path w filename) file_content; EvLog LError].
      unfold after. cbn. rewrite <- app_assoc.
      split; [reflexivity|repeat constructor]. }
  destruct (get_file_type filename) as [file_type|e].
  2:{ exists [EvWriteFile (saved_path w filename) file_content; EvLog LError].
      unfold after. cbn. rewrite <- app_assoc.
      split; [reflexivity|repeat constructor]. }
  match goal with
  | |- context [process w ?p ?s] =>
      destruct (process_run w p s) as (evs & -> & Hevs)
  end.
  destruct (processed w (saved_path w filename)) as [metadata|e].
  - exists ([EvWriteFile (saved_path w filename) file_content]
              ++ evs ++ [EvLog LInfo]).
    unfold after. cbn. rewrite <- !app_assoc.
    split; [reflexivity|].
    constructor; [done|]. apply none_of_app; [done|repeat constructor].
  - exists ([EvWriteFile (saved_path w filename) file_content]
              ++ evs ++ [EvLog LError]).
    unfold after. cbn. rewrite <- !app_assoc.
    split; [reflexivity|].
    constructor; [done|]. apply none_of_app; [done|repeat constructor].
Qed.

Lemma ingested_fields (w : World) (file_content : list Byte.byte)
    (filename : string) (md : DocMetadata) :
  ingested w file_content filename = Ok md ->
  doc_document_id md = uuid4 w
  /\ doc_filename md = filename
  /\ doc_file_path md = saved_path w filename
  /\ Py.lower (Path.suffix filename) = ".pdf"
  /\ write_file w (saved_path w filename) file_content = Ok tt
  /\ well_formed_document md
  /\ chunked w (doc_full_text md) = Ok (doc_chunks md)
  /\ extracted w (saved_path w filename) = Ok (doc_full_text md).
Proof.
  unfold ingested, processed.
  destruct (write_file w (saved_path w filename) file_content) as [[]|e];
    [|done].
  unfold get_file_type.
  destruct (decide (Py.lower (Path.suffix filename) = ".pdf")) as [Hext|];
    [|done].
  destruct (extracted w (saved_path w filename)) as [text|e] eqn:Hex; [|done].
  destruct (chunked w text) as [chunks|e] eqn:Hch; [|done].
  intros [= <-]. cbn. repeat split; try done.
  unfold extracted in Hex.
  destruct (pdf_pages w (saved_path w filename)) as [pages|]; [|done].
  destruct (concat_pages "" pages) as [t|]; [|done].
  injection Hex as <-. apply strip_strip.
Qed.

(** How [upload_document] runs, from what ingestion returns. *)
Lemma upload_document_run (w : World) (file_content : list Byte.byte)
    (filename : string) (st : State) :
  exists evs,
    none_of is_store_call evs
    /\ upload_document w file_content filename st
       = match ingested w file_content filename with
         | Raise e =>
             (Ok (upload_error_response filename e),
              after st (evs ++ [EvLog LError]))
         | Ok md =>
             match doc_chunks md with
             | [] =>
                 (Ok (upload_response file_content filename md),
                  registered st md (evs ++ [EvLog LWarning]))
             | _ :: _ =>
                 match get_vector_store w with
                 | Raise e =>
                     (Ok (upload_error_response filename e),
                      registered st md
                        (evs ++ [EvLog LInfo; EvGetVectorStore; EvLog LError]))
                 | Ok vector_store =>
                     match add_document_chunks vector_store
                             (doc_document_id md) (doc_chunks md)
                             (index_metadata md) with
                     | Ok _ =>
                         (Ok (upload_response file_content filename md),
                          registered st md
                            (evs ++ [EvLog LInfo; EvGetVectorStore;
                                     EvAddChunks (doc_document_id md)
                                       (doc_chunks md) (index_metadata md);
                                     EvLog LInfo]))
                     | Raise e =>
                         (Ok (upload_error_response filename e),
                          registered st md
                            (evs ++ [EvLog LInfo; EvGetVectorStore;
                                     EvAddChunks (doc_document_id md)
                                       (doc_chunks md) (index_metadata md);
                                     EvLog LError]))
                     end
                 end
             end
         end.
Proof.
  destruct (process_document_run w file_content filename st)
    as (evs & Hrun & Hevs).
  exists evs. split; [done|].
  unfold upload_document, try_except, bind at 1. rewrite Hrun.
  destruct (ingested w file_content filename) as [md|e].
  2:{ unfold_m. unfold after. cbn. by rewrite <- app_assoc. }
  unfold index_metadata.
  destruct (doc_chunks md) as [|c cs].
  { unfold_m. unfold after, registered. cbn. by rewrite <- app_assoc. }
  unfold_m. unfold after, registered. cbn.
  destruct (get_vector_store w) as [vector_store|e]; cbn.
  2:{ by rewrite <- !app_assoc. }
  destruct (add_document_chunks _ _ _ _) as [[]|e]; cbn;
    by rewrite <- !app_assoc.
Qed.

Lemma process_document_ok (w : World) (file_content : list Byte.byte)
    (filename : string) (st st1 : State) (md : DocMetadata) :
  process_document w file_content filename st = (Ok md, st1) ->
  ingested w file_content filename = Ok md
  /\ document_store st1 = document_store st
  /\ none_of is_store_call (added st st1).
Proof.
  destruct (process_document_run w file_content filename st)
    as (evs & -> & Hevs).
  intros [= -> <-]. unfold after. by rewrite added_app.
Qed.

Lemma store_call_free evs :
  none_of is_store_call evs -> none_of is_index_write evs.
Proof.
  unfold none_of. intros H. eapply Forall_impl; [exact H|]. by intros [].
Qed.

Lemma filter_none p evs : none_of p evs -> List.filter p evs = [].
Proof.
  induction 1 as [|ev evs Hev _ IH]; cbn; [done|]. by rewrite Hev.
Qed.

Lemma upload_document_cases (w : World) (file_content : list Byte.byte)
    (filename : string) (st : State) :
  exists resp st',
    upload_document w file_content filename st = (Ok resp, st')
    /\ (forall k, k <> uuid4 w ->
          document_store st' !! k = document_store st !! k)
    /\ ((exists md,
           resp = upload_response file_content filename md
           /\ up_document_id resp = uuid4 w
           /\ up_document_type resp = "pdf"
           /\ document_store st' !! uuid4 w = Some md)
        \/ (exists e, resp = upload_error_response filename e)).
Proof.
  destruct (upload_document_run w file_content filename st)
    as (evs & _ & ->).
  destruct (ingested w file_content filename) as [md|e] eqn:Hing.
  2:{ eexists. eexists. split; [reflexivity|]. split; [done|].
      right. by exists e. }
  destruct (ingested_fields _ _ _ _ Hing)
    as (Hid & _ & _ & _ & _ & (_ & Htype & _) & _).
  assert (forall evs' k, k <> uuid4 w ->
            document_store (registered st md evs') !! k
            = document_store st !! k) as Hother.
  { intros evs' k Hk. cbn. rewrite Hid. by apply lookup_insert_ne. }
  assert (forall evs',
            document_store (registered st md evs') !! uuid4 w = Some md)
    as Hthis.
  { intros evs'. cbn. rewrite Hid. apply lookup_insert_eq. }
  destruct (doc_chunks md) as [|c cs].
  { eexists. eexists. split; [reflexivity|]. split; [apply Hother|].
    left. exists md. by rewrite <- Hid at 1. }
  destruct (get_vector_store w) as [vector_store|e].
  2:{ eexists. eexists. split; [reflexivity|]. split; [apply Hother|].
      right. by exists e. }
  destruct (add_document_chunks _ _ _ _) as [[]|e].
  - eexists. eexists. split; [reflexivity|]. split; [apply Hother|].
    left. exists md. by rewrite <- Hid at 1.
  - eexists. eexists. split; [reflexivity|]. split; [apply Hother|].
    right. by exists e.
Qed.

(** Chunking the empty text gives no chunk when the splitter returns
    none, and when the splitter raises and the stride is not zero. *)
Lemma chunked_empty (w : World) :
  split_text w "" = Ok []
  \/ (raises (split_text w "") = true
      /\ max_chunk_size (settings w) <> chunk_overlap (settings w)) ->
  chunked w "" = Ok [].
Proof.
  unfold chunked. intros [->|[Hr Hne]]; [done|].
  destruct (split_text w "") as [chunks|e]; [done|].
  unfold fallback_chunks, Py.range.
  destruct (Z.eqb_spec (max_chunk_size (settings w)
                        - chunk_overlap (settings w)) 0) as [|_]; [lia|].
  by destruct (0 <? _).
Qed.

Lemma extracted_textless (w : World) (file_path : string) :
  no_extractable_text (pdf_pages w file_path) ->
  extracted w file_path = Ok "".
Proof.
  intros (pages & Hpages & Hall). unfold extracted. rewrite Hpages.
  destruct (concat_pages_textless "" pages Hall) as (text & -> & Hsp).
  change ("" +:+ text) with text. by rewrite strip_all_space.
Qed.

(** The upload of a PDF without a text layer, when chunking the empty
    text gives no chunk: the document is registered without chunks and
    the upload is answered as processed. *)
Lemma textless_upload_processed (w : World) (file_content : list Byte.byte)
    (filename : string) (st : State) :
  Py.lower (Path.suffix filename) = ".pdf" ->
  write_file w (saved_path w filename) file_content = Ok tt ->
  no_extractable_text (pdf_pages w (saved_path w filename)) ->
  (split_text w "" = Ok []
   \/ (raises (split_text w "") = true
       /\ max_chunk_size (settings w) <> chunk_overlap (settings w))) ->
  exists md st',
    upload_document w file_content filename st
      = (Ok (upload_response file_content filename md), st')
    /\ up_status (upload_response file_content filename md) = "processed"
    /\ doc_full_text md = ""
    /\ doc_chunks md = []
    /\ doc_total_chunks md = 0
    /\ doc_status md = "processed"
    /\ document_store st' !! uuid4 w = Some md
    /\ none_of is_store_call (added st st').
Proof.
  intros Hext Hwrite Hno Hsplit.
  destruct (upload_document_run w file_content filename st)
    as (evs & Hevs & ->).
  unfold ingested, processed.
  rewrite Hwrite, (get_file_type_pdf filename Hext),
    (extracted_textless _ _ Hno), (chunked_empty w Hsplit).
  cbn [pdf_chunks pdf_full_text pdf_total_chunks doc_chunks].
  eexists. eexists. split; [reflexivity|].
  split; [done|]. split; [done|]. split; [done|]. split; [done|].
  split; [done|]. split; [apply lookup_insert_eq|].
  unfold registered. rewrite added_app.
  apply none_of_app; [done|repeat constructor].
Qed.

(** C4 (amended). [extract_text] returns the page texts joined in page
    order by line feeds, with the white space at both ends of the whole
    removed.  It raises exactly when building the reader raises or the
    extraction of a page raises, and then the exception is the one that
    was raised; the upload of a saved [.pdf] file whose reading raises
    is answered with status [error] and not registered.  A readable PDF
    whose pages hold no text gives the empty string, not an error; when
    chunking the empty text gives no chunk (the splitter returns none,
    or it raises and the chunk size differs from the overlap), the
    upload of such a file is registered without chunks and answered as
    processed, with no call to the vector store. *)
Theorem extract_text_outcome (w : World) (file_path : string) (st : State) :
  let st_read :=
    mkState (document_store st) (trace st ++ [EvReadPdf file_path]) in
  let st_fail :=
    mkState (document_store st)
      (trace st ++ [EvReadPdf file_path; EvLog LError]) in
  (forall texts,
     pdf_pages w file_path = Ok (map Ok texts) ->
     extract_text w file_path st
       = (Ok (Py.strip (Py.join Py.nl texts)), st_read))
  /\ (forall e,
        pdf_pages w file_path = Raise e ->
        extract_text w file_path st = (Raise e, st_fail))
  /\ (forall texts e rest,
        pdf_pages w file_path = Ok (map Ok texts ++ Raise e :: rest) ->
        extract_text w file_path st = (Raise e, st_fail))
  /\ raises (fst (extract_text w file_path st))
       = reading_raises (pdf_pages w file_path)
  /\ (no_extractable_text (pdf_pages w file_path) ->
      extract_text w file_path st = (Ok "", st_read))
  /\ (forall file_content filename st0,
        Py.lower (Path.suffix filename) = ".pdf" ->
        write_file w (saved_path w filename) file_content = Ok tt ->
        reading_raises (pdf_pages w (saved_path w filename)) = true ->
        exists e st',
          upload_document w file_content filename st0
            = (Ok (upload_error_response filename e), st')
          /\ up_status (upload_error_response filename e) = "error"
          /\ document_store st' = document_store st0)
  /\ (forall file_content filename st0,
        Py.lower (Path.suffix filename) = ".pdf" ->
        write_file w (saved_path w filename) file_content = Ok tt ->
        no_extractable_text (pdf_pages w (saved_path w filename)) ->
        (split_text w "" = Ok []
         \/ (raises (split_text w "") = true
             /\ max_chunk_size (settings w) <> chunk_overlap (settings w))) ->
        exists md st',
          upload_document w file_content filename st0
            = (Ok (upload_response file_content filename md), st')
          /\ up_status (upload_response file_content filename md)
             = "processed"
          /\ doc_full_text md = ""
          /\ doc_chunks md = []
          /\ doc_total_chunks md = 0
          /\ doc_status md = "processed"
          /\ document_store st' !! uuid4 w = Some md
          /\ none_of is_store_call (added st0 st')).
Proof.
  intros st_read st_fail. rewrite extract_text_run.
  split; [|split; [|split; [|split; [|split; [|split]]]]].
  - intros texts ->. rewrite concat_pages_texts.
    change ("" +:+ lines texts) with (lines texts).
    by rewrite strip_lines.
  - by intros e ->.
  - intros texts e rest ->. by rewrite concat_pages_raise.
  - destruct (pdf_pages w file_path) as [pages|e]; cbn; [|done].
    rewrite <- (concat_pages_raises "" pages).
    by destruct (concat_pages "" pages).
  - intros (pages & -> & Hpages).
    destruct (concat_pages_textless "" pages Hpages) as (text & -> & Hsp).
    change ("" +:+ text) with text. by rewrite strip_all_space.
  - intros file_content filename st0 Hext Hwrite Hread.
    destruct (reading_failure_upload_error w file_content filename st0
                Hext Hwrite Hread) as (e & st' & Hrun & Hstore).
    exists e, st'. done.
  - intros file_content filename st0.
    apply textless_upload_processed.
Qed.

(** C4 (amended) at a document of two pages with blanks around their
    texts: the texts are joined by a line feed and the blanks at both
    ends of the whole are removed, the blank before the line feed
    stays. *)
Lemma extract_text_outcome_witness :
  extract_text two_page_world "/srv/uploads/3f2b6c1e.pdf" empty_state
    = (Ok "Revenue 
grew 12%.", mkState ∅ [EvReadPdf "/srv/uploads/3f2b6c1e.pdf"]).
Proof.
  exact (proj1 (extract_text_outcome two_page_world
                  "/srv/uploads/3f2b6c1e.pdf" empty_state)
           [" Revenue "; "grew 12%. "] eq_refl).
Defined.

(** X8. [upload_document] never raises.  It returns either the response
    of a processed document, which carries the fresh identifier and type
    [pdf] and whose metadata is then in the document store under that
    identifier, or the error response with an empty identifier.  No
    entry of the store under another identifier is touched. *)
Theorem upload_document_outcome (w : World) (file_content : list Byte.byte)
    (filename : string) (st : State) :
  exists resp st',
    upload_document w file_content filename st = (Ok resp, st')
    /\ (forall k, k <> uuid4 w ->
          document_store st' !! k = document_store st !! k)
    /\ ((exists md,
           resp = upload_response file_content filename md
           /\ up_document_id resp = uuid4 w
           /\ up_document_type resp = "pdf"
           /\ document_store st' !! uuid4 w = Some md)
        \/ (exists e, resp = upload_error_response filename e)).
Proof. apply upload_document_cases. Qed.

(** X9. A document processed without any chunk is still registered and
    reported as processed, with a chunk count of 0; not one call goes to
    the vector store. *)
Theorem zero_chunk_document_registered (w : World)
    (file_content : list Byte.byte) (filename : string) (st st1 : State)
    (md : DocMetadata) :
  process_document w file_content filename st = (Ok md, st1) ->
  doc_chunks md = [] ->
  exists st',
    upload_document w file_content filename st
      = (Ok (upload_response file_content filename md), st')
    /\ up_status (upload_response file_content filename md) = "processed"
    /\ dict_get (up_metadata (upload_response file_content filename md))
         "total_chunks" = Some (VInt 0)
    /\ document_store st' !! doc_document_id md = Some md
    /\ none_of is_store_call (added st st').
Proof.
  intros Hproc Hchunks.
  destruct (process_document_ok _ _ _ _ _ _ Hproc) as (Hing & _ & _).
  destruct (ingested_fields _ _ _ _ Hing)
    as (_ & _ & _ & _ & _ & (_ & _ & Hcount & _) & _).
  destruct (upload_document_run w file_content filename st)
    as (evs & Hevs & ->).
  rewrite Hing, Hchunks. eexists. split; [reflexivity|].
  split; [done|]. split.
  { cbn. rewrite Hcount, Hchunks. reflexivity. }
  split; [apply lookup_insert_eq|].
  unfold registered. rewrite added_app.
  apply none_of_app; [done|repeat constructor].
Qed.

(** X10. When a document was processed with chunks and the write to the
    index returns, the upload made exactly one index write: all the
    chunks, in order, under the document's identifier, with the file
    name, type [pdf] and the number of chunks; the response reports that
    same number, and the document is registered. *)
Theorem upload_writes_every_chunk (w : World) (file_content : list Byte.byte)
    (filename : string) (st st1 : State) (md : DocMetadata)
    (vector_store : VectorStore) :
  process_document w file_content filename st = (Ok md, st1) ->
  doc_chunks md <> [] ->
  get_vector_store w = Ok vector_store ->
  add_document_chunks vector_store (doc_document_id md) (doc_chunks md)
    (index_metadata md) = Ok tt ->
  exists st',
    upload_document w file_content filename st
      = (Ok (upload_response file_content filename md), st')
    /\ List.filter is_index_write (added st st')
       = [EvAddChunks (uuid4 w) (doc_chunks md)
            [("filename", VStr filename);
             ("file_type", VStr "pdf");
             ("total_chunks", VInt (Z.of_nat (length (doc_chunks md))))]]
    /\ dict_get (up_metadata (upload_response file_content filename md))
         "total_chunks" = Some (VInt (Z.of_nat (length (doc_chunks md))))
    /\ document_store st' !! uuid4 w = Some md.
Proof.
  intros Hproc Hchunks Hvs Hadd.
  destruct (process_document_ok _ _ _ _ _ _ Hproc) as (Hing & _ & _).
  destruct (ingested_fields _ _ _ _ Hing)
    as (Hid & Hname & _ & _ & _ & (_ & Htype & Hcount & _) & _).
  destruct (upload_document_run w file_content filename st)
    as (evs & Hevs & ->).
  rewrite Hing. destruct (doc_chunks md) as [|c cs] eqn:Hcs; [done|].
  rewrite Hvs, Hadd. eexists. split; [reflexivity|].
  split; [|split].
  - unfold registered. rewrite added_app, List.filter_app.
    rewrite (filter_none _ _ (store_call_free _ Hevs)). cbn.
    unfold index_metadata. by rewrite Hid, Hname, Htype, Hcount, ?Hcs.
  - cbn. by rewrite Hcount, ?Hcs.
  - cbn. rewrite Hid. apply lookup_insert_eq.
Qed.

(** X11. What [process_document] returns on success is well formed: the
    status is [processed], the type [pdf], the counts are those of the
    chunks and of the text, and the text has no white space at either
    end.  It carries the fresh identifier, the file name as given and
    the path the upload was saved to; the file name ends in [.pdf] in
    some letter case; the document store is left as it was and the
    vector store was not called. *)
Theorem processed_document_well_formed (w : World)
    (file_content : list Byte.byte) (filename : string) (st st1 : State)
    (md : DocMetadata) :
  process_document w file_content filename st = (Ok md, st1) ->
  well_formed_document md
  /\ doc_document_id md = uuid4 w
  /\ doc_filename md = filename
  /\ doc_file_path md = saved_path w filename
  /\ Py.lower (Path.suffix filename) = ".pdf"
  /\ document_store st1 = document_store st
  /\ none_of is_store_call (added st st1).
Proof.
  intros Hproc.
  destruct (process_document_ok _ _ _ _ _ _ Hproc) as (Hing & Hstore & Hevs).
  destruct (ingested_fields _ _ _ _ Hing)
    as (Hid & Hname & Hpath & Hext & _ & Hwf & _).
  done.
Qed.

Lemma chat_keeps_store (w : World) (request : ChatRequest) (st : State) :
  document_store (snd (process_chat_message w request st)) = document_store st.
Proof.
  destruct (decide (Py.strip (message request) = "")) as [Hq|Hq].
  - unfold process_chat_message, try_except.
    by destruct (decide _) as [|].
  - by destruct (nonempty_message_reply w request st Hq)
      as (resp & evs & -> & _).
Qed.

Lemma upload_keeps_registry (w : World) (file_content : list Byte.byte)
    (filename : string) (st : State) :
  registry_ok (document_store st) ->
  registry_ok
    (document_store (snd (upload_document w file_content filename st))).
Proof.
  intros Hok.
  destruct (upload_document_run w file_content filename st)
    as (evs & _ & ->).
  destruct (ingested w file_content filename) as [md|e] eqn:Hing; [|done].
  destruct (ingested_fields _ _ _ _ Hing)
    as (_ & _ & _ & _ & _ & Hwf & _).
  assert (forall evs',
            registry_ok (document_store (registered st md evs'))) as Hreg.
  { intros evs' k md' Hk. cbn in Hk.
    destruct (decide (doc_document_id md = k)) as [<-|Hne].
    - rewrite lookup_insert_eq in Hk. by injection Hk as <-.
    - rewrite lookup_insert_ne in Hk by done. by apply Hok. }
  destruct (doc_chunks md) as [|c cs]; [apply Hreg|].
  destruct (get_vector_store w) as [vector_store|e]; [|apply Hreg].
  destruct (add_document_chunks _ _ _ _) as [[]|e]; apply Hreg.
Qed.

Lemma serve_keeps_registry (requests : list request) (st : State) :
  registry_ok (document_store st) ->
  registry_ok (document_store (fold_left serve requests st)).
Proof.
  revert st. induction requests as [|r requests IH]; intros st Hok; [done|].
  cbn. apply IH. destruct r as [w file_content filename|w chat_request]; cbn.
  - by apply upload_keeps_registry.
  - by rewrite chat_keeps_store.
Qed.

(** X12. After any sequence of uploads and chat requests served by a
    fresh chatbot, in whatever worlds, every document of the store is
    filed under its own identifier, has status [processed] and type
    [pdf], and its counts are those of its chunks and its text: no
    document is ever stored with status [error]. *)
Theorem registry_invariant (requests : list request) :
  registry_ok (document_store (serve_all requests))
  /\ (forall k md,
        document_store (serve_all requests) !! k = Some md ->
        doc_status md <> "error").
Proof.
  assert (registry_ok (document_store (serve_all requests))) as Hok.
  { apply serve_keeps_registry. intros k md Hk. cbn in Hk.
    by rewrite lookup_empty in Hk. }
  split; [done|]. intros k md Hk.
  destruct (Hok k md Hk) as (_ & -> & _). discriminate.
Qed.

(** X13. [chunk_text] raises only when the splitter has raised and the
    chunk size equals the overlap, so that the stride of the fallback is
    zero; what it raises then is the [ValueError] of [range]. *)
Theorem chunk_text_raises_on_zero_stride (w : World) (text : string)
    (st : State) :
  (forall e' st',
     chunk_text w text st = (Raise e', st') ->
     e' = zero_step_error
     /\ raises (split_text w text) = true
     /\ max_chunk_size (settings w) = chunk_overlap (settings w))
  /\ (raises (split_text w text) = true ->
      max_chunk_size (settings w) = chunk_overlap (settings w) ->
      fst (chunk_text w text st) = Raise zero_step_error).
Proof.
  destruct (chunk_text_run w text st) as (evs & -> & _).
  unfold chunked, fallback_chunks, Py.range. split.
  - intros e' st'.
    destruct (split_text w text) as [chunks|e]; [done|].
    destruct (Z.eqb_spec (max_chunk_size (settings w)
                          - chunk_overlap (settings w)) 0) as [Heq|]; [|done].
    intros [= <- _]. split; [done|]. split; [done|lia].
  - intros Hsplit Heq.
    destruct (split_text w text) as [chunks|e]; [done|].
    rewrite Heq, Z.sub_diag. reflexivity.
Qed.

(** X14. With [0 <= O < C] the fallback makes as many chunks as the
    length of the text divided by [C - O], rounded up, and none of them
    is empty; an empty text gives no chunk. *)
Theorem fallback_chunk_count (C O : Z) (text : string) :
  0 <= O < C ->
  exists chunks,
    fallback_chunks C O text = Ok chunks
    /\ Z.of_nat (length chunks) = (Py.len text + (C - O) - 1) / (C - O)
    /\ Forall (fun c => c <> "") chunks
    /\ (text = "" -> chunks = []).
Proof.
  intros HCO. rewrite fallback_chunks_windows by done.
  eexists. split; [reflexivity|]. split; [|split].
  - rewrite length_map, length_seq. unfold window_count.
    destruct (Z.ltb_spec 0 (Py.len text)) as [Hn|Hn].
    + rewrite Z2Nat.id by (apply Z.add_nonneg_nonneg;
                            [apply Z.div_pos; lia|lia]).
      replace (Py.len text + (C - O) - 1)
        with ((Py.len text - 1) + 1 * (C - O)) by lia.
      rewrite Z.div_add by lia. lia.
    + assert (Py.len text = 0) as -> by (unfold Py.len in *; lia).
      cbn. rewrite Z.div_small by lia. done.
  - apply Forall_forall. intros c Hc.
    apply list_elem_of_fmap in Hc as (k & -> & Hk).
    apply elem_of_seq in Hk as [_ Hk]. cbn in Hk.
    apply window_count_spec in Hk; [|lia].
    intros Hempty. apply (f_equal String.length) in Hempty.
    rewrite length_substring in Hempty. unfold Py.len in Hk. cbn in Hempty.
    nia.
  - intros ->. reflexivity.
Qed.

(** X15. A text [extract_text] returns has no white space at its start
    or at its end, and stripping it again changes nothing. *)
Theorem extracted_text_trimmed (w : World) (file_path : string)
    (st st' : State) (text : string) :
  extract_text w file_path st = (Ok text, st') ->
  Py.lstrip text = text /\ Py.rstrip text = text /\ Py.strip text = text.
Proof.
  rewrite extract_text_run.
  destruct (pdf_pages w file_path) as [pages|e]; [|done].
  destruct (concat_pages "" pages) as [t|e]; [|done].
  intros [= <- _].
  destruct (strip_trimmed t). split; [done|]. split; [done|].
  apply strip_strip.
Qed.

(** ** Further properties of the read operations *)

Lemma get_document_info_local (b : Backend) (document_id : string)
    (st : State) (md : DocMetadata) :
  document_store st !! document_id = Some md ->
  get_document_info b document_id st
    = (Ok (Some [("document_id", VStr document_id);
                 ("filename", VStr (doc_filename md));
                 ("file_type", VStr (doc_file_type md));
                 ("total_chunks", VInt (doc_total_chunks md));
                 ("total_words", VInt (doc_total_words md));
                 ("status", VStr (doc_status md))]), st).
Proof.
  intros Hk. unfold get_document_info, read_store. unfold_m. cbn.
  by rewrite Hk.
Qed.

Lemma upload_processed (w : World) (file_content : list Byte.byte)
    (filename : string) (st st' : State) (resp : DocumentUploadResponse) :
  upload_document w file_content filename st = (Ok resp, st') ->
  up_status resp = "processed" ->
  exists md,
    ingested w file_content filename = Ok md
    /\ resp = upload_response file_content filename md
    /\ document_store st' !! doc_document_id md = Some md.
Proof.
  destruct (upload_document_run w file_content filename st)
    as (evs & _ & ->).
  destruct (ingested w file_content filename) as [md|e] eqn:Hing.
  2:{ by intros [= <- _]. }
  assert (forall evs',
            document_store (registered st md evs') !! doc_document_id md
            = Some md) as Hthis.
  { intros evs'. apply lookup_insert_eq. }
  destruct (doc_chunks md) as [|c cs].
  { intros [= <- <-] _. by exists md. }
  destruct (get_vector_store w) as [vector_store|e].
  2:{ by intros [= <- _]. }
  destruct (add_document_chunks _ _ _ _) as [[]|e].
  - intros [= <- <-] _. by exists md.
  - by intros [= <- _].
Qed.

(** X16. Round trip of the registry: after an upload that is answered
    as processed, [get_document_info] for the identifier of the response
    returns the document's file name as uploaded, type [pdf], status
    [processed] and the chunk and word counts of the response, without
    any call and without a change of state.  The information has no
    [total_characters] entry. *)
Theorem uploaded_document_info (b : Backend) (file_content : list Byte.byte)
    (filename : string) (st st' : State) (resp : DocumentUploadResponse) :
  upload_document (be_world b) file_content filename st = (Ok resp, st') ->
  up_status resp = "processed" ->
  exists info,
    get_document_info b (up_document_id resp) st' = (Ok (Some info), st')
    /\ dict_get info "document_id" = Some (VStr (up_document_id resp))
    /\ dict_get info "filename" = Some (VStr filename)
    /\ dict_get info "file_type" = Some (VStr "pdf")
    /\ dict_get info "status" = Some (VStr "processed")
    /\ dict_get info "total_chunks" = dict_get (up_metadata resp) "total_chunks"
    /\ dict_get info "total_words" = dict_get (up_metadata resp) "total_words"
    /\ dict_get info "total_characters" = None.
Proof.
  intros Hup Hstatus.
  destruct (upload_processed _ _ _ _ _ _ Hup Hstatus)
    as (md & Hing & -> & Hstore).
  destruct (ingested_fields _ _ _ _ Hing)
    as (_ & Hname & _ & _ & _ & (Hst & Htype & _) & _).
  eexists. split; [by apply get_document_info_local|].
  cbn. by rewrite Hname, Htype, Hst.
Qed.

(** X17. For a document of the local store the document endpoint
    returns its file name, type and status and its chunk and word
    counts, with the state unchanged; the [total_characters] it reports
    is 0 whatever the document's text. *)
Theorem document_endpoint_local (b : Backend) (document_id : string)
    (st : State) (md : DocMetadata) :
  document_store st !! document_id = Some md ->
  Api.get_document b document_id st
    = (Respond {| dv_document_id := document_id;
                  dv_filename := VStr (doc_filename md);
                  dv_file_type := VStr (doc_file_type md);
                  dv_status := VStr (doc_status md);
                  dv_metadata :=
                    [("total_chunks", VInt (doc_total_chunks md));
                     ("total_words", VInt (doc_total_words md));
                     ("total_characters", VInt 0)] |}, st).
Proof.
  intros Hk. unfold Api.get_document.
  by rewrite (get_document_info_local b document_id st md Hk).
Qed.

(** X18. For an identifier that is not in the local store the document
    endpoint never returns a document.  When the vector store holds
    chunks for it whose first chunk has metadata, the answer is status
    500 with detail ['status'], the key the fallback information lacks;
    in every other case, a vector store that cannot be reached
    included, the answer is 404.  The document store is not changed. *)
Theorem document_endpoint_fallback (b : Backend) (document_id : string)
    (st : State) :
  document_store st !! document_id = None ->
  exists code detail st',
    Api.get_document b document_id st = (HTTPException code detail, st')
    /\ document_store st' = document_store st
    /\ ((code = 500 /\ detail = "'status'"
         /\ exists vector_store first rest metadata,
              get_vector_store (be_world b) = Ok vector_store
              /\ vs_get_document_chunks b document_id = Ok (first :: rest)
              /\ sc_metadata first = Some metadata)
        \/ (code = 404 /\ detail = "Document not found"
            /\ (raises (get_vector_store (be_world b)) = true
                \/ raises (vs_get_document_chunks b document_id) = true
                \/ vs_get_document_chunks b document_id = Ok []
                \/ exists first rest,
                     vs_get_document_chunks b document_id = Ok (first :: rest)
                     /\ sc_metadata first = None))).
Proof.
  intros Hk. unfold Api.get_document, get_document_info, read_store.
  unfold_m. cbn. rewrite Hk. cbn.
  destruct (get_vector_store (be_world b)) as [vector_store|e]; cbn.
  2:{ do 3 eexists. split; [reflexivity|]. split; [done|].
      right. split; [done|]. split; [done|]. by left. }
  destruct (vs_get_document_chunks b document_id) as [[|first rest]|e]; cbn.
  - do 3 eexists. split; [reflexivity|]. split; [done|].
    right. split; [done|]. split; [done|]. right. right. by left.
  - destruct (sc_metadata first) as [metadata|] eqn:Hmeta; cbn.
    + do 3 eexists. split; [reflexivity|]. split; [done|].
      left. split; [done|]. split; [done|].
      by exists vector_store, first, rest, metadata.
    + do 3 eexists. split; [reflexivity|]. split; [done|].
      right. split; [done|]. split; [done|]. right. right. right.
      by exists first, rest.
  - do 3 eexists. split; [reflexivity|]. split; [done|].
    right. split; [done|]. split; [done|]. right. by left.
Qed.

Lemma list_documents_run (st : State) :
  list_documents st
    = (Ok (map (fun item => document_entry (fst item) (snd item))
             (map_to_list (document_store st))),
       after st [EvLog LInfo]).
Proof. reflexivity. Qed.

(** X19. [list_documents] never raises and returns one entry for every
    document of the store and no other: its length is the size of the
    store, and a dictionary is among the entries exactly when it is the
    entry of a stored document under its key. *)
Theorem list_documents_complete (st : State) :
  exists documents,
    list_documents st = (Ok documents, after st [EvLog LInfo])
    /\ length documents = size (document_store st)
    /\ (forall d,
          d ∈ documents
          <-> exists k md,
                document_store st !! k = Some md /\ d = document_entry k md).
Proof.
  eexists. split; [apply list_documents_run|]. split.
  - by rewrite length_map, length_map_to_list.
  - intros d. rewrite list_elem_of_fmap. split.
    + intros ([k md] & -> & Hin). exists k, md.
      by apply elem_of_map_to_list in Hin.
    + intros (k & md & Hk & ->). exists (k, md).
      split; [done|]. by apply elem_of_map_to_list.
Qed.

Lemma count_pdf_all (items : list (string * DocMetadata)) :
  Forall (fun item => doc_file_type (snd item) = "pdf") items ->
  Api.count_pdf (map (fun item => document_entry (fst item) (snd item)) items)
    = Ok (Z.of_nat (length items)).
Proof.
  induction 1 as [|[k md] items Hpdf _ IH]; [done|].
  cbn [map Api.count_pdf]. rewrite IH. cbn in Hpdf.
  change (dict_item (document_entry (k, md).1 (k, md).2) "file_type")
    with (Ok (A := pyval) (VStr (doc_file_type md))).
  rewrite Hpdf. destruct (decide (VStr "pdf" = VStr "pdf")); [|done].
  f_equal. cbn [length]. lia.
Qed.

(** X20. Over a store in which every document is well formed, as every
    store built by uploads is, the statistics endpoint reports as many
    PDF documents as documents, namely the size of the store, beside the
    statistics of the vector store; when the vector store cannot be
    obtained or its statistics raise, the answer is status 500 with the
    text of the exception. *)
Theorem stats_count_every_document (b : Backend) (st : State) :
  registry_ok (document_store st) ->
  exists st',
    document_store st' = document_store st
    /\ Api.get_stats b st
       = (match get_vector_store (be_world b), vs_get_collection_stats b with
          | Raise e, _ | Ok _, Raise e => HTTPException 500 (exn_str e)
          | Ok _, Ok vector_stats =>
              Respond
                {| total_documents := Z.of_nat (size (document_store st));
                   pdf_documents := Z.of_nat (size (document_store st));
                   stats_vector_store := vector_stats;
                   chatbot_type := "RAG-based" |}
          end, st').
Proof.
  intros Hok. unfold Api.get_stats, Api.guarded, bind at 1.
  rewrite list_documents_run.
  assert (Api.count_pdf
            (map (fun item => document_entry (fst item) (snd item))
               (map_to_list (document_store st)))
          = Ok (Z.of_nat (size (document_store st)))) as Hpdf.
  { rewrite count_pdf_all, length_map_to_list; [done|].
    apply Forall_forall. intros [k md] Hin.
    apply elem_of_map_to_list in Hin.
    by destruct (Hok k md Hin) as (_ & _ & Htype & _). }
  unfold_m. unfold after, Api.internal_error. cbn.
  destruct (get_vector_store (be_world b)) as [vector_store|e]; cbn.
  2:{ eexists. split; [|reflexivity]. done. }
  destruct (vs_get_collection_stats b) as [vector_stats|e]; cbn.
  2:{ eexists. split; [|reflexivity]. done. }
  rewrite Hpdf. cbn. rewrite length_map, length_map_to_list.
  eexists. split; [|reflexivity]. done.
Qed.

(** X21. [search_documents] never raises and never changes the document
    store.  It searches all documents, with no document filter, and
    returns the results as the vector store gives them; when obtaining
    the store or the search raises it returns the empty list. *)
Theorem search_documents_outcome (w : World) (query : string) (top_k : Z)
    (st : State) :
  exists results st',
    search_documents w query top_k st = (Ok results, st')
    /\ document_store st' = document_store st
    /\ none_of is_ingestion_event (added st st')
    /\ Forall (fun ev => is_search_call ev = true -> ev = EvSearch query top_k None)
         (added st st')
    /\ match get_vector_store w with
       | Raise _ => results = []
       | Ok vector_store =>
           match search_similar_chunks vector_store query top_k None with
           | Ok found => results = found
           | Raise _ => results = []
           end
       end.
Proof.
  unfold search_documents. unfold_m. cbn.
  destruct (get_vector_store w) as [vector_store|e]; cbn.
  2:{ do 2 eexists. rewrite <- !app_assoc. split; [reflexivity|].
      rewrite added_app. repeat split; repeat constructor; done. }
  destruct (search_similar_chunks vector_store query top_k None)
    as [found|e]; cbn;
    do 2 eexists; rewrite <- !app_assoc; (split; [reflexivity|]);
    rewrite added_app; repeat split; repeat constructor; done.
Qed.

(** ** The two file-name guards *)

Lemma split_on_absent c s : contains c s = false -> Py.split_on c s = [s].
Proof.
  induction s as [|d s IH]; cbn; [done|].
  intros [Hd Hs]%orb_false_iff. rewrite Hd, (IH Hs). done.
Qed.

Lemma name_plain s :
  contains "/" s = false -> s <> "" -> s <> "." -> Path.name s = s.
Proof.
  intros Hs Hne Hdot. unfold Path.name. rewrite (split_on_absent _ _ Hs).
  rewrite filter_cons_True by done. reflexivity.
Qed.

Lemma suffix_plain s :
  contains "/" s = false ->
  Path.suffix s
    = if (0 <? Py.rfind "." s) && (Py.rfind "." s <? Py.len s - 1)
      then Py.slice_from s (Py.rfind "." s) else "".
Proof.
  intros Hs.
  destruct (decide (s = "")) as [->|Hne]; [reflexivity|].
  destruct (decide (s = ".")) as [->|Hdot]; [reflexivity|].
  unfold Path.suffix. by rewrite (name_plain s Hs Hne Hdot).
Qed.

Lemma rfind_go_absent c s i last :
  contains c s = false -> Py.rfind_go c s i last = last.
Proof.
  revert i. induction s as [|d s IH]; intros i; cbn; [done|].
  intros [Hd Hs]%orb_false_iff. rewrite Hd. by apply IH.
Qed.

Lemma rfind_go_app c s1 s2 i last :
  Py.rfind_go c (s1 +:+ s2) i last
    = Py.rfind_go c s2 (i + Py.len s1) (Py.rfind_go c s1 i last).
Proof.
  revert i last. induction s1 as [|d s1 IH]; intros i last.
  - cbn. by rewrite Z.add_0_r.
  - simpl. rewrite IH. f_equal.
    unfold Py.len. cbn [String.length]. lia.
Qed.

(** The last occurrence: [c] followed by a text without [c]. *)
Lemma rfind_last c pre post :
  contains c post = false ->
  Py.rfind c (pre +:+ String c post) = Py.len pre.
Proof.
  intros Hpost. unfold Py.rfind. rewrite rfind_go_app.
  cbn [Py.rfind_go]. rewrite Ascii.eqb_refl.
  by rewrite rfind_go_absent.
Qed.

Lemma to_list_lower s : to_list (Py.lower s) = map Py.lower_char (to_list s).
Proof.
  induction s as [|c s IH]; [done|].
  change (Py.lower (String c s)) with (String (Py.lower_char c) (Py.lower s)).
  cbn [String.list_ascii_of_string map]. by rewrite IH.
Qed.

Lemma length_lower s : String.length (Py.lower s) = String.length s.
Proof.
  rewrite <- (length_to_list (Py.lower s)), <- (length_to_list s).
  by rewrite to_list_lower, length_map.
Qed.

Lemma lower_substring a k s :
  Py.lower (String.substring a k s) = String.substring a k (Py.lower s).
Proof.
  apply to_list_inj.
  rewrite to_list_lower, !to_list_substring, to_list_lower.
  by rewrite <- fmap_drop, <- fmap_take.
Qed.

Lemma slice_from_suffix s i :
  0 <= i <= Py.len s -> Py.slice_from s i = suffix_from (Z.to_nat i) s.
Proof.
  intros Hi. unfold Py.slice_from.
  replace (Py.len s) with (i + (Py.len s - i)) at 1 by lia.
  rewrite slice_nonneg by lia. unfold suffix_from, Py.len. f_equal. lia.
Qed.

Lemma substring_split a s :
  (a <= String.length s)%nat ->
  s = String.substring 0 a s +:+ suffix_from a s.
Proof.
  intros Ha. rewrite <- (suffix_from_0 s) at 1.
  by rewrite (suffix_from_add 0 a s).
Qed.

Lemma lower_char_dot c : Py.lower_char c = "."%char -> c = "."%char.
Proof.
  destruct c as [[] [] [] [] [] [] [] []]; vm_compute; congruence.
Qed.

(** A text of four characters that lowers to [.pdf] is a dot and
    three characters, none of them a dot. *)
Lemma lowers_to_pdf suf :
  Py.lower suf = ".pdf" ->
  exists post, suf = String "." post /\ contains "." post = false.
Proof.
  intros H. apply (f_equal to_list) in H. rewrite to_list_lower in H.
  destruct suf as [|c0 [|c1 [|c2 [|c3 [|c4 rest]]]]]; try done.
  cbn in H. injection H as H0 H1 H2 H3. apply lower_char_dot in H0 as ->.
  eexists. split; [reflexivity|]. cbn [contains].
  destruct (Ascii.eqb_spec "." c1) as [<-|_]; [by vm_compute in H1|].
  destruct (Ascii.eqb_spec "." c2) as [<-|_]; [by vm_compute in H2|].
  destruct (Ascii.eqb_spec "." c3) as [<-|_]; [by vm_compute in H3|].
  done.
Qed.

(** X22. For a file name without a slash the guard of the ingestion
    pipeline and the guard of the upload endpoint differ only on the
    names of exactly four characters: [get_file_type] accepts the name
    exactly when the endpoint's check does and the name has more than
    four characters, that is a stem before the [.pdf]. *)
Theorem file_name_guards (filename : string) :
  contains "/" filename = false ->
  get_file_type filename = Ok "pdf"
  <-> endpoint_allows filename = true /\ (4 < String.length filename)%nat.
Proof.
  intros Hslash. unfold get_file_type, endpoint_allows, endswith.
  rewrite (suffix_plain _ Hslash), length_lower.
  change (String.length ".pdf") with 4%nat.
  set (i := Py.rfind "." filename). set (n := String.length filename).
  split.
  - destruct (decide _) as [Hext|]; [intros _|done].
    destruct (Z.ltb_spec 0 i) as [Hi|]; [|done].
    destruct (Z.ltb_spec i (Py.len filename - 1)) as [Hi'|]; [|done].
    cbn [andb] in Hext.
    rewrite slice_from_suffix in Hext by lia.
    assert (String.length (suffix_from (Z.to_nat i) filename) = 4%nat)
      as Hlen by (by rewrite <- length_lower, Hext).
    unfold suffix_from in Hlen. rewrite length_substring in Hlen.
    unfold Py.len in *. fold n in Hi', Hlen.
    assert (Z.to_nat i = (n - 4)%nat) as Hi4 by lia.
    split; [|lia].
    apply andb_true_iff. split; [apply Nat.leb_le; lia|].
    apply String.eqb_eq. rewrite <- lower_substring, <- Hext.
    unfold suffix_from. fold n. rewrite Hi4. do 2 f_equal. lia.
  - intros [[Hlen Heq]%andb_true_iff Hn]. apply String.eqb_eq in Heq.
    rewrite <- lower_substring in Heq.
    destruct (lowers_to_pdf _ Heq) as (post & Hsuf & Hpost).
    assert (filename
            = String.substring 0 (n - 4) filename +:+ String "." post)
      as Hsplit.
    { rewrite <- Hsuf. rewrite (substring_split (n - 4) filename) at 1 by lia.
      f_equal. unfold suffix_from. fold n. f_equal. lia. }
    assert (i = Z.of_nat (n - 4)) as Hi.
    { unfold i. rewrite Hsplit, (rfind_last _ _ _ Hpost).
      unfold Py.len. rewrite length_substring. fold n. lia. }
    unfold Py.len. fold n.
    destruct (Z.ltb_spec 0 i) as [_|]; [|lia].
    destruct (Z.ltb_spec i (Z.of_nat n - 1)) as [_|]; [|lia].
    cbn [andb]. rewrite slice_from_suffix by (unfold Py.len; fold n; lia).
    rewrite Hi, Nat2Z.id. unfold suffix_from. fold n.
    replace (n - (n - 4))%nat with 4%nat by lia.
    rewrite Heq. by destruct (decide _).
Qed.

(** ** The count of the chunks found *)

(** X23. Whenever the metadata of a chat response has a
    [context_chunks_found] entry, its value is the number of sources the
    response returns, also when more than three results were found. *)
Theorem chunks_found_counts_sources (w : World) (request : ChatRequest)
    (st st' : State) (resp : ChatResponse) (found : pyval) :
  process_chat_message w request st = (Ok resp, st') ->
  dict_get (chat_metadata resp) "context_chunks_found" = Some found ->
  found = VInt (Z.of_nat (length (sources resp))).
Proof.
  destruct (decide (Py.strip (message request) = "")) as [Hq|Hq].
  - unfold process_chat_message, try_except.
    destruct (decide _) as [|]; [|done]. by intros [= <- _].
  - destruct (nonempty_message_reply w request st Hq)
      as (resp' & evs & -> & Hshape & _).
    intros [= <- _].
    destruct Hshape as [->|[[e ->]|(text & rs & _ & ->)]]; cbn.
    + by intros [= <-].
    + done.
    + intros [= <-]. by rewrite prepare_sources_map, length_map.
Qed.

(** ** Instances of the further properties *)

(** X2 at a question asked while the vector store cannot be obtained. *)
Lemma retrieval_failure_reply_witness :
  exists st',
    process_chat_message unreachable_store_world revenue_question empty_state
      = (Ok (processing_error_response
               (Exception "ConnectionError" "index unreachable")), st')
    /\ document_store st' = document_store empty_state
    /\ none_of is_llm_call (added empty_state st').
Proof.
  apply (retrieval_failure_reply unreachable_store_world revenue_question
           empty_state (Exception "ConnectionError" "index unreachable")).
  - vm_compute. discriminate.
  - left. reflexivity.
Defined.

(** X3 at a question whose search finds the report while the completion
    call raises. *)
Lemma failed_generation_keeps_sources_witness :
  exists st',
    process_chat_message failing_completion_world revenue_question empty_state
      = (Ok (rag_response revenue_question generation_apology
               [hit report_page "report.pdf"]), st')
    /\ sources (rag_response revenue_question generation_apology
                  [hit report_page "report.pdf"])
       = map source_of [hit report_page "report.pdf"].
Proof.
  apply (failed_generation_keeps_sources failing_completion_world
           revenue_question (store_of [hit report_page "report.pdf"] (Ok tt))
           [hit report_page "report.pdf"] empty_state).
  - vm_compute. discriminate.
  - reflexivity.
  - reflexivity.
  - discriminate.
  - reflexivity.
Defined.

(** X5 at four hits and the same hits with the fourth replaced and the
    scores changed. *)
Lemma context_reads_first_three_witness :
  _prepare_context_from_search_results four_hits
  = _prepare_context_from_search_results
      [mkSearchResult (Some "alpha") (Some {[ "filename" := VStr "a.pdf" ]})
         None;
       hit "beta" "b.pdf"; hit "gamma" "c.pdf"; hit "omega" "z.pdf";
       hit "psi" "y.pdf"].
Proof.
  apply (context_reads_first_three four_hits
           [mkSearchResult (Some "alpha")
              (Some {[ "filename" := VStr "a.pdf" ]}) None;
            hit "beta" "b.pdf"; hit "gamma" "c.pdf"; hit "omega" "z.pdf";
            hit "psi" "y.pdf"]).
  reflexivity.
Defined.

(** X9 at the scanned document. *)
Lemma zero_chunk_document_registered_witness :
  exists st',
    upload_document scanned_world [] "scan.pdf" empty_state
      = (Ok (upload_response [] "scan.pdf" scan_metadata), st')
    /\ up_status (upload_response [] "scan.pdf" scan_metadata) = "processed"
    /\ dict_get (up_metadata (upload_response [] "scan.pdf" scan_metadata))
         "total_chunks" = Some (VInt 0)
    /\ document_store st' !! "3f2b6c1e" = Some scan_metadata
    /\ none_of is_store_call (added empty_state st').
Proof.
  apply (zero_chunk_document_registered scanned_world [] "scan.pdf"
           empty_state
           (snd (process_document scanned_world [] "scan.pdf" empty_state))
           scan_metadata).
  - vm_compute. reflexivity.
  - reflexivity.
Defined.

(** X10 at the report. *)
Lemma upload_writes_every_chunk_witness :
  exists st',
    upload_document healthy_world [] "report.pdf" empty_state
      = (Ok (upload_response [] "report.pdf" report_metadata), st')
    /\ List.filter is_index_write (added empty_state st')
       = [EvAddChunks "3f2b6c1e" [report_page]
            [("filename", VStr "report.pdf");
             ("file_type", VStr "pdf");
             ("total_chunks", VInt 1)]]
    /\ dict_get (up_metadata (upload_response [] "report.pdf" report_metadata))
         "total_chunks" = Some (VInt 1)
    /\ document_store st' !! "3f2b6c1e" = Some report_metadata.
Proof.
  apply (upload_writes_every_chunk healthy_world [] "report.pdf" empty_state
           (snd (process_document healthy_world [] "report.pdf" empty_state))
           report_metadata (store_of [] (Ok tt))).
  - vm_compute. reflexivity.
  - discriminate.
  - reflexivity.
  - reflexivity.
Defined.

(** X11 at the report. *)
Lemma processed_document_well_formed_witness :
  well_formed_document report_metadata
  /\ doc_document_id report_metadata = "3f2b6c1e"
  /\ doc_filename report_metadata = "report.pdf"
  /\ doc_file_path report_metadata = "/srv/uploads/3f2b6c1e.pdf"
  /\ Py.lower (Path.suffix "report.pdf") = ".pdf"
  /\ document_store
       (snd (process_document healthy_world [] "report.pdf" empty_state))
     = document_store empty_state
  /\ none_of is_store_call
       (added empty_state
          (snd (process_document healthy_world [] "report.pdf" empty_state))).
Proof.
  apply (processed_document_well_formed healthy_world [] "report.pdf"
           empty_state
           (snd (process_document healthy_world [] "report.pdf" empty_state))
           report_metadata).
  vm_compute. reflexivity.
Defined.

(** X14 at a text of ten characters and windows of four characters that
    overlap by one. *)
Lemma fallback_chunk_count_witness :
  exists chunks,
    fallback_chunks 4 1 "abcdefghij" = Ok chunks
    /\ Z.of_nat (length chunks) = (Py.len "abcdefghij" + (4 - 1) - 1) / (4 - 1)
    /\ Forall (fun c => c <> "") chunks
    /\ ("abcdefghij" = "" -> chunks = []).
Proof.
  exact (fallback_chunk_count 4 1 "abcdefghij" ltac:(lia)).
Defined.

(** X15 at the report. *)
Lemma extracted_text_trimmed_witness :
  Py.lstrip report_page = report_page
  /\ Py.rstrip report_page = report_page
  /\ Py.strip report_page = report_page.
Proof.
  apply (extracted_text_trimmed healthy_world "/srv/uploads/3f2b6c1e.pdf"
           empty_state
           (snd (extract_text healthy_world "/srv/uploads/3f2b6c1e.pdf"
                   empty_state))
           report_page).
  reflexivity.
Defined.

(** X16 at the report. *)
Lemma uploaded_document_info_witness :
  exists info,
    get_document_info indexed_backend "3f2b6c1e" report_state
      = (Ok (Some info), report_state)
    /\ dict_get info "document_id" = Some (VStr "3f2b6c1e")
    /\ dict_get info "filename" = Some (VStr "report.pdf")
    /\ dict_get info "file_type" = Some (VStr "pdf")
    /\ dict_get info "status" = Some (VStr "processed")
    /\ dict_get info "total_chunks" = Some (VInt 1)
    /\ dict_get info "total_words" = Some (VInt 5)
    /\ dict_get info "total_characters" = None.
Proof.
  apply (uploaded_document_info indexed_backend [] "report.pdf" empty_state
           report_state (upload_response [] "report.pdf" report_metadata)).
  - vm_compute. reflexivity.
  - reflexivity.
Defined.

(** X17 at the report. *)
Lemma document_endpoint_local_witness :
  Api.get_document indexed_backend "3f2b6c1e" report_state
    = (Respond {| dv_document_id := "3f2b6c1e";
                  dv_filename := VStr "report.pdf";
                  dv_file_type := VStr "pdf";
                  dv_status := VStr "processed";
                  dv_metadata :=
                    [("total_chunks", VInt 1);
                     ("total_words", VInt 5);
                     ("total_characters", VInt 0)] |}, report_state).
Proof.
  apply (document_endpoint_local indexed_backend "3f2b6c1e" report_state
           report_metadata).
  vm_compute. reflexivity.
Defined.

(** X18 at an identifier known to the vector store alone. *)
Lemma document_endpoint_fallback_witness :
  exists code detail st',
    Api.get_document indexed_backend "0a1b2c3d" report_state
      = (HTTPException code detail, st')
    /\ document_store st' = document_store report_state
    /\ ((code = 500 /\ detail = "'status'"
         /\ exists vector_store first rest metadata,
              get_vector_store (be_world indexed_backend) = Ok vector_store
              /\ vs_get_document_chunks indexed_backend "0a1b2c3d"
                 = Ok (first :: rest)
              /\ sc_metadata first = Some metadata)
        \/ (code = 404 /\ detail = "Document not found"
            /\ (raises (get_vector_store (be_world indexed_backend)) = true
                \/ raises (vs_get_document_chunks indexed_backend "0a1b2c3d")
                   = true
                \/ vs_get_document_chunks indexed_backend "0a1b2c3d" = Ok []
                \/ exists first rest,
                     vs_get_document_chunks indexed_backend "0a1b2c3d"
                     = Ok (first :: rest)
                     /\ sc_metadata first = None))).
Proof.
  apply (document_endpoint_fallback indexed_backend "0a1b2c3d" report_state).
  vm_compute. reflexivity.
Defined.

(** X20 at the store that holds the report. *)
Lemma stats_count_every_document_witness :
  exists st',
    document_store st' = document_store report_state
    /\ Api.get_stats indexed_backend report_state
       = (Respond {| total_documents := 1;
                     pdf_documents := 1;
                     stats_vector_store := [("total_vectors", VInt 2)];
                     chatbot_type := "RAG-based" |}, st').
Proof.
  apply (stats_count_every_document indexed_backend report_state).
  apply (serve_keeps_registry [Upload healthy_world [] "report.pdf"]
           empty_state).
  intros k md Hk. cbn in Hk. by rewrite lookup_empty in Hk.
Defined.

(** X22 at a report and at a name that is only an extension. *)
Lemma file_name_guards_witness :
  (get_file_type "Report.PDF" = Ok "pdf"
   <-> endpoint_allows "Report.PDF" = true
       /\ (4 < String.length "Report.PDF")%nat)
  /\ (get_file_type ".pdf" = Ok "pdf"
      <-> endpoint_allows ".pdf" = true /\ (4 < String.length ".pdf")%nat).
Proof.
  split.
  - exact (file_name_guards "Report.PDF" eq_refl).
  - exact (file_name_guards ".pdf" eq_refl).
Defined.

(** X23 at four hits. *)
Lemma chunks_found_counts_sources_witness :
  VInt 4
  = VInt (Z.of_nat
            (length
               (sources
                  (rag_response revenue_question "Revenue grew 12%." four_hits)))).
Proof.
  apply (chunks_found_counts_sources
           (world_of default_settings (Ok (store_of four_hits (Ok tt)))
              (Ok []) one_chunk)
           revenue_question empty_state
           (snd (process_chat_message
                   (world_of default_settings (Ok (store_of four_hits (Ok tt)))
                      (Ok []) one_chunk)
                   revenue_question empty_state))
           (rag_response revenue_question "Revenue grew 12%." four_hits)
           (VInt 4)).
  - vm_compute. reflexivity.
  - reflexivity.
Defined.

(** ** The scope of the search *)

(** X24. The only search a chat request makes is for the stripped
    message, with the configured number of results and the document
    identifier of the request, [None] included: the scope the caller
    asked for is what the vector store is asked. *)
Theorem chat_search_arguments (w : World) (request : ChatRequest) (st : State) :
  Forall (fun ev =>
            is_search_call ev = true ->
            ev = EvSearch (Py.strip (message request))
                   (rag_top_k_results (settings w)) (req_document_id request))
    (added st (snd (process_chat_message w request st))).
Proof.
  destruct (decide (Py.strip (message request) = "")) as [Hq|Hq].
  { unfold process_chat_message, try_except.
    destruct (decide _) as [|]; [|done]. cbn.
    unfold added. rewrite drop_all. constructor. }
  destruct (get_vector_store w) as [vector_store|e] eqn:Hvs.
  2:{ destruct (retrieval_failure_run w request st e Hq (or_introl Hvs))
        as (evs & -> & Hevs).
      cbn [snd]. by rewrite added_app. }
  destruct (search_similar_chunks vector_store (Py.strip (message request))
              (rag_top_k_results (settings w)) (req_document_id request))
    as [search_results|e] eqn:Hsearch.
  2:{ destruct (retrieval_failure_run w request st e Hq
                  (or_intror (ex_intro _ vector_store (conj Hvs Hsearch))))
        as (evs & -> & Hevs).
      cbn [snd]. by rewrite added_app. }
  destruct search_results as [|r rs].
  - assert (process_chat_message w request st
            = (Ok no_information_response,
               after st
                 [EvGetVectorStore;
                  EvSearch (Py.strip (message request))
                    (rag_top_k_results (settings w))
                    (req_document_id request)])) as ->.
    { unfold process_chat_message, after. unfold_m.
      destruct (decide _) as [|]; [done|]. cbn. rewrite Hvs. cbn.
      rewrite Hsearch. cbn. by rewrite <- !app_assoc. }
    cbn [snd]. unfold after. rewrite added_app. repeat constructor; done.
  - destruct (results_found_run w request vector_store (r :: rs) st
                Hq Hvs Hsearch ltac:(done))
      as (text & logs & -> & _ & Hsrch & _).
    cbn [snd]. rewrite added_app.
    repeat (constructor; [done|]).
    eapply Forall_impl; [exact Hsrch|]. cbn. by intros ev ->.
Qed.
